(** * RFP management backend: lifecycle state machines and access control

    A shallow embedding of the Express/Mongoose backend: the three Mongoose
    models (RFP, Response, Document), the express-validator chains, the
    authentication middleware and the three controllers, followed by the
    properties of the lifecycle that the specification states.

    Conventions of the embedding.
    - A MongoDB collection is a finite map from [_id] to document.
    - A [Date] is its number of milliseconds since the epoch; every handler
      takes the instant [now] at which it evaluates [new Date()].
    - A JavaScript [Number] is an integer here.
    - A string is a sequence of code units below 256, one per character:
      the [isLength] of the routes, which counts characters, and the
      [maxlength] of the schemas, which counts code units, count the same.
    - A request body is a record with one optional field per schema path
      that is neither a reference nor a timestamp: a key is absent
      ([None]) or carries a value of the type its path casts to (a number
      for a Number path, not a string that casts to one).  JSON [null],
      the keys of reference paths ([_id], [created_by], [submitted_by],
      [document_ids], [rfp_id]) and those of the timestamps are not part of
      the body, although [Object.assign] and the constructors take them
      like any other key: what follows is about the requests whose bodies
      are of this type.  The [rfp_id] that the
      creation of a Response reads of its body is an argument next to the
      body.
    - [doc.save()] runs, in this order, the schema validators, the
      [pre('save')] hook of the model and the write.  Validators run on
      every path of the document, modified or not; a custom validator is
      skipped when the value of its path is [undefined]; [required] is not.
    - [Model.findByIdAndUpdate] runs neither validators nor hooks.
    - A handler either answers with an error and leaves the database as it
      was, or answers with the document and the new database. *)

From Stdlib Require Import ZArith String Ascii List Bool Lia.
From stdpp Require Import gmap strings list fin_maps sorting.

Local Open Scope string_scope.
Local Open Scope Z_scope.

Abbreviation ObjectId := nat (only parsing).
Abbreviation Date := Z (only parsing).

(** ** JavaScript helpers *)

Module JS.

(** The code units below 256 that [String.prototype.trim], and the [\s]
    of validator's [trim], remove: tab to carriage return, the space and
    the no-break space. *)
Definition is_space (c : ascii) : bool :=
  let n := nat_of_ascii c in
  (Nat.leb 9 n && Nat.leb n 13) || Nat.eqb n 32 || Nat.eqb n 160.

Fixpoint trimStart (s : string) : string :=
  match s with
  | EmptyString => EmptyString
  | String c s' => if is_space c then trimStart s' else s
  end.

Fixpoint trimEnd (s : string) : string :=
  match s with
  | EmptyString => EmptyString
  | String c s' =>
      match trimEnd s' with
      | EmptyString => if is_space c then EmptyString else String c EmptyString
      | t => String c t
      end
  end.

Definition trim (s : string) : string := trimEnd (trimStart s).

Definition len (s : string) : Z := Z.of_nat (String.length s).

(** Truthiness of an optional number: [undefined], and [0], are falsy. *)
Definition truthy (n : option Z) : bool :=
  match n with
  | Some v => negb (v =? 0)
  | None => false
  end.

Definition is_defined {A} (o : option A) : bool :=
  match o with Some _ => true | None => false end.

(** [Math.ceil(n / d)] of two integers, [d <> 0]: the least integer that
    is not below the quotient. *)
Definition ceil_div (n d : Z) : Z := - ((- n) / d).

(** [Math.round(n / d)] of two integers, [d <> 0]: the integer nearest to
    the quotient, the upper one of the two at a tie. *)
Definition round_div (n d : Z) : Z := (2 * n + d) / (2 * d).

(** [Number.isSafeInteger]: the integers that a Number holds exactly, one
    by one. *)
Definition isSafeInteger (n : Z) : bool := Z.abs n <=? 2 ^ 53 - 1.

(** The time values of a valid [Date]: at most 8.64e15 ms from the epoch. *)
Definition is_time_value (t : Z) : bool := Z.abs t <=? 8640000000000000.

(** [String.prototype.toLowerCase] on one code unit below 256: the
    letters [A-Z], and the capital letters of Latin-1. *)
Definition toLowerCase_unit (c : ascii) : ascii :=
  let n := nat_of_ascii c in
  if (Nat.leb 65 n && Nat.leb n 90)
     || (Nat.leb 192 n && Nat.leb n 222 && negb (Nat.eqb n 215))
  then ascii_of_nat (n + 32)
  else c.

Fixpoint toLowerCase (s : string) : string :=
  match s with
  | EmptyString => EmptyString
  | String c s' => String (toLowerCase_unit c) (toLowerCase s')
  end.

End JS.

(** ** Responses of the handlers *)

(** One constructor per [error] string the handlers answer with; the
    comment gives the HTTP status and the kind the specification uses. *)
Inductive Error : Type :=
| AuthenticationRequired   (* 401 'Access denied', no valid token *)
| RoleRestricted           (* 403 'Access denied', authorize(...) : RoleNotPermitted *)
| ValidationFailed         (* 400 'Validation failed', express-validator : ValidationError *)
| NotFound                 (* 404 '... not found' *)
| AccessDenied             (* 403 'Access denied', ownership : Forbidden *)
| CannotUpdate             (* 400 'Cannot update RFP' / 'Cannot update response' : InvalidStateTransition *)
| CannotDelete             (* 400 'Cannot delete RFP' / 'Cannot delete response' : InvalidStateTransition *)
| CannotPublish            (* 400 'Cannot publish RFP' : InvalidStateTransition *)
| CannotClose              (* 400 'Cannot close RFP' : InvalidStateTransition *)
| CannotRespond            (* 400 'Cannot respond to RFP' : InvalidStateTransition *)
| CannotSubmit             (* 400 'Cannot submit response' : InvalidStateTransition *)
| CannotReview             (* 400 'Cannot review response' : InvalidStateTransition *)
| RFPExpired               (* 400 'RFP expired' : ExpiredDeadline *)
| ResponseAlreadyExists    (* 400 'Response already exists' : Conflict *)
| NoFileUploaded           (* 400 'No file uploaded' *)
| RFPIdRequired            (* 400 'RFP ID required' : ValidationError *)
| ResponseIdRequired       (* 400 'Response ID required' : ValidationError *)
| SchemaValidationError    (* next(error) with a Mongoose ValidationError : ValidationError *)
| DuplicateKey             (* next(error) with MongoDB E11000 *)
| InvalidFileType          (* next(error) with the Error of multer's fileFilter *)
| InternalError.           (* next(error) with a TypeError on a null reference *)

Inductive Result (A : Type) : Type :=
| Ok (a : A)
| Err (e : Error).
Arguments Ok {A} a.
Arguments Err {A} e.

Definition bind {A B} (r : Result A) (k : A -> Result B) : Result B :=
  match r with
  | Ok a => k a
  | Err e => Err e
  end.

Notation "'let*' x := r 'in' k" := (bind r (fun x => k))
  (at level 10, x pattern, r at level 100, k at level 200).

(** [check c otherwise e ;; k] is the handlers' idiom
    [if (!c) return res.status(..).json({error: e}); k]. *)
Notation "'check' c 'otherwise' e ;; k" := (if c then k else Err e)
  (at level 10, c at level 100, e at level 9, k at level 200).

Definition is_ok {A} (r : Result A) : bool :=
  match r with Ok _ => true | Err _ => false end.

(** ** Users (models/User.js is referenced only through [req.user]) *)

Inductive Role : Type := buyer | supplier.

Record User : Type := mkUser {
  user_id : ObjectId;
  role : Role
}.

Definition Role_eqb (a b : Role) : bool :=
  match a, b with
  | buyer, buyer | supplier, supplier => true
  | _, _ => false
  end.

(** ** Mongoose schema types: built-in validators *)

Module Schema.

(** [required] on a String path: the value is a non-empty string. *)
Definition required_string (s : string) : bool := negb (String.eqb s "").

(** [maxlength: [n, ...]] *)
Definition maxlength (n : Z) (s : string) : bool := JS.len s <=? n.

(** [min: [n, ...]] *)
Definition min (n : Z) (v : Z) : bool := n <=? v.

(** A validator of an optional path does not run on [undefined]. *)
Definition when_defined {A} (o : option A) (v : A -> bool) : bool :=
  match o with
  | Some a => v a
  | None => true
  end.

End Schema.

(** ** models/RFP.js *)

Module RFP.

Inductive Status : Type := draft | published | closed | cancelled.

Definition Status_eqb (a b : Status) : bool :=
  match a, b with
  | draft, draft | published, published
  | closed, closed | cancelled, cancelled => true
  | _, _ => false
  end.

Record t : Type := mk {
  title : string;
  description : string;
  category : string;
  budget_min : option Z;
  budget_max : option Z;
  deadline : Date;
  requirements : list string;
  evaluation_criteria : list string;
  terms_and_conditions : option string;
  status : Status;
  created_by : ObjectId;
  published_at : option Date;
  response_count : Z;
  document_ids : list ObjectId;
  created_at : Date
}.

(** The part of [req.body] that the schema casts (see the conventions). *)
Record Body : Type := mkBody {
  b_title : option string;
  b_description : option string;
  b_category : option string;
  b_budget_min : option Z;
  b_budget_max : option Z;
  b_deadline : option Date;
  b_requirements : option (list string);
  b_evaluation_criteria : option (list string);
  b_terms_and_conditions : option string;
  b_status : option Status;
  b_published_at : option Date;
  b_response_count : option Z
}.

(** [new RFP({...req.body, created_by})]: every path takes the body's
    value through its setter ([trim]) or its default; a body of the
    conventions carries no [document_ids], whose default is the empty
    list.  A required path the body leaves out stays [undefined] and fails
    [required] on save; that failure is the [None] here. *)
Definition construct (b : Body) (owner : ObjectId) : option t :=
  match b_title b, b_description b, b_category b, b_deadline b with
  | Some ti, Some de, Some ca, Some dl =>
      Some {| title := JS.trim ti;
              description := JS.trim de;
              category := JS.trim ca;
              budget_min := b_budget_min b;
              budget_max := b_budget_max b;
              deadline := dl;
              requirements := List.map JS.trim (default [] (b_requirements b));
              evaluation_criteria := List.map JS.trim (default [] (b_evaluation_criteria b));
              terms_and_conditions := option_map JS.trim (b_terms_and_conditions b);
              status := default draft (b_status b);
              created_by := owner;
              published_at := b_published_at b;
              response_count := default 0 (b_response_count b);
              document_ids := [];
              created_at := 0 |}
  | _, _, _, _ => None
  end.

(** [Object.assign(rfp, req.body)]: each key of the body is set on the
    document through the setter of its path.  A body of the conventions
    carries neither [created_by] nor [document_ids]: they stay. *)
Definition assign (d : t) (b : Body) : t :=
  {| title := from_option JS.trim (title d) (b_title b);
     description := from_option JS.trim (description d) (b_description b);
     category := from_option JS.trim (category d) (b_category b);
     budget_min := match b_budget_min b with Some v => Some v | None => budget_min d end;
     budget_max := match b_budget_max b with Some v => Some v | None => budget_max d end;
     deadline := default (deadline d) (b_deadline b);
     requirements := from_option (List.map JS.trim) (requirements d) (b_requirements b);
     evaluation_criteria :=
       from_option (List.map JS.trim) (evaluation_criteria d) (b_evaluation_criteria b);
     terms_and_conditions :=
       match b_terms_and_conditions b with
       | Some v => Some (JS.trim v)
       | None => terms_and_conditions d
       end;
     status := default (status d) (b_status b);
     created_by := created_by d;
     published_at :=
       match b_published_at b with Some v => Some v | None => published_at d end;
     response_count := default (response_count d) (b_response_count b);
     document_ids := document_ids d;
     created_at := created_at d |}.

Definition set_status (st : Status) (d : t) : t :=
  {| title := title d; description := description d;
     category := category d; budget_min := budget_min d;
     budget_max := budget_max d; deadline := deadline d;
     requirements := requirements d;
     evaluation_criteria := evaluation_criteria d;
     terms_and_conditions := terms_and_conditions d;
     status := st;
     created_by := created_by d; published_at := published_at d;
     response_count := response_count d; document_ids := document_ids d;
     created_at := created_at d |}.

Definition set_published_at (v : option Date) (d : t) : t :=
  {| title := title d; description := description d;
     category := category d; budget_min := budget_min d;
     budget_max := budget_max d; deadline := deadline d;
     requirements := requirements d;
     evaluation_criteria := evaluation_criteria d;
     terms_and_conditions := terms_and_conditions d;
     status := status d;
     created_by := created_by d; published_at := v;
     response_count := response_count d; document_ids := document_ids d;
     created_at := created_at d |}.

Definition set_response_count (v : Z) (d : t) : t :=
  {| title := title d; description := description d;
     category := category d; budget_min := budget_min d;
     budget_max := budget_max d; deadline := deadline d;
     requirements := requirements d;
     evaluation_criteria := evaluation_criteria d;
     terms_and_conditions := terms_and_conditions d;
     status := status d;
     created_by := created_by d; published_at := published_at d;
     response_count := v; document_ids := document_ids d;
     created_at := created_at d |}.

Definition set_document_ids (v : list ObjectId) (d : t) : t :=
  {| title := title d; description := description d;
     category := category d; budget_min := budget_min d;
     budget_max := budget_max d; deadline := deadline d;
     requirements := requirements d;
     evaluation_criteria := evaluation_criteria d;
     terms_and_conditions := terms_and_conditions d;
     status := status d;
     created_by := created_by d; published_at := published_at d;
     response_count := response_count d; document_ids := v;
     created_at := created_at d |}.

Definition set_created_at (v : Date) (d : t) : t :=
  {| title := title d; description := description d;
     category := category d; budget_min := budget_min d;
     budget_max := budget_max d; deadline := deadline d;
     requirements := requirements d;
     evaluation_criteria := evaluation_criteria d;
     terms_and_conditions := terms_and_conditions d;
     status := status d;
     created_by := created_by d; published_at := published_at d;
     response_count := response_count d; document_ids := document_ids d;
     created_at := v |}.

(** *** Schema validators *)

(** [return !this.budget_max || value <= this.budget_max] *)
Definition budget_min_validator (this : t) (value : Z) : bool :=
  negb (JS.truthy (budget_max this))
  || match budget_max this with Some mx => value <=? mx | None => false end.

(** [return !this.budget_min || value >= this.budget_min] *)
Definition budget_max_validator (this : t) (value : Z) : bool :=
  negb (JS.truthy (budget_min this))
  || match budget_min this with Some mn => value >=? mn | None => false end.

(** [return value > new Date()] *)
Definition deadline_validator (now : Date) (value : Date) : bool :=
  value >? now.

(** [return this.status !== 'published' || value != null]; the value it
    runs on is defined, so the second disjunct holds. *)
Definition published_at_validator (this : t) (value : Date) : bool :=
  negb (Status_eqb (status this) published) || true.

Definition validate (now : Date) (d : t) : bool :=
  Schema.required_string (title d) && Schema.maxlength 200 (title d)
  && Schema.required_string (description d) && Schema.maxlength 5000 (description d)
  && Schema.required_string (category d) && Schema.maxlength 100 (category d)
  && Schema.when_defined (budget_min d)
       (fun v => Schema.min 0 v && budget_min_validator d v)
  && Schema.when_defined (budget_max d)
       (fun v => Schema.min 0 v && budget_max_validator d v)
  && deadline_validator now (deadline d)
  && forallb (Schema.maxlength 500) (requirements d)
  && forallb (Schema.maxlength 500) (evaluation_criteria d)
  && Schema.when_defined (terms_and_conditions d) (Schema.maxlength 10000)
  && Schema.when_defined (published_at d) (published_at_validator d)
  && Schema.min 0 (response_count d).

(** *** [rfpSchema.pre('save')] *)

(** [if (this.isModified('status') && this.status === 'published'
        && !this.published_at) this.published_at = new Date();] *)
Definition pre_save (isModified_status : bool) (now : Date) (this : t) : t :=
  if isModified_status && Status_eqb (status this) published
     && negb (JS.is_defined (published_at this))
  then set_published_at (Some now) this
  else this.

(** [this.isModified('status')] for a document loaded as [orig] and now
    holding [cur]: a path is marked modified when it is set to a value
    different from the one it has. *)
Definition isModified_status (orig cur : t) : bool :=
  negb (Status_eqb (status orig) (status cur)).

(** [await rfp.save()] of a new document: validation, the timestamps
    plugin, the hook, the insert under the [_id] the driver generated,
    [oid].  On a new document every path the constructor was given is
    modified. *)
Definition save_new (now : Date) (oid : ObjectId) (status_given : bool) (d : t)
    (coll : gmap nat t) : Result (t * gmap nat t) :=
  check validate now d otherwise SchemaValidationError ;;
  let d' := pre_save status_given now (set_created_at now d) in
  match coll !! oid with
  | Some _ => Err DuplicateKey
  | None => Ok (d', <[oid := d']> coll)
  end.

(** [await rfp.save()] of the document loaded from [id] as [orig]. *)
Definition save (now : Date) (id : ObjectId) (orig d : t) (coll : gmap nat t)
    : Result (t * gmap nat t) :=
  check validate now d otherwise SchemaValidationError ;;
  let d' := pre_save (isModified_status orig d) now d in
  Ok (d', <[id := d']> coll).

(** [rfpSchema.virtual('is_expired')]: [this.deadline < new Date()] *)
Definition is_expired (now : Date) (this : t) : bool := deadline this <? now.

(** [rfpSchema.statics.findActive]:
    [this.find({ status: 'published', deadline: { $gt: new Date() } })] *)
Definition findActive (now : Date) (coll : gmap nat t) : gmap nat t :=
  filter (fun kv => Status_eqb (status kv.2) published && (deadline kv.2 >? now)) coll.

(** [rfpSchema.statics.findByCreator]: [this.find({ created_by: userId })] *)
Definition findByCreator (userId : ObjectId) (coll : gmap nat t) : gmap nat t :=
  filter (fun kv => created_by kv.2 = userId) coll.

End RFP.

(** ** models/Response.js *)

Module Response.

Inductive Status : Type := draft | submitted | under_review | approved | rejected.

Definition Status_eqb (a b : Status) : bool :=
  match a, b with
  | draft, draft | submitted, submitted | under_review, under_review
  | approved, approved | rejected, rejected => true
  | _, _ => false
  end.

(** [['approved', 'rejected'].includes(status)] *)
Definition is_decided (st : Status) : bool :=
  Status_eqb st approved || Status_eqb st rejected.

Record t : Type := mk {
  rfp_id : ObjectId;
  submitted_by : ObjectId;
  proposal : string;
  proposed_budget : option Z;
  timeline : option string;
  methodology : option string;
  team_details : option string;
  additional_notes : option string;
  status : Status;
  submitted_at : option Date;
  reviewed_at : option Date;
  reviewer_notes : option string;
  document_ids : list ObjectId;
  created_at : Date
}.

Record Body : Type := mkBody {
  b_proposal : option string;
  b_proposed_budget : option Z;
  b_timeline : option string;
  b_methodology : option string;
  b_team_details : option string;
  b_additional_notes : option string;
  b_status : option Status;
  b_submitted_at : option Date;
  b_reviewed_at : option Date;
  b_reviewer_notes : option string
}.

(** Setting an optional String path: the body's value, trimmed, or the
    value the document has. *)
Definition set_text (cur : option string) (v : option string) : option string :=
  match v with
  | Some s => Some (JS.trim s)
  | None => cur
  end.

Definition set_opt {A} (cur : option A) (v : option A) : option A :=
  match v with
  | Some a => Some a
  | None => cur
  end.

(** [new Response({...req.body, submitted_by: req.user._id})], where
    [rfp_id] is the key [rfp_id] of the body; [None] when a required path
    ([rfp_id], [proposal]) is left [undefined].  A body of the conventions
    carries no [document_ids], whose default is the empty list. *)
Definition construct (rfp_id : option ObjectId) (b : Body) (submitter : ObjectId)
    : option t :=
  match rfp_id, b_proposal b with
  | Some rid, Some p =>
      Some {| rfp_id := rid;
              submitted_by := submitter;
              proposal := JS.trim p;
              proposed_budget := b_proposed_budget b;
              timeline := set_text None (b_timeline b);
              methodology := set_text None (b_methodology b);
              team_details := set_text None (b_team_details b);
              additional_notes := set_text None (b_additional_notes b);
              status := default draft (b_status b);
              submitted_at := b_submitted_at b;
              reviewed_at := b_reviewed_at b;
              reviewer_notes := set_text None (b_reviewer_notes b);
              document_ids := [];
              created_at := 0 |}
  | _, _ => None
  end.

#[global] Arguments construct : simpl never.

(** [Object.assign(response, req.body)].  A body of the conventions
    carries none of [rfp_id], [submitted_by] and [document_ids]: they
    stay. *)
Definition assign (d : t) (b : Body) : t :=
  {| rfp_id := rfp_id d;
     submitted_by := submitted_by d;
     proposal := from_option JS.trim (proposal d) (b_proposal b);
     proposed_budget := set_opt (proposed_budget d) (b_proposed_budget b);
     timeline := set_text (timeline d) (b_timeline b);
     methodology := set_text (methodology d) (b_methodology b);
     team_details := set_text (team_details d) (b_team_details b);
     additional_notes := set_text (additional_notes d) (b_additional_notes b);
     status := default (status d) (b_status b);
     submitted_at := set_opt (submitted_at d) (b_submitted_at b);
     reviewed_at := set_opt (reviewed_at d) (b_reviewed_at b);
     reviewer_notes := set_text (reviewer_notes d) (b_reviewer_notes b);
     document_ids := document_ids d;
     created_at := created_at d |}.

Definition set_status (st : Status) (d : t) : t :=
  {| rfp_id := rfp_id d; submitted_by := submitted_by d;
     proposal := proposal d; proposed_budget := proposed_budget d;
     timeline := timeline d; methodology := methodology d;
     team_details := team_details d; additional_notes := additional_notes d;
     status := st;
     submitted_at := submitted_at d; reviewed_at := reviewed_at d;
     reviewer_notes := reviewer_notes d; document_ids := document_ids d;
     created_at := created_at d |}.

Definition set_submitted_at (v : option Date) (d : t) : t :=
  {| rfp_id := rfp_id d; submitted_by := submitted_by d;
     proposal := proposal d; proposed_budget := proposed_budget d;
     timeline := timeline d; methodology := methodology d;
     team_details := team_details d; additional_notes := additional_notes d;
     status := status d;
     submitted_at := v; reviewed_at := reviewed_at d;
     reviewer_notes := reviewer_notes d; document_ids := document_ids d;
     created_at := created_at d |}.

Definition set_reviewed_at (v : option Date) (d : t) : t :=
  {| rfp_id := rfp_id d; submitted_by := submitted_by d;
     proposal := proposal d; proposed_budget := proposed_budget d;
     timeline := timeline d; methodology := methodology d;
     team_details := team_details d; additional_notes := additional_notes d;
     status := status d;
     submitted_at := submitted_at d; reviewed_at := v;
     reviewer_notes := reviewer_notes d; document_ids := document_ids d;
     created_at := created_at d |}.

Definition set_reviewer_notes (v : option string) (d : t) : t :=
  {| rfp_id := rfp_id d; submitted_by := submitted_by d;
     proposal := proposal d; proposed_budget := proposed_budget d;
     timeline := timeline d; methodology := methodology d;
     team_details := team_details d; additional_notes := additional_notes d;
     status := status d;
     submitted_at := submitted_at d; reviewed_at := reviewed_at d;
     reviewer_notes := set_text None v; document_ids := document_ids d;
     created_at := created_at d |}.

Definition set_document_ids (v : list ObjectId) (d : t) : t :=
  {| rfp_id := rfp_id d; submitted_by := submitted_by d;
     proposal := proposal d; proposed_budget := proposed_budget d;
     timeline := timeline d; methodology := methodology d;
     team_details := team_details d; additional_notes := additional_notes d;
     status := status d;
     submitted_at := submitted_at d; reviewed_at := reviewed_at d;
     reviewer_notes := reviewer_notes d; document_ids := v;
     created_at := created_at d |}.

Definition set_created_at (v : Date) (d : t) : t :=
  {| rfp_id := rfp_id d; submitted_by := submitted_by d;
     proposal := proposal d; proposed_budget := proposed_budget d;
     timeline := timeline d; methodology := methodology d;
     team_details := team_details d; additional_notes := additional_notes d;
     status := status d;
     submitted_at := submitted_at d; reviewed_at := reviewed_at d;
     reviewer_notes := reviewer_notes d; document_ids := document_ids d;
     created_at := v |}.

(** *** Schema validators *)

(** [return this.status === 'draft' || value != null], run on a defined
    value. *)
Definition submitted_at_validator (this : t) (value : Date) : bool :=
  Status_eqb (status this) draft || true.

(** [return !['approved', 'rejected'].includes(this.status) || value != null],
    run on a defined value. *)
Definition reviewed_at_validator (this : t) (value : Date) : bool :=
  negb (is_decided (status this)) || true.

Definition validate (d : t) : bool :=
  Schema.required_string (proposal d) && Schema.maxlength 10000 (proposal d)
  && Schema.when_defined (proposed_budget d) (Schema.min 0)
  && Schema.when_defined (timeline d) (Schema.maxlength 1000)
  && Schema.when_defined (methodology d) (Schema.maxlength 5000)
  && Schema.when_defined (team_details d) (Schema.maxlength 3000)
  && Schema.when_defined (additional_notes d) (Schema.maxlength 2000)
  && Schema.when_defined (submitted_at d) (submitted_at_validator d)
  && Schema.when_defined (reviewed_at d) (reviewed_at_validator d)
  && Schema.when_defined (reviewer_notes d) (Schema.maxlength 2000).

(** *** [responseSchema.pre('save')] *)

Definition pre_save (isModified_status : bool) (now : Date) (this : t) : t :=
  let this1 :=
    if isModified_status && negb (Status_eqb (status this) draft)
       && negb (JS.is_defined (submitted_at this))
    then set_submitted_at (Some now) this
    else this in
  if isModified_status && is_decided (status this1)
     && negb (JS.is_defined (reviewed_at this1))
  then set_reviewed_at (Some now) this1
  else this1.

Definition isModified_status (orig cur : t) : bool :=
  negb (Status_eqb (status orig) (status cur)).

(** *** The unique index [{ rfp_id: 1, submitted_by: 1 }] *)

Definition same_pair (rid uid : ObjectId) (r : t) : Prop :=
  rfp_id r = rid /\ submitted_by r = uid.

#[global] Instance same_pair_dec rid uid r : Decision (same_pair rid uid r).
Proof. unfold same_pair. apply _. Defined.

(** [Response.findOne({ rfp_id, submitted_by })] *)
Definition findOne (rid uid : ObjectId) (coll : gmap nat t) : option t :=
  snd <$> list_find (same_pair rid uid) (snd <$> map_to_list coll).

(** Another document of the collection already holds the key of [d],
    the document stored (or to be stored) under [id]. *)
Definition index_conflict (id : ObjectId) (d : t) (coll : gmap nat t) : bool :=
  JS.is_defined (findOne (rfp_id d) (submitted_by d) (delete id coll)).

(** [await response.save()] of a new document. *)
Definition save_new (now : Date) (oid : ObjectId) (status_given : bool) (d : t)
    (coll : gmap nat t) : Result (t * gmap nat t) :=
  check validate d otherwise SchemaValidationError ;;
  let d' := pre_save status_given now (set_created_at now d) in
  match coll !! oid with
  | Some _ => Err DuplicateKey
  | None =>
      check negb (index_conflict oid d' coll) otherwise DuplicateKey ;;
      Ok (d', <[oid := d']> coll)
  end.

(** [await response.save()] of the document loaded from [id] as [orig]. *)
Definition save (now : Date) (id : ObjectId) (orig d : t) (coll : gmap nat t)
    : Result (t * gmap nat t) :=
  check validate d otherwise SchemaValidationError ;;
  let d' := pre_save (isModified_status orig d) now d in
  check negb (index_conflict id d' coll) otherwise DuplicateKey ;;
  Ok (d', <[id := d']> coll).

End Response.

(** ** models/Document.js *)

Module Document.

Inductive DocumentType : Type := rfp_document | response_document | attachment.

Definition DocumentType_eqb (a b : DocumentType) : bool :=
  match a, b with
  | rfp_document, rfp_document | response_document, response_document
  | attachment, attachment => true
  | _, _ => false
  end.

Record t : Type := mk {
  filename : string;
  original_filename : string;
  file_size : Z;
  content_type : string;
  document_type : DocumentType;
  description : option string;
  rfp_id : option ObjectId;
  response_id : option ObjectId;
  uploaded_by : ObjectId;
  file_path : string;
  created_at : Date
}.

(** The file of the request, as multer hands it to [fileFilter] and, once
    let through, leaves it in [req.file]; its size is within the limit
    that multer is set up with. *)
Record File : Type := mkFile {
  f_filename : string;
  f_originalname : string;
  f_size : Z;
  f_mimetype : string;
  f_path : string
}.

(** The fields of the multipart form. *)
Record Body : Type := mkBody {
  b_document_type : option DocumentType;
  b_description : option string;
  b_rfp_id : option ObjectId;
  b_response_id : option ObjectId
}.

(** [new Document({...})] of [uploadDocument]; [None] when the required
    path [document_type] is left [undefined]. *)
Definition construct (f : File) (b : Body) (uploader : ObjectId) : option t :=
  match b_document_type b with
  | Some ty =>
      Some {| filename := JS.trim (f_filename f);
              original_filename := JS.trim (f_originalname f);
              file_size := f_size f;
              content_type := JS.trim (f_mimetype f);
              document_type := ty;
              description := option_map JS.trim (b_description b);
              rfp_id := b_rfp_id b;
              response_id := b_response_id b;
              uploaded_by := uploader;
              file_path := JS.trim (f_path f);
              created_at := 0 |}
  | None => None
  end.

Definition set_created_at (v : Date) (d : t) : t :=
  {| filename := filename d;
     original_filename := original_filename d; file_size := file_size d;
     content_type := content_type d; document_type := document_type d;
     description := description d; rfp_id := rfp_id d;
     response_id := response_id d; uploaded_by := uploaded_by d;
     file_path := file_path d; created_at := v |}.

(** [return this.document_type !== 'rfp_document' || value != null], run
    on a defined value. *)
Definition rfp_id_validator (this : t) (value : ObjectId) : bool :=
  negb (DocumentType_eqb (document_type this) rfp_document) || true.

(** [return this.document_type !== 'response_document' || value != null],
    run on a defined value. *)
Definition response_id_validator (this : t) (value : ObjectId) : bool :=
  negb (DocumentType_eqb (document_type this) response_document) || true.

Definition validate (d : t) : bool :=
  Schema.required_string (filename d)
  && Schema.required_string (original_filename d)
  && Schema.min 0 (file_size d)
  && Schema.required_string (content_type d)
  && Schema.when_defined (description d) (Schema.maxlength 500)
  && Schema.when_defined (rfp_id d) (rfp_id_validator d)
  && Schema.when_defined (response_id d) (response_id_validator d)
  && Schema.required_string (file_path d).

(** [await document.save()] of a new document. *)
Definition save_new (now : Date) (oid : ObjectId) (d : t) (coll : gmap nat t)
    : Result (t * gmap nat t) :=
  check validate d otherwise SchemaValidationError ;;
  let d' := set_created_at now d in
  match coll !! oid with
  | Some _ => Err DuplicateKey
  | None => Ok (d', <[oid := d']> coll)
  end.

End Document.

(** ** The database *)

Record DB : Type := mkDB {
  rfps : gmap nat RFP.t;
  responses : gmap nat Response.t;
  documents : gmap nat Document.t
}.

Definition with_rfps (m : gmap nat RFP.t) (db : DB) : DB :=
  {| rfps := m; responses := responses db; documents := documents db |}.

Definition with_responses (m : gmap nat Response.t) (db : DB) : DB :=
  {| rfps := rfps db; responses := m; documents := documents db |}.

Definition with_documents (m : gmap nat Document.t) (db : DB) : DB :=
  {| rfps := rfps db; responses := responses db; documents := m |}.

(** [RFP.findByIdAndUpdate(id, { $inc: { response_count: 1 } })]: no
    validators, no hooks; nothing happens when [id] matches no document. *)
Definition inc_response_count (id : ObjectId) (db : DB) : DB :=
  with_rfps
    (alter (fun r => RFP.set_response_count (RFP.response_count r + 1) r) id (rfps db))
    db.

(** [RFP.findByIdAndUpdate(id, { $push: { document_ids: doc } })] *)
Definition push_rfp_document (id doc : ObjectId) (db : DB) : DB :=
  with_rfps
    (alter (fun r => RFP.set_document_ids (RFP.document_ids r ++ [doc]) r) id (rfps db))
    db.

(** [Response.findByIdAndUpdate(id, { $push: { document_ids: doc } })] *)
Definition push_response_document (id doc : ObjectId) (db : DB) : DB :=
  with_responses
    (alter (fun r => Response.set_document_ids (Response.document_ids r ++ [doc]) r)
       id (responses db))
    db.

(** [$pull]: every occurrence of the value leaves the array. *)
Definition pull (doc : ObjectId) (l : list ObjectId) : list ObjectId :=
  List.filter (fun x => negb (Nat.eqb x doc)) l.

Definition pull_rfp_document (id doc : ObjectId) (db : DB) : DB :=
  with_rfps
    (alter (fun r => RFP.set_document_ids (pull doc (RFP.document_ids r)) r) id (rfps db))
    db.

Definition pull_response_document (id doc : ObjectId) (db : DB) : DB :=
  with_responses
    (alter (fun r => Response.set_document_ids (pull doc (Response.document_ids r)) r)
       id (responses db))
    db.

(** ** middleware/auth.js *)

Module Auth.

(** [authenticate]: [req.user] is the active user the token names, or the
    request ends with 401. *)
Definition authenticate (req_user : option User) : Result User :=
  match req_user with
  | Some u => Ok u
  | None => Err AuthenticationRequired
  end.

(** [authorize(...roles)] *)
Definition authorize (roles : list Role) (req_user : option User) : Result User :=
  match req_user with
  | None => Err AuthenticationRequired
  | Some u =>
      check existsb (Role_eqb (role u)) roles otherwise RoleRestricted ;;
      Ok u
  end.

(** [optionalAuth] never ends the request: [req.user] stays as it is. *)
Definition optionalAuth (req_user : option User) : option User := req_user.

End Auth.

(** ** middleware/validation.js *)

Module Validation.

(** [isLength({ min, max })], on a string of the conventions: its
    characters are its code units. *)
Definition isLength (mn mx : Z) (s : string) : bool :=
  (mn <=? JS.len s) && (JS.len s <=? mx).

(** [body(f).trim()] on a field that may be missing: the chain runs on
    the empty string then. *)
Definition trimmed (v : option string) : string :=
  JS.trim (default "" v).

(** [body(f).optional()....]: the chain is skipped on a missing field. *)
Definition optional {A} (v : option A) (chain : A -> bool) : bool :=
  match v with
  | Some a => chain a
  | None => true
  end.

(** The custom validator of [budget_max]:
    [if (req.body.budget_min && value < req.body.budget_min) throw ...],
    on the two numbers of a body of the conventions. *)
Definition budget_max_custom (b : RFP.Body) (value : Z) : bool :=
  negb (JS.truthy (RFP.b_budget_min b)
        && match RFP.b_budget_min b with Some mn => value <? mn | None => false end).

(** The custom validator of [deadline]:
    [if (new Date(value) <= new Date()) throw ...] *)
Definition deadline_custom (now : Date) (value : Date) : bool :=
  negb (value <=? now).

Definition rfp_checks (now : Date) (b : RFP.Body) : bool :=
  isLength 5 200 (trimmed (RFP.b_title b))
  && isLength 10 5000 (trimmed (RFP.b_description b))
  && isLength 2 100 (trimmed (RFP.b_category b))
  && optional (RFP.b_budget_min b) (fun v => 0 <=? v)
  && optional (RFP.b_budget_max b) (fun v => (0 <=? v) && budget_max_custom b v)
  && match RFP.b_deadline b with
     | Some dl => deadline_custom now dl
     | None => false
     end
  && optional (RFP.b_requirements b)
       (forallb (fun s => isLength 0 500 (JS.trim s)))
  && optional (RFP.b_evaluation_criteria b)
       (forallb (fun s => isLength 0 500 (JS.trim s)))
  && optional (RFP.b_terms_and_conditions b) (fun s => isLength 0 10000 (JS.trim s)).

(** The sanitizers of the chain write the trimmed strings back. *)
Definition rfp_sanitize (b : RFP.Body) : RFP.Body :=
  {| RFP.b_title := Some (trimmed (RFP.b_title b));
     RFP.b_description := Some (trimmed (RFP.b_description b));
     RFP.b_category := Some (trimmed (RFP.b_category b));
     RFP.b_budget_min := RFP.b_budget_min b;
     RFP.b_budget_max := RFP.b_budget_max b;
     RFP.b_deadline := RFP.b_deadline b;
     RFP.b_requirements := option_map (List.map JS.trim) (RFP.b_requirements b);
     RFP.b_evaluation_criteria :=
       option_map (List.map JS.trim) (RFP.b_evaluation_criteria b);
     RFP.b_terms_and_conditions := option_map JS.trim (RFP.b_terms_and_conditions b);
     RFP.b_status := RFP.b_status b;
     RFP.b_published_at := RFP.b_published_at b;
     RFP.b_response_count := RFP.b_response_count b |}.

(** [validateRFP]: the chain, then [handleValidationErrors].  The check
    of [status] ([isIn] the four statuses) holds of every value of the
    type. *)
Definition validateRFP (now : Date) (b : RFP.Body) : Result RFP.Body :=
  check rfp_checks now b otherwise ValidationFailed ;;
  Ok (rfp_sanitize b).

Definition response_checks (b : Response.Body) : bool :=
  isLength 10 10000 (trimmed (Response.b_proposal b))
  && optional (Response.b_proposed_budget b) (fun v => 0 <=? v)
  && optional (Response.b_timeline b) (fun s => isLength 0 1000 (JS.trim s))
  && optional (Response.b_methodology b) (fun s => isLength 0 5000 (JS.trim s))
  && optional (Response.b_team_details b) (fun s => isLength 0 3000 (JS.trim s))
  && optional (Response.b_additional_notes b) (fun s => isLength 0 2000 (JS.trim s)).

Definition response_sanitize (b : Response.Body) : Response.Body :=
  {| Response.b_proposal := Some (trimmed (Response.b_proposal b));
     Response.b_proposed_budget := Response.b_proposed_budget b;
     Response.b_timeline := option_map JS.trim (Response.b_timeline b);
     Response.b_methodology := option_map JS.trim (Response.b_methodology b);
     Response.b_team_details := option_map JS.trim (Response.b_team_details b);
     Response.b_additional_notes := option_map JS.trim (Response.b_additional_notes b);
     Response.b_status := Response.b_status b;
     Response.b_submitted_at := Response.b_submitted_at b;
     Response.b_reviewed_at := Response.b_reviewed_at b;
     Response.b_reviewer_notes := Response.b_reviewer_notes b |}.

(** [validateResponse]; [status] is [isIn] the five statuses by type. *)
Definition validateResponse (b : Response.Body) : Result Response.Body :=
  check response_checks b otherwise ValidationFailed ;;
  Ok (response_sanitize b).

(** [body('rfp_id').isMongoId()] of the creation route. *)
Definition validateRfpId (rfp_id : option ObjectId) : bool :=
  JS.is_defined rfp_id.

(** The body of [POST /api/responses/:id/review]. *)
Record ReviewBody : Type := mkReviewBody {
  rb_status : option Response.Status;
  rb_reviewer_notes : option string
}.

(** [body('status').isIn(['approved', 'rejected', 'under_review'])] *)
Definition review_status_allowed (st : Response.Status) : bool :=
  match st with
  | Response.approved | Response.rejected | Response.under_review => true
  | Response.draft | Response.submitted => false
  end.

Definition validateReview (b : ReviewBody) : Result ReviewBody :=
  check match rb_status b with
        | Some st => review_status_allowed st
        | None => false
        end
        && optional (rb_reviewer_notes b) (fun s => isLength 0 2000 (JS.trim s))
    otherwise ValidationFailed ;;
  Ok {| rb_status := rb_status b;
        rb_reviewer_notes := option_map JS.trim (rb_reviewer_notes b) |}.

(** The chain of [POST /api/documents/upload]: [document_type] is
    required ([isIn] its three values by type), the rest optional. *)
Definition validateUpload (b : Document.Body) : Result Document.Body :=
  check JS.is_defined (Document.b_document_type b)
        && optional (Document.b_description b) (fun s => isLength 0 500 (JS.trim s))
    otherwise ValidationFailed ;;
  Ok {| Document.b_document_type := Document.b_document_type b;
        Document.b_description := option_map JS.trim (Document.b_description b);
        Document.b_rfp_id := Document.b_rfp_id b;
        Document.b_response_id := Document.b_response_id b |}.

(** [validatePagination] *)
Definition validatePagination (page limit : option Z) : bool :=
  optional page (fun p => 1 <=? p)
  && optional limit (fun l => (1 <=? l) && (l <=? 100)).

End Validation.

(** ** The [pagination] object of the three listings *)

Module Pagination.

Record t : Type := mk {
  current_page : Z;
  total_pages : Z;
  total_items : Z;
  items_per_page : Z
}.

(** [{ current_page: page, total_pages: Math.ceil(total / limit),
       total_items: total, items_per_page: limit }] *)
Definition make (page limit : Z) (total : nat) : t :=
  {| current_page := page;
     total_pages := JS.ceil_div (Z.of_nat total) limit;
     total_items := Z.of_nat total;
     items_per_page := limit |}.

End Pagination.

(** ** controllers/rfpController.js *)

Module rfpController.

(** [req.query] of [GET /api/rfps]. *)
Record Query : Type := mkQuery {
  q_page : option Z;
  q_limit : option Z;
  q_status : option RFP.Status;
  q_category : option string;
  q_search : option string;
  q_my_rfps : bool
}.

(** The filter object handed to [RFP.find] and [RFP.countDocuments]. *)
Record Filter : Type := mkFilter {
  f_status : option RFP.Status;
  f_category : option string;
  f_or : option string;
  f_deadline_gt : option Date;
  f_created_by : option ObjectId
}.

Record Page : Type := mkPage {
  data : list RFP.t;
  total_items : nat
}.

(** [parseInt(req.query.x) || dflt] *)
Definition parse_or (v : option Z) (dflt : Z) : Z :=
  match v with
  | Some n => if n =? 0 then dflt else n
  | None => dflt
  end.

Definition build_filter (now : Date) (req_user : option User) (q : Query) : Filter :=
  let supplier_view :=
    match req_user with
    | Some u => Role_eqb (role u) supplier
    | None => false
    end in
  {| f_status := if supplier_view then Some RFP.published else q_status q;
     f_category := q_category q;
     f_or := q_search q;
     f_deadline_gt := if supplier_view then Some now else None;
     f_created_by :=
       match req_user with
       | Some u => if Role_eqb (role u) buyer && q_my_rfps q
                   then Some (user_id u) else None
       | None => None
       end |}.

(** [.sort({ created_at: -1 })] *)
Definition newer_first (a b : RFP.t) : Prop := RFP.created_at b <= RFP.created_at a.

#[global] Instance newer_first_dec a b : Decision (newer_first a b).
Proof. unfold newer_first. apply _. Defined.

Section Listing.

(** [new RegExp(pattern, 'i').test(subject)], left to the engine. *)
Variable regexp_test : string -> string -> bool.

Definition matches (f : Filter) (r : RFP.t) : bool :=
  Schema.when_defined (f_status f) (RFP.Status_eqb (RFP.status r))
  && Schema.when_defined (f_category f) (fun p => regexp_test p (RFP.category r))
  && Schema.when_defined (f_or f)
       (fun p => regexp_test p (RFP.title r) || regexp_test p (RFP.description r))
  && Schema.when_defined (f_deadline_gt f) (fun t => RFP.deadline r >? t)
  && Schema.when_defined (f_created_by f) (Nat.eqb (RFP.created_by r)).

Definition find (f : Filter) (db : DB) : list RFP.t :=
  List.filter (matches f) (snd <$> map_to_list (rfps db)).

(** [getAllRFPs]; the route's [validatePagination] keeps [page >= 1]
    and [1 <= limit <= 100].  This is the answer once the filter is built:
    [new RegExp] throws on a [category] or [search] that is no pattern, and
    the handler then ends in [next(error)]. *)
Definition getAllRFPs (now : Date) (req_user : option User) (q : Query)
    (db : DB) : Page :=
  let page := parse_or (q_page q) 1 in
  let limit := parse_or (q_limit q) 10 in
  let skip := (page - 1) * limit in
  let filter := build_filter now req_user q in
  let found := merge_sort newer_first (find filter db) in
  {| data := take (Z.to_nat limit) (drop (Z.to_nat skip) found);
     total_items := length (find filter db) |}.

End Listing.

(** [getRFPById] *)
Definition getRFPById (req_user : option User) (id : ObjectId) (db : DB)
    : Result RFP.t :=
  match rfps db !! id with
  | None => Err NotFound
  | Some rfp =>
      check negb (RFP.Status_eqb (RFP.status rfp) RFP.draft
                  && match req_user with
                     | None => true
                     | Some u => negb (Nat.eqb (RFP.created_by rfp) (user_id u))
                     end)
        otherwise AccessDenied ;;
      Ok rfp
  end.

(** [createRFP]; [oid] is the [_id] the driver generates. *)
Definition createRFP (now : Date) (oid : ObjectId) (u : User) (b : RFP.Body)
    (db : DB) : Result (RFP.t * DB) :=
  match RFP.construct b (user_id u) with
  | None => Err SchemaValidationError
  | Some rfp =>
      let* (rfp', m) :=
        RFP.save_new now oid (JS.is_defined (RFP.b_status b)) rfp (rfps db) in
      Ok (rfp', with_rfps m db)
  end.

(** [updateRFP] *)
Definition updateRFP (now : Date) (u : User) (id : ObjectId) (b : RFP.Body)
    (db : DB) : Result (RFP.t * DB) :=
  match rfps db !! id with
  | None => Err NotFound
  | Some rfp =>
      check Nat.eqb (RFP.created_by rfp) (user_id u) otherwise AccessDenied ;;
      check negb (RFP.Status_eqb (RFP.status rfp) RFP.closed
                  || RFP.Status_eqb (RFP.status rfp) RFP.cancelled)
        otherwise CannotUpdate ;;
      let* (rfp', m) := RFP.save now id rfp (RFP.assign rfp b) (rfps db) in
      Ok (rfp', with_rfps m db)
  end.

(** [deleteRFP] *)
Definition deleteRFP (u : User) (id : ObjectId) (db : DB) : Result DB :=
  match rfps db !! id with
  | None => Err NotFound
  | Some rfp =>
      check Nat.eqb (RFP.created_by rfp) (user_id u) otherwise AccessDenied ;;
      check RFP.Status_eqb (RFP.status rfp) RFP.draft otherwise CannotDelete ;;
      Ok (with_rfps (delete id (rfps db)) db)
  end.

(** [publishRFP] *)
Definition publishRFP (now : Date) (u : User) (id : ObjectId) (db : DB)
    : Result (RFP.t * DB) :=
  match rfps db !! id with
  | None => Err NotFound
  | Some rfp =>
      check Nat.eqb (RFP.created_by rfp) (user_id u) otherwise AccessDenied ;;
      check RFP.Status_eqb (RFP.status rfp) RFP.draft otherwise CannotPublish ;;
      let rfp1 := RFP.set_published_at (Some now) (RFP.set_status RFP.published rfp) in
      let* (rfp', m) := RFP.save now id rfp rfp1 (rfps db) in
      Ok (rfp', with_rfps m db)
  end.

(** [closeRFP] *)
Definition closeRFP (now : Date) (u : User) (id : ObjectId) (db : DB)
    : Result (RFP.t * DB) :=
  match rfps db !! id with
  | None => Err NotFound
  | Some rfp =>
      check Nat.eqb (RFP.created_by rfp) (user_id u) otherwise AccessDenied ;;
      check RFP.Status_eqb (RFP.status rfp) RFP.published otherwise CannotClose ;;
      let* (rfp', m) :=
        RFP.save now id rfp (RFP.set_status RFP.closed rfp) (rfps db) in
      Ok (rfp', with_rfps m db)
  end.

(** [.sort({ submitted_at: -1 })]; a missing date sorts last. *)
Definition later_first (a b : Response.t) : Prop :=
  match Response.submitted_at a, Response.submitted_at b with
  | Some x, Some y => y <= x
  | Some _, None => True
  | None, Some _ => False
  | None, None => True
  end.

#[global] Instance later_first_dec a b : Decision (later_first a b).
Proof. unfold later_first. repeat case_match; apply _. Defined.

(** [getRFPResponses] *)
Definition getRFPResponses (u : User) (id : ObjectId) (db : DB)
    : Result (list Response.t) :=
  match rfps db !! id with
  | None => Err NotFound
  | Some rfp =>
      check Nat.eqb (RFP.created_by rfp) (user_id u) otherwise AccessDenied ;;
      Ok (merge_sort later_first
            (List.filter (fun r => Nat.eqb (Response.rfp_id r) id)
               (snd <$> map_to_list (responses db))))
  end.

Section ListingPagination.

Variable regexp_test : string -> string -> bool.

(** The [pagination] object that [getAllRFPs] answers next to [data]. *)
Definition getAllRFPs_pagination (now : Date) (req_user : option User)
    (q : Query) (db : DB) : Pagination.t :=
  let page := parse_or (q_page q) 1 in
  let limit := parse_or (q_limit q) 10 in
  let filter := build_filter now req_user q in
  Pagination.make page limit (length (find regexp_test filter db)).

End ListingPagination.

End rfpController.

(** ** controllers/responseController.js *)

Module responseController.

(** [createResponse]; [oid] is the [_id] the driver generates and
    [rfp_id] the key [rfp_id] of the body.  [RFP.findById(undefined)] finds
    nothing. *)
Definition createResponse (now : Date) (oid : ObjectId) (u : User)
    (rfp_id : option ObjectId) (b : Response.Body) (db : DB)
    : Result (Response.t * DB) :=
  match rfp_id ≫= (fun rid => pair rid <$> rfps db !! rid) with
  | None => Err NotFound
  | Some (rid, rfp) =>
      check RFP.Status_eqb (RFP.status rfp) RFP.published otherwise CannotRespond ;;
      check negb (RFP.deadline rfp <? now) otherwise RFPExpired ;;
      match Response.findOne rid (user_id u) (responses db) with
      | Some _ => Err ResponseAlreadyExists
      | None =>
          match Response.construct rfp_id b (user_id u) with
          | None => Err SchemaValidationError
          | Some response =>
              let* (response', m) :=
                Response.save_new now oid (JS.is_defined (Response.b_status b))
                  response (responses db) in
              let db1 := with_responses m db in
              let db2 :=
                if Response.Status_eqb (Response.status response') Response.submitted
                then inc_response_count rid db1
                else db1 in
              Ok (response', db2)
          end
      end
  end.

(** [updateResponse].  [response.rfp_id] is populated: it is [null] when
    the RFP is gone, and reading [.deadline] of it throws. *)
Definition updateResponse (now : Date) (u : User) (id : ObjectId)
    (b : Response.Body) (db : DB) : Result (Response.t * DB) :=
  match responses db !! id with
  | None => Err NotFound
  | Some response =>
      check Nat.eqb (Response.submitted_by response) (user_id u)
        otherwise AccessDenied ;;
      check negb (Response.is_decided (Response.status response))
        otherwise CannotUpdate ;;
      match rfps db !! Response.rfp_id response with
      | None => Err InternalError
      | Some rfp =>
          check negb (RFP.deadline rfp <? now) otherwise RFPExpired ;;
          let oldStatus := Response.status response in
          let* (response', m) :=
            Response.save now id response (Response.assign response b)
              (responses db) in
          let db1 := with_responses m db in
          let db2 :=
            if Response.Status_eqb oldStatus Response.draft
               && Response.Status_eqb (Response.status response') Response.submitted
            then inc_response_count (Response.rfp_id response') db1
            else db1 in
          Ok (response', db2)
      end
  end.

(** [deleteResponse] *)
Definition deleteResponse (u : User) (id : ObjectId) (db : DB) : Result DB :=
  match responses db !! id with
  | None => Err NotFound
  | Some response =>
      check Nat.eqb (Response.submitted_by response) (user_id u)
        otherwise AccessDenied ;;
      check Response.Status_eqb (Response.status response) Response.draft
        otherwise CannotDelete ;;
      Ok (with_responses (delete id (responses db)) db)
  end.

(** [submitResponse] *)
Definition submitResponse (now : Date) (u : User) (id : ObjectId) (db : DB)
    : Result (Response.t * DB) :=
  match responses db !! id with
  | None => Err NotFound
  | Some response =>
      check Nat.eqb (Response.submitted_by response) (user_id u)
        otherwise AccessDenied ;;
      check Response.Status_eqb (Response.status response) Response.draft
        otherwise CannotSubmit ;;
      match rfps db !! Response.rfp_id response with
      | None => Err InternalError
      | Some rfp =>
          check negb (RFP.deadline rfp <? now) otherwise RFPExpired ;;
          let response1 :=
            Response.set_submitted_at (Some now)
              (Response.set_status Response.submitted response) in
          let* (response', m) :=
            Response.save now id response response1 (responses db) in
          Ok (response',
              inc_response_count (Response.rfp_id response') (with_responses m db))
      end
  end.

(** [reviewResponse]; [status] and [reviewer_notes] are the two keys the
    handler reads of the body.  Assigning [undefined] to the required
    path [status] fails [required] on save. *)
Definition reviewResponse (now : Date) (u : User) (id : ObjectId)
    (b : Validation.ReviewBody) (db : DB) : Result (Response.t * DB) :=
  match responses db !! id with
  | None => Err NotFound
  | Some response =>
      match rfps db !! Response.rfp_id response with
      | None => Err InternalError
      | Some rfp =>
          check Nat.eqb (RFP.created_by rfp) (user_id u) otherwise AccessDenied ;;
          check Response.Status_eqb (Response.status response) Response.submitted
                || Response.Status_eqb (Response.status response) Response.under_review
            otherwise CannotReview ;;
          match Validation.rb_status b with
          | None => Err SchemaValidationError
          | Some status =>
              let response1 :=
                Response.set_reviewed_at (Some now)
                  (Response.set_reviewer_notes (Validation.rb_reviewer_notes b)
                     (Response.set_status status response)) in
              let* (response', m) :=
                Response.save now id response response1 (responses db) in
              Ok (response', with_responses m db)
          end
      end
  end.

(** [req.query] of [GET /api/responses]. *)
Record Query : Type := mkQuery {
  q_page : option Z;
  q_limit : option Z;
  q_status : option Response.Status
}.

(** The filter object handed to [Response.find] and
    [Response.countDocuments]. *)
Record Filter : Type := mkFilter {
  f_status : option Response.Status;
  f_submitted_by : option ObjectId;
  f_rfp_id_in : option (list ObjectId)
}.

Record Page : Type := mkPage {
  data : list Response.t;
  pagination : Pagination.t
}.

(** [RFP.find({ created_by: req.user._id }).select('_id')], then
    [buyerRFPs.map(rfp => rfp._id)] *)
Definition buyerRFPs (u : User) (db : DB) : list ObjectId :=
  fst <$> List.filter (fun kv => Nat.eqb (RFP.created_by kv.2) (user_id u))
            (map_to_list (rfps db)).

Definition build_filter (u : User) (q : Query) (db : DB) : Filter :=
  {| f_status := q_status q;
     f_submitted_by :=
       if Role_eqb (role u) supplier then Some (user_id u) else None;
     f_rfp_id_in :=
       if Role_eqb (role u) buyer then Some (buyerRFPs u db) else None |}.

Definition matches (f : Filter) (r : Response.t) : bool :=
  Schema.when_defined (f_status f) (Response.Status_eqb (Response.status r))
  && Schema.when_defined (f_submitted_by f) (Nat.eqb (Response.submitted_by r))
  && Schema.when_defined (f_rfp_id_in f)
       (fun ids => existsb (Nat.eqb (Response.rfp_id r)) ids).

Definition find (f : Filter) (db : DB) : list Response.t :=
  List.filter (matches f) (snd <$> map_to_list (responses db)).

(** [.sort({ created_at: -1 })] *)
Definition newer_first (a b : Response.t) : Prop :=
  Response.created_at b <= Response.created_at a.

#[global] Instance newer_first_dec a b : Decision (newer_first a b).
Proof. unfold newer_first. apply _. Defined.

(** [getAllResponses]; the route's [authenticate] sets [req.user] and its
    [validatePagination] keeps [page >= 1] and [1 <= limit <= 100]. *)
Definition getAllResponses (u : User) (q : Query) (db : DB) : Page :=
  let page := rfpController.parse_or (q_page q) 1 in
  let limit := rfpController.parse_or (q_limit q) 10 in
  let skip := (page - 1) * limit in
  let filter := build_filter u q db in
  let found := merge_sort newer_first (find filter db) in
  {| data := take (Z.to_nat limit) (drop (Z.to_nat skip) found);
     pagination := Pagination.make page limit (length (find filter db)) |}.

(** [getResponseById].  [response.rfp_id] is populated: it is [null] when
    the RFP is gone, and reading [.created_by] of it throws. *)
Definition getResponseById (u : User) (id : ObjectId) (db : DB)
    : Result Response.t :=
  match responses db !! id with
  | None => Err NotFound
  | Some response =>
      let isOwner := Nat.eqb (Response.submitted_by response) (user_id u) in
      match rfps db !! Response.rfp_id response with
      | None => Err InternalError
      | Some rfp =>
          let isRFPOwner := Nat.eqb (RFP.created_by rfp) (user_id u) in
          check isOwner || isRFPOwner otherwise AccessDenied ;;
          Ok response
      end
  end.

End responseController.

(** ** controllers/documentController.js *)

Module documentController.

(** [fileFilter]: the MIME types that multer lets through. *)
Definition allowedTypes : list string :=
  [ "application/pdf";
    "application/msword";
    "application/vnd.openxmlformats-officedocument.wordprocessingml.document";
    "application/vnd.ms-excel";
    "application/vnd.openxmlformats-officedocument.spreadsheetml.sheet";
    "text/plain";
    "image/jpeg";
    "image/png";
    "image/gif" ].

Definition fileFilter (file : Document.File) : bool :=
  existsb (String.eqb (Document.f_mimetype file)) allowedTypes.

(** [uploadDocument]; [oid] is the [_id] the driver generates. *)
Definition uploadDocument (now : Date) (oid : ObjectId)
    (file : option Document.File) (u : User) (b : Document.Body) (db : DB)
    : Result (Document.t * DB) :=
  match file with
  | None => Err NoFileUploaded
  | Some f =>
      let document_type := Document.b_document_type b in
      let rfp_id := Document.b_rfp_id b in
      let response_id := Document.b_response_id b in
      check negb (match document_type with
                  | Some Document.rfp_document => true
                  | _ => false
                  end && negb (JS.is_defined rfp_id))
        otherwise RFPIdRequired ;;
      check negb (match document_type with
                  | Some Document.response_document => true
                  | _ => false
                  end && negb (JS.is_defined response_id))
        otherwise ResponseIdRequired ;;
      let* _ :=
        match rfp_id with
        | None => Ok tt
        | Some rid =>
            match rfps db !! rid with
            | None => Err NotFound
            | Some rfp =>
                check Nat.eqb (RFP.created_by rfp) (user_id u)
                  otherwise AccessDenied ;;
                Ok tt
            end
        end in
      let* _ :=
        match response_id with
        | None => Ok tt
        | Some rid =>
            match responses db !! rid with
            | None => Err NotFound
            | Some response =>
                check Nat.eqb (Response.submitted_by response) (user_id u)
                  otherwise AccessDenied ;;
                Ok tt
            end
        end in
      match Document.construct f b (user_id u) with
      | None => Err SchemaValidationError
      | Some document =>
          let* (document', m) :=
            Document.save_new now oid document (documents db) in
          let db1 := with_documents m db in
          let db2 :=
            match rfp_id with
            | Some rid => push_rfp_document rid oid db1
            | None => db1
            end in
          let db3 :=
            match response_id with
            | Some rid => push_response_document rid oid db2
            | None => db2
            end in
          Ok (document', db3)
      end
  end.

(** [deleteDocument]; the file system is not part of the database. *)
Definition deleteDocument (u : User) (id : ObjectId) (db : DB) : Result DB :=
  match documents db !! id with
  | None => Err NotFound
  | Some document =>
      check Nat.eqb (Document.uploaded_by document) (user_id u)
        otherwise AccessDenied ;;
      let db1 :=
        match Document.rfp_id document with
        | Some rid => pull_rfp_document rid id db
        | None => db
        end in
      let db2 :=
        match Document.response_id document with
        | Some rid => pull_response_document rid id db1
        | None => db1
        end in
      Ok (with_documents (delete id (documents db2)) db2)
  end.

(** [req.query] of [GET /api/documents]. *)
Record Query : Type := mkQuery {
  q_page : option Z;
  q_limit : option Z;
  q_document_type : option Document.DocumentType;
  q_rfp_id : option ObjectId;
  q_response_id : option ObjectId
}.

(** The filter object handed to [Document.find] and
    [Document.countDocuments]. *)
Record Filter : Type := mkFilter {
  f_document_type : option Document.DocumentType;
  f_rfp_id : option ObjectId;
  f_response_id : option ObjectId;
  f_uploaded_by : option ObjectId
}.

Record Page : Type := mkPage {
  data : list Document.t;
  pagination : Pagination.t
}.

Definition build_filter (u : User) (q : Query) : Filter :=
  {| f_document_type := q_document_type q;
     f_rfp_id := q_rfp_id q;
     f_response_id := q_response_id q;
     f_uploaded_by :=
       if negb (JS.is_defined (q_rfp_id q)) && negb (JS.is_defined (q_response_id q))
       then Some (user_id u) else None |}.

Definition same_id (a : option ObjectId) (b : ObjectId) : bool :=
  match a with
  | Some x => Nat.eqb x b
  | None => false
  end.

Definition matches (f : Filter) (d : Document.t) : bool :=
  Schema.when_defined (f_document_type f)
    (Document.DocumentType_eqb (Document.document_type d))
  && Schema.when_defined (f_rfp_id f) (same_id (Document.rfp_id d))
  && Schema.when_defined (f_response_id f) (same_id (Document.response_id d))
  && Schema.when_defined (f_uploaded_by f) (Nat.eqb (Document.uploaded_by d)).

Definition find (f : Filter) (db : DB) : list Document.t :=
  List.filter (matches f) (snd <$> map_to_list (documents db)).

(** [.sort({ created_at: -1 })] *)
Definition newer_first (a b : Document.t) : Prop :=
  Document.created_at b <= Document.created_at a.

#[global] Instance newer_first_dec a b : Decision (newer_first a b).
Proof. unfold newer_first. apply _. Defined.

(** [getAllDocuments] *)
Definition getAllDocuments (u : User) (q : Query) (db : DB) : Page :=
  let page := rfpController.parse_or (q_page q) 1 in
  let limit := rfpController.parse_or (q_limit q) 10 in
  let skip := (page - 1) * limit in
  let filter := build_filter u q in
  let found := merge_sort newer_first (find filter db) in
  {| data := take (Z.to_nat limit) (drop (Z.to_nat skip) found);
     pagination := Pagination.make page limit (length (find filter db)) |}.

(** [getDocumentById].  A populated reference is [null] when the document
    it names is gone, and the test [document.rfp_id && ...] then fails. *)
Definition getDocumentById (u : User) (id : ObjectId) (db : DB)
    : Result Document.t :=
  match documents db !! id with
  | None => Err NotFound
  | Some document =>
      let isOwner := Nat.eqb (Document.uploaded_by document) (user_id u) in
      let hasAccess := isOwner in
      let hasAccess :=
        match Document.rfp_id document ≫= (fun rid => rfps db !! rid) with
        | Some rfp =>
            if Nat.eqb (RFP.created_by rfp) (user_id u) then true else hasAccess
        | None => hasAccess
        end in
      let hasAccess :=
        match Document.response_id document ≫= (fun rid => responses db !! rid) with
        | Some response =>
            if Nat.eqb (Response.submitted_by response) (user_id u)
            then true else hasAccess
        | None => hasAccess
        end in
      check hasAccess otherwise AccessDenied ;;
      Ok document
  end.

(** [downloadDocument]; [fs_access path] tells whether [fs.access(path)]
    resolves.  The answer is the document whose file is streamed. *)
Definition downloadDocument (fs_access : string -> bool) (u : User)
    (id : ObjectId) (db : DB) : Result Document.t :=
  match documents db !! id with
  | None => Err NotFound
  | Some document =>
      let isOwner := Nat.eqb (Document.uploaded_by document) (user_id u) in
      let hasAccess := isOwner in
      let hasAccess :=
        match Document.rfp_id document ≫= (fun rid => rfps db !! rid) with
        | Some rfp =>
            if Nat.eqb (RFP.created_by rfp) (user_id u) then true else hasAccess
        | None => hasAccess
        end in
      let hasAccess :=
        match Document.response_id document ≫= (fun rid => responses db !! rid) with
        | Some response =>
            if Nat.eqb (Response.submitted_by response) (user_id u)
            then true else hasAccess
        | None => hasAccess
        end in
      check hasAccess otherwise AccessDenied ;;
      check fs_access (Document.file_path document) otherwise NotFound ;;
      Ok document
  end.

End documentController.

(** ** routes/*.js: the middleware chain in front of each handler *)

Module Routes.

(** POST /api/rfps *)
Definition post_rfp (now : Date) (oid : ObjectId) (req_user : option User)
    (b : RFP.Body) (db : DB) : Result (RFP.t * DB) :=
  let* u := Auth.authenticate req_user in
  let* u := Auth.authorize [buyer] (Some u) in
  let* b := Validation.validateRFP now b in
  rfpController.createRFP now oid u b db.

(** GET /api/rfps/:id *)
Definition get_rfp (req_user : option User) (id : ObjectId) (db : DB)
    : Result RFP.t :=
  rfpController.getRFPById (Auth.optionalAuth req_user) id db.

(** PUT /api/rfps/:id *)
Definition put_rfp (now : Date) (req_user : option User) (id : ObjectId)
    (b : RFP.Body) (db : DB) : Result (RFP.t * DB) :=
  let* u := Auth.authenticate req_user in
  let* u := Auth.authorize [buyer] (Some u) in
  let* b := Validation.validateRFP now b in
  rfpController.updateRFP now u id b db.

(** DELETE /api/rfps/:id *)
Definition delete_rfp (req_user : option User) (id : ObjectId) (db : DB)
    : Result DB :=
  let* u := Auth.authenticate req_user in
  let* u := Auth.authorize [buyer] (Some u) in
  rfpController.deleteRFP u id db.

(** POST /api/rfps/:id/publish *)
Definition post_rfp_publish (now : Date) (req_user : option User)
    (id : ObjectId) (db : DB) : Result (RFP.t * DB) :=
  let* u := Auth.authenticate req_user in
  let* u := Auth.authorize [buyer] (Some u) in
  rfpController.publishRFP now u id db.

(** POST /api/rfps/:id/close *)
Definition post_rfp_close (now : Date) (req_user : option User)
    (id : ObjectId) (db : DB) : Result (RFP.t * DB) :=
  let* u := Auth.authenticate req_user in
  let* u := Auth.authorize [buyer] (Some u) in
  rfpController.closeRFP now u id db.

(** POST /api/responses *)
Definition post_response (now : Date) (oid : ObjectId) (req_user : option User)
    (rfp_id : option ObjectId) (b : Response.Body) (db : DB)
    : Result (Response.t * DB) :=
  let* u := Auth.authenticate req_user in
  let* u := Auth.authorize [supplier] (Some u) in
  check Validation.validateRfpId rfp_id otherwise ValidationFailed ;;
  let* b := Validation.validateResponse b in
  responseController.createResponse now oid u rfp_id b db.

(** PUT /api/responses/:id *)
Definition put_response (now : Date) (req_user : option User) (id : ObjectId)
    (b : Response.Body) (db : DB) : Result (Response.t * DB) :=
  let* u := Auth.authenticate req_user in
  let* u := Auth.authorize [supplier] (Some u) in
  let* b := Validation.validateResponse b in
  responseController.updateResponse now u id b db.

(** DELETE /api/responses/:id *)
Definition delete_response (req_user : option User) (id : ObjectId) (db : DB)
    : Result DB :=
  let* u := Auth.authenticate req_user in
  let* u := Auth.authorize [supplier] (Some u) in
  responseController.deleteResponse u id db.

(** POST /api/responses/:id/submit *)
Definition post_response_submit (now : Date) (req_user : option User)
    (id : ObjectId) (db : DB) : Result (Response.t * DB) :=
  let* u := Auth.authenticate req_user in
  let* u := Auth.authorize [supplier] (Some u) in
  responseController.submitResponse now u id db.

(** POST /api/responses/:id/review *)
Definition post_response_review (now : Date) (req_user : option User)
    (id : ObjectId) (b : Validation.ReviewBody) (db : DB)
    : Result (Response.t * DB) :=
  let* u := Auth.authenticate req_user in
  let* u := Auth.authorize [buyer] (Some u) in
  let* b := Validation.validateReview b in
  responseController.reviewResponse now u id b db.

(** POST /api/documents/upload; [file] is the part [file] of the form, if
    there is one, within the size that multer takes: [upload.single('file')]
    hands it to [fileFilter] and leaves it in [req.file]. *)
Definition post_document_upload (now : Date) (oid : ObjectId)
    (req_user : option User) (file : option Document.File)
    (b : Document.Body) (db : DB) : Result (Document.t * DB) :=
  let* u := Auth.authenticate req_user in
  check match file with
        | Some f => documentController.fileFilter f
        | None => true
        end
    otherwise InvalidFileType ;;
  let* b := Validation.validateUpload b in
  documentController.uploadDocument now oid file u b db.

(** DELETE /api/documents/:id *)
Definition delete_document (req_user : option User) (id : ObjectId) (db : DB)
    : Result DB :=
  let* u := Auth.authenticate req_user in
  documentController.deleteDocument u id db.

(** GET /api/rfps *)
Definition get_rfps (regexp_test : string -> string -> bool) (now : Date)
    (req_user : option User) (q : rfpController.Query) (db : DB)
    : Result rfpController.Page :=
  check Validation.validatePagination
          (rfpController.q_page q) (rfpController.q_limit q)
    otherwise ValidationFailed ;;
  Ok (rfpController.getAllRFPs regexp_test now (Auth.optionalAuth req_user) q db).

(** GET /api/rfps/:id/responses *)
Definition get_rfp_responses (req_user : option User) (id : ObjectId) (db : DB)
    : Result (list Response.t) :=
  let* u := Auth.authenticate req_user in
  let* u := Auth.authorize [buyer] (Some u) in
  rfpController.getRFPResponses u id db.

(** GET /api/responses *)
Definition get_responses (req_user : option User) (q : responseController.Query)
    (db : DB) : Result responseController.Page :=
  let* u := Auth.authenticate req_user in
  check Validation.validatePagination
          (responseController.q_page q) (responseController.q_limit q)
    otherwise ValidationFailed ;;
  Ok (responseController.getAllResponses u q db).

(** GET /api/responses/:id *)
Definition get_response (req_user : option User) (id : ObjectId) (db : DB)
    : Result Response.t :=
  let* u := Auth.authenticate req_user in
  responseController.getResponseById u id db.

(** GET /api/documents *)
Definition get_documents (req_user : option User) (q : documentController.Query)
    (db : DB) : Result documentController.Page :=
  let* u := Auth.authenticate req_user in
  check Validation.validatePagination
          (documentController.q_page q) (documentController.q_limit q)
    otherwise ValidationFailed ;;
  Ok (documentController.getAllDocuments u q db).

(** GET /api/documents/:id *)
Definition get_document (req_user : option User) (id : ObjectId) (db : DB)
    : Result Document.t :=
  let* u := Auth.authenticate req_user in
  documentController.getDocumentById u id db.

(** GET /api/documents/:id/download *)
Definition get_document_download (fs_access : string -> bool)
    (req_user : option User) (id : ObjectId) (db : DB) : Result Document.t :=
  let* u := Auth.authenticate req_user in
  documentController.downloadDocument fs_access u id db.

End Routes.

(** ** utils/helpers.js *)

Module Helpers.

(** [new Date(date) > new Date()] *)
Definition isFutureDate (now : Date) (date : Date) : bool := date >? now.

(** [new Date(date) < new Date()] *)
Definition isPastDate (now : Date) (date : Date) : bool := date <? now.

Definition oneDay : Z := 24 * 60 * 60 * 1000.

(** [Math.round(Math.abs((firstDate - secondDate) / oneDay))].  The code
    computes in doubles.  This is its value while the difference of the two
    time values is a safe integer: the difference is exact then, and the
    quotient, below [2 ^ 27], is rounded by less than the [1 / oneDay] that
    separates an exact quotient from the nearest half-integer it is not. *)
Definition daysBetween (date1 date2 : Date) : Z :=
  JS.round_div (Z.abs (date1 - date2)) oneDay.

(** *** [sanitizeFilename] *)

Definition is_underscore (c : ascii) : bool := Ascii.eqb c "_".

(** The class [[a-zA-Z0-9.-]]. *)
Definition is_filename_unit (c : ascii) : bool :=
  let n := nat_of_ascii c in
  (Nat.leb 97 n && Nat.leb n 122) || (Nat.leb 65 n && Nat.leb n 90)
  || (Nat.leb 48 n && Nat.leb n 57) || Nat.eqb n 46 || Nat.eqb n 45.

(** [.replace(/[^a-zA-Z0-9.-]/g, '_')] *)
Fixpoint replace_special (s : string) : string :=
  match s with
  | EmptyString => EmptyString
  | String c s' =>
      String (if is_filename_unit c then c else "_"%char) (replace_special s')
  end.

(** [.replace(/_{2,}/g, '_')]: of a run of underscores the last one stays. *)
Fixpoint collapse_underscores (s : string) : string :=
  match s with
  | EmptyString => EmptyString
  | String c s' =>
      match s' with
      | String c' _ =>
          if is_underscore c && is_underscore c'
          then collapse_underscores s'
          else String c (collapse_underscores s')
      | EmptyString => String c EmptyString
      end
  end.

(** [.replace(/^_|_$/g, '')]: one underscore at the start and one at the
    end leave. *)
Definition strip_leading (s : string) : string :=
  match s with
  | String c s' => if is_underscore c then s' else s
  | EmptyString => EmptyString
  end.

Fixpoint strip_trailing (s : string) : string :=
  match s with
  | EmptyString => EmptyString
  | String c s' =>
      match s' with
      | EmptyString => if is_underscore c then EmptyString else s
      | String _ _ => String c (strip_trailing s')
      end
  end.

Definition sanitizeFilename (filename : string) : string :=
  JS.toLowerCase
    (strip_trailing (strip_leading (collapse_underscores (replace_special filename)))).

(** The shape of a sanitized file name: every code unit is one of
    [[a-z0-9._-]], no two underscores are neighbours, and none stands at
    the start or at the end. *)
Definition is_sanitized_unit (c : ascii) : bool :=
  let n := nat_of_ascii c in
  (Nat.leb 97 n && Nat.leb n 122) || (Nat.leb 48 n && Nat.leb n 57)
  || Nat.eqb n 46 || Nat.eqb n 45 || Nat.eqb n 95.

Fixpoint all_units (p : ascii -> bool) (s : string) : bool :=
  match s with
  | EmptyString => true
  | String c s' => p c && all_units p s'
  end.

Fixpoint no_neighbours (p : ascii -> bool) (s : string) : bool :=
  match s with
  | EmptyString => true
  | String c s' =>
      match s' with
      | String c' _ => negb (p c && p c') && no_neighbours p s'
      | EmptyString => true
      end
  end.

Definition starts_with (p : ascii -> bool) (s : string) : bool :=
  match s with
  | String c _ => p c
  | EmptyString => false
  end.

Fixpoint ends_with (p : ascii -> bool) (s : string) : bool :=
  match s with
  | EmptyString => false
  | String c s' =>
      match s' with
      | EmptyString => p c
      | String _ _ => ends_with p s'
      end
  end.

Definition sanitized (s : string) : Prop :=
  all_units is_sanitized_unit s = true
  /\ no_neighbours is_underscore s = true
  /\ starts_with is_underscore s = false
  /\ ends_with is_underscore s = false.

(** *** [createPaginationMeta] *)



End Helpers.

(** ** The API as a transition system *)

(** The requests that write to the database. *)
Inductive Request : Type :=
| CreateRFP (oid : ObjectId) (b : RFP.Body)
| UpdateRFP (id : ObjectId) (b : RFP.Body)
| DeleteRFP (id : ObjectId)
| PublishRFP (id : ObjectId)
| CloseRFP (id : ObjectId)
| CreateResponse (oid : ObjectId) (rfp_id : option ObjectId) (b : Response.Body)
| UpdateResponse (id : ObjectId) (b : Response.Body)
| DeleteResponse (id : ObjectId)
| SubmitResponse (id : ObjectId)
| ReviewResponse (id : ObjectId) (b : Validation.ReviewBody)
| UploadDocument (oid : ObjectId) (file : option Document.File) (b : Document.Body)
| DeleteDocument (id : ObjectId).

Definition handle (now : Date) (req_user : option User) (r : Request) (db : DB)
    : Result DB :=
  match r with
  | CreateRFP oid b => let* (_, db') := Routes.post_rfp now oid req_user b db in Ok db'
  | UpdateRFP id b => let* (_, db') := Routes.put_rfp now req_user id b db in Ok db'
  | DeleteRFP id => Routes.delete_rfp req_user id db
  | PublishRFP id => let* (_, db') := Routes.post_rfp_publish now req_user id db in Ok db'
  | CloseRFP id => let* (_, db') := Routes.post_rfp_close now req_user id db in Ok db'
  | CreateResponse oid rfp_id b =>
      let* (_, db') := Routes.post_response now oid req_user rfp_id b db in Ok db'
  | UpdateResponse id b =>
      let* (_, db') := Routes.put_response now req_user id b db in Ok db'
  | DeleteResponse id => Routes.delete_response req_user id db
  | SubmitResponse id =>
      let* (_, db') := Routes.post_response_submit now req_user id db in Ok db'
  | ReviewResponse id b =>
      let* (_, db') := Routes.post_response_review now req_user id b db in Ok db'
  | UploadDocument oid file b =>
      let* (_, db') := Routes.post_document_upload now oid req_user file b db in Ok db'
  | DeleteDocument id => Routes.delete_document req_user id db
  end.

(** The database after a request: a failed request leaves it as it was. *)
Definition after (now : Date) (req_user : option User) (r : Request) (db : DB) : DB :=
  match handle now req_user r db with
  | Ok db' => db'
  | Err _ => db
  end.

Record Call : Type := mkCall {
  call_now : Date;
  call_user : option User;
  call_request : Request
}.

(** Running a sequence of requests, oldest first. *)
Definition run (calls : list Call) (db : DB) : DB :=
  fold_left (fun db c => after (call_now c) (call_user c) (call_request c) db) calls db.

Definition empty_db : DB := {| rfps := ∅; responses := ∅; documents := ∅ |}.

Definition reachable (db : DB) : Prop := exists calls, db = run calls empty_db.

(** The two [$push] steps of [uploadDocument], and the two [$pull] steps of
    [deleteDocument], as functions of the database. *)
Definition push_parents (b : Document.Body) (oid : ObjectId) (db : DB) : DB :=
  let db2 :=
    match Document.b_rfp_id b with
    | Some rid => push_rfp_document rid oid db
    | None => db
    end in
  match Document.b_response_id b with
  | Some rid => push_response_document rid oid db2
  | None => db2
  end.

Definition pull_parents (d : Document.t) (id : ObjectId) (db : DB) : DB :=
  let db1 :=
    match Document.rfp_id d with
    | Some rid => pull_rfp_document rid id db
    | None => db
    end in
  match Document.response_id d with
  | Some rid => pull_response_document rid id db1
  | None => db1
  end.

(** ** What one request does to one RFP *)

(** The requests whose handlers run [$inc: { response_count: 1 }]. *)
Definition may_count (r : Request) : Prop :=
  match r with
  | CreateResponse _ _ _ | UpdateResponse _ _ | SubmitResponse _ => True
  | _ => False
  end.

(** The requests whose handlers run [$push] / [$pull] on [document_ids]. *)
Definition may_link (r : Request) : Prop :=
  match r with
  | UploadDocument _ _ _ | DeleteDocument _ => True
  | _ => False
  end.

(** [rfp_effect now r old new]: a successful request [r] handled at [now]
    may leave the RFP stored under some [_id] as [new] when it was [old]
    ([None]: no such document) before. *)
Inductive rfp_effect (now : Date) : Request -> option RFP.t -> RFP.t -> Prop :=
| effect_none r d :
    rfp_effect now r (Some d) d
| effect_counted r d :
    may_count r ->
    rfp_effect now r (Some d) (RFP.set_response_count (RFP.response_count d + 1) d)
| effect_linked r d l :
    may_link r ->
    rfp_effect now r (Some d) (RFP.set_document_ids l d)
| effect_created oid b b' owner d :
    Validation.validateRFP now b = Ok b' ->
    RFP.construct b' owner = Some d ->
    RFP.validate now d = true ->
    rfp_effect now (CreateRFP oid b) None
      (RFP.pre_save (JS.is_defined (RFP.b_status b')) now (RFP.set_created_at now d))
| effect_updated id b b' d :
    Validation.validateRFP now b = Ok b' ->
    RFP.status d <> RFP.closed -> RFP.status d <> RFP.cancelled ->
    RFP.validate now (RFP.assign d b') = true ->
    rfp_effect now (UpdateRFP id b) (Some d)
      (RFP.pre_save (RFP.isModified_status d (RFP.assign d b')) now (RFP.assign d b'))
| effect_published id d :
    RFP.status d = RFP.draft ->
    RFP.deadline d > now ->
    rfp_effect now (PublishRFP id) (Some d)
      (RFP.set_published_at (Some now) (RFP.set_status RFP.published d))
| effect_closed id d :
    RFP.status d = RFP.published ->
    RFP.deadline d > now ->
    rfp_effect now (CloseRFP id) (Some d) (RFP.set_status RFP.closed d).

(** ** Vocabulary of the properties *)

(** The request carries [status: 'cancelled'] in an RFP body. *)
Definition sets_cancelled (r : Request) : bool :=
  match r with
  | CreateRFP _ b | UpdateRFP _ b =>
      match RFP.b_status b with
      | Some RFP.cancelled => true
      | _ => false
      end
  | _ => false
  end.

(** The request is an RFP update whose body carries [response_count]. *)
Definition overwrites_count (r : Request) : bool :=
  match r with
  | UpdateRFP _ b => JS.is_defined (RFP.b_response_count b)
  | _ => false
  end.

(** Between [db] and [db'] the counter of the RFP [rid] went up by one and
    nothing else changed in the RFP collection. *)
Definition counted_once (rid : ObjectId) (db db' : DB) : Prop :=
  exists rfp,
    rfps db !! rid = Some rfp
    /\ rfps db' !! rid
       = Some (RFP.set_response_count (RFP.response_count rfp + 1) rfp)
    /\ forall id, id <> rid -> rfps db' !! id = rfps db !! id.

(** No two Responses of the collection share [(rfp_id, submitted_by)]. *)
Definition unique_pairs (coll : gmap nat Response.t) : Prop :=
  forall k1 k2 r1 r2,
    coll !! k1 = Some r1 -> coll !! k2 = Some r2 ->
    Response.rfp_id r1 = Response.rfp_id r2 ->
    Response.submitted_by r1 = Response.submitted_by r2 ->
    k1 = k2.

(** A Document names the parent its type asks for. *)
Definition names_required_parent (d : Document.t) : Prop :=
  (Document.document_type d = Document.rfp_document -> is_Some (Document.rfp_id d))
  /\ (Document.document_type d = Document.response_document ->
      is_Some (Document.response_id d)).

(** The user is the one stored in the owner field. *)
Definition is_user (req_user : option User) (owner : ObjectId) : Prop :=
  exists u, req_user = Some u /\ user_id u = owner.


(** [GET /api/rfps?page=n], without any other query parameter. *)
Definition rfps_page (page : Z) : rfpController.Query :=
  {| rfpController.q_page := Some page; rfpController.q_limit := None;
     rfpController.q_status := None; rfpController.q_category := None;
     rfpController.q_search := None; rfpController.q_my_rfps := false |}.

(** [GET /api/documents?rfp_id=rid&page=n] *)
Definition rfp_documents_page (rid : ObjectId) (page : Z) : documentController.Query :=
  {| documentController.q_page := Some page; documentController.q_limit := None;
     documentController.q_document_type := None;
     documentController.q_rfp_id := Some rid;
     documentController.q_response_id := None |}.

(** ** What one request does to one Response *)

(** [response_effect now r old new]: a successful request [r] handled at
    [now] may leave the Response stored under some [_id] as [new] when it
    was [old] ([None]: no such document) before. *)
Inductive response_effect (now : Date)
    : Request -> option Response.t -> Response.t -> Prop :=
| response_kept r d :
    response_effect now r (Some d) d
| response_linked r d l :
    may_link r ->
    response_effect now r (Some d) (Response.set_document_ids l d)
| response_created oid rfp_id b b' submitter d :
    Validation.validateResponse b = Ok b' ->
    Response.construct rfp_id b' submitter = Some d ->
    Response.validate d = true ->
    response_effect now (CreateResponse oid rfp_id b) None
      (Response.pre_save (JS.is_defined (Response.b_status b')) now
         (Response.set_created_at now d))
| response_updated id b b' d :
    Validation.validateResponse b = Ok b' ->
    Response.is_decided (Response.status d) = false ->
    Response.validate (Response.assign d b') = true ->
    response_effect now (UpdateResponse id b) (Some d)
      (Response.pre_save (Response.isModified_status d (Response.assign d b')) now
         (Response.assign d b'))
| response_submitted id d :
    Response.status d = Response.draft ->
    response_effect now (SubmitResponse id) (Some d)
      (Response.set_submitted_at (Some now)
         (Response.set_status Response.submitted d))
| response_reviewed id b st notes d :
    Response.status d = Response.submitted
    \/ Response.status d = Response.under_review ->
    Validation.review_status_allowed st = true ->
    response_effect now (ReviewResponse id b) (Some d)
      (Response.pre_save (negb (Response.Status_eqb (Response.status d) st)) now
         (Response.set_reviewed_at (Some now)
            (Response.set_reviewer_notes notes (Response.set_status st d)))).

(** The dates that the status of a Response asks for are present. *)
Definition stamped (r : Response.t) : Prop :=
  (Response.status r <> Response.draft -> is_Some (Response.submitted_at r))
  /\ (Response.is_decided (Response.status r) = true ->
      is_Some (Response.reviewed_at r)).

(** What the validators of the route and of the schema leave true of a
    stored RFP: the three texts are trimmed and within their lengths, the
    budgets are ordered, no number is negative. *)
Definition well_formed (d : RFP.t) : Prop :=
  (JS.trim (RFP.title d) = RFP.title d /\ 5 <= JS.len (RFP.title d) <= 200)
  /\ (JS.trim (RFP.description d) = RFP.description d
      /\ 10 <= JS.len (RFP.description d) <= 5000)
  /\ (JS.trim (RFP.category d) = RFP.category d
      /\ 2 <= JS.len (RFP.category d) <= 100)
  /\ (forall mn, RFP.budget_min d = Some mn -> 0 <= mn)
  /\ (forall mx, RFP.budget_max d = Some mx -> 0 <= mx)
  /\ (forall mn mx, RFP.budget_min d = Some mn -> RFP.budget_max d = Some mx ->
        mn <= mx)
  /\ 0 <= RFP.response_count d.

(** The RFP [d'] is [d] but for its counter and its list of documents. *)
Definition same_but_count_and_documents (d d' : RFP.t) : Prop :=
  d' = RFP.set_document_ids (RFP.document_ids d')
         (RFP.set_response_count (RFP.response_count d') d).

(** The role that [authorize(...)] asks for on the route of a request;
    the two routes of the Documents ask for none. *)
Definition required_role (r : Request) : option Role :=
  match r with
  | CreateRFP _ _ | UpdateRFP _ _ | DeleteRFP _ | PublishRFP _ | CloseRFP _
  | ReviewResponse _ _ => Some buyer
  | CreateResponse _ _ _ | UpdateResponse _ _ | DeleteResponse _
  | SubmitResponse _ => Some supplier
  | UploadDocument _ _ _ | DeleteDocument _ => None
  end.

(** The Response [d'] carries the proposal of [d]: the two agree on every
    field but [status], [reviewer_notes] and the two dates. *)
Definition same_proposal (d d' : Response.t) : Prop :=
  Response.rfp_id d' = Response.rfp_id d
  /\ Response.submitted_by d' = Response.submitted_by d
  /\ Response.proposal d' = Response.proposal d
  /\ Response.proposed_budget d' = Response.proposed_budget d
  /\ Response.timeline d' = Response.timeline d
  /\ Response.methodology d' = Response.methodology d
  /\ Response.team_details d' = Response.team_details d
  /\ Response.additional_notes d' = Response.additional_notes d
  /\ Response.document_ids d' = Response.document_ids d
  /\ Response.created_at d' = Response.created_at d.

(** What the validators of the route and of the schema leave true of a
    stored Response: the proposal is trimmed and within its lengths, the
    budget is not negative, the optional texts are within their lengths. *)
Definition well_formed_response (r : Response.t) : Prop :=
  (JS.trim (Response.proposal r) = Response.proposal r
   /\ 10 <= JS.len (Response.proposal r) <= 10000)
  /\ (forall v, Response.proposed_budget r = Some v -> 0 <= v)
  /\ (forall s, Response.timeline r = Some s -> JS.len s <= 1000)
  /\ (forall s, Response.methodology r = Some s -> JS.len s <= 5000)
  /\ (forall s, Response.team_details r = Some s -> JS.len s <= 3000)
  /\ (forall s, Response.additional_notes r = Some s -> JS.len s <= 2000).

(** ** A concrete scenario *)

Module Scenario.

Definition alice : User := {| user_id := 1%nat; role := buyer |}.
Definition bob : User := {| user_id := 2%nat; role := supplier |}.
Definition carol : User := {| user_id := 3%nat; role := supplier |}.

(** A valid RFP body with the given deadline and, optionally, a status and
    a response counter. *)
Definition rfp_body (deadline : Date) (status : option RFP.Status)
    (response_count : option Z) : RFP.Body :=
  {| RFP.b_title := Some "Bridge repair works";
     RFP.b_description := Some "Repair of the deck and the bearings";
     RFP.b_category := Some "civil works";
     RFP.b_budget_min := Some 1000;
     RFP.b_budget_max := Some 9000;
     RFP.b_deadline := Some deadline;
     RFP.b_requirements := Some ["ten years of experience"];
     RFP.b_evaluation_criteria := None;
     RFP.b_terms_and_conditions := None;
     RFP.b_status := status;
     RFP.b_published_at := None;
     RFP.b_response_count := response_count |}.

(** A valid Response body, optionally with a status. *)
Definition response_body (status : option Response.Status) : Response.Body :=
  {| Response.b_proposal := Some "We repair the deck in six weeks";
     Response.b_proposed_budget := Some 5000;
     Response.b_timeline := Some "six weeks";
     Response.b_methodology := None;
     Response.b_team_details := None;
     Response.b_additional_notes := None;
     Response.b_status := status;
     Response.b_submitted_at := None;
     Response.b_reviewed_at := None;
     Response.b_reviewer_notes := None |}.

Definition review_body (status : Response.Status) : Validation.ReviewBody :=
  {| Validation.rb_status := Some status;
     Validation.rb_reviewer_notes := Some "checked the references" |}.

Definition a_file : Document.File :=
  {| Document.f_filename := "3f2a-1700000000000.pdf";
     Document.f_originalname := "plan.pdf";
     Document.f_size := 2048;
     Document.f_mimetype := "application/pdf";
     Document.f_path := "uploads/3f2a-1700000000000.pdf" |}.

Definition upload_body (ty : Document.DocumentType) (rfp_id response_id : option ObjectId)
    : Document.Body :=
  {| Document.b_document_type := Some ty;
     Document.b_description := None;
     Document.b_rfp_id := rfp_id;
     Document.b_response_id := response_id |}.

(** Alice creates the RFP [10] (deadline 5000) at 1000 and publishes it at
    1001; Bob creates the draft Response [20] at 1002. *)
Definition opening : list Call :=
  [ {| call_now := 1000; call_user := Some alice;
       call_request := CreateRFP 10 (rfp_body 5000 None None) |};
    {| call_now := 1001; call_user := Some alice; call_request := PublishRFP 10 |};
    {| call_now := 1002; call_user := Some bob;
       call_request := CreateResponse 20 (Some 10%nat) (response_body None) |} ].

Definition db_open : DB := run opening empty_db.

(** Then Bob submits it at 1003. *)
Definition db_submitted : DB :=
  after 1003 (Some bob) (SubmitResponse 20) db_open.

(** Or Alice closes the RFP at 1003, before its deadline. *)
Definition db_closed : DB :=
  after 1003 (Some alice) (CloseRFP 10) db_open.

(** Alice's draft RFP [10] alone, created at 1000 with deadline 5000. *)
Definition db_draft : DB :=
  after 1000 (Some alice) (CreateRFP 10 (rfp_body 5000 None None)) empty_db.

(** [GET /api/rfps] without query parameters. *)
Definition no_query : rfpController.Query :=
  {| rfpController.q_page := None; rfpController.q_limit := None;
     rfpController.q_status := None; rfpController.q_category := None;
     rfpController.q_search := None; rfpController.q_my_rfps := false |}.

(** After the opening, Alice uploads the document [30] for her RFP. *)
Definition db_uploaded : DB :=
  run (opening ++
         [ {| call_now := 1004; call_user := Some alice;
              call_request :=
                UploadDocument 30 (Some a_file)
                  (upload_body Document.rfp_document (Some 10%nat) None) |} ])
    empty_db.

Definition dave : User := {| user_id := 4%nat; role := buyer |}.

(** After the opening, Alice sets her published RFP back to draft at 1003
    with an update that carries [status: 'draft']. *)
Definition db_withdrawn : DB :=
  run (opening ++
         [ {| call_now := 1003; call_user := Some alice;
              call_request := UpdateRFP 10 (rfp_body 5000 (Some RFP.draft) None) |} ])
    empty_db.

(** After the opening, Bob submits his Response at 1003. *)
Definition submission : list Call :=
  opening ++
    [ {| call_now := 1003; call_user := Some bob; call_request := SubmitResponse 20 |} ].

(** Then Alice approves it at 1004. *)
Definition db_approved : DB :=
  run (submission ++
         [ {| call_now := 1004; call_user := Some alice;
              call_request := ReviewResponse 20 (review_body Response.approved) |} ])
    empty_db.

(** [db_open] after the RFP [10] has been handed over to Bob, the
    submitter of the Response [20]: its [created_by] is his [_id].  (The
    handlers compare [_id]s only; [created_by] is a key that
    [Object.assign(rfp, req.body)] takes from the body of the owner's PUT.) *)
Definition db_bobs_rfp : DB :=
  with_rfps
    (alter (fun d => {| RFP.title := RFP.title d;
                        RFP.description := RFP.description d;
                        RFP.category := RFP.category d;
                        RFP.budget_min := RFP.budget_min d;
                        RFP.budget_max := RFP.budget_max d;
                        RFP.deadline := RFP.deadline d;
                        RFP.requirements := RFP.requirements d;
                        RFP.evaluation_criteria := RFP.evaluation_criteria d;
                        RFP.terms_and_conditions := RFP.terms_and_conditions d;
                        RFP.status := RFP.status d;
                        RFP.created_by := user_id bob;
                        RFP.published_at := RFP.published_at d;
                        RFP.response_count := RFP.response_count d;
                        RFP.document_ids := RFP.document_ids d;
                        RFP.created_at := RFP.created_at d |})
       10%nat (rfps db_open))
    db_open.

(** [GET /api/responses] and [GET /api/documents] without query
    parameters. *)
Definition no_response_query : responseController.Query :=
  {| responseController.q_page := None; responseController.q_limit := None;
     responseController.q_status := None |}.

Definition no_document_query : documentController.Query :=
  {| documentController.q_page := None; documentController.q_limit := None;
     documentController.q_document_type := None;
     documentController.q_rfp_id := None;
     documentController.q_response_id := None |}.

End Scenario.

(** * Properties *)

(** ** Boolean tests *)

Lemma RFP_Status_eqb_eq a b : RFP.Status_eqb a b = true <-> a = b.
Proof. destruct a, b; simpl; split; intros H; try reflexivity; discriminate H. Qed.

Lemma RFP_Status_eqb_neq a b : RFP.Status_eqb a b = false <-> a <> b.
Proof.
  rewrite <- RFP_Status_eqb_eq. destruct (RFP.Status_eqb a b); split; congruence.
Qed.

Lemma Response_Status_eqb_eq a b : Response.Status_eqb a b = true <-> a = b.
Proof. destruct a, b; simpl; split; intros H; try reflexivity; discriminate H. Qed.




(** ** The scenarios of the specification, run on the embedding *)

Example scenario_create_publish :
  (RFP.status <$> rfps Scenario.db_draft !! 10%nat = Some RFP.draft
   /\ RFP.response_count <$> rfps Scenario.db_draft !! 10%nat = Some 0)
  /\ (RFP.status <$> rfps Scenario.db_open !! 10%nat = Some RFP.published
      /\ RFP.published_at <$> rfps Scenario.db_open !! 10%nat = Some (Some 1001)).
Proof. repeat split; vm_compute; reflexivity. Qed.

Example scenario_respond_submit_review :
  Response.status <$> responses Scenario.db_open !! 20%nat = Some Response.draft
  /\ (Response.status <$> responses Scenario.db_submitted !! 20%nat
      = Some Response.submitted
      /\ Response.submitted_at <$> responses Scenario.db_submitted !! 20%nat
         = Some (Some 1003)
      /\ RFP.response_count <$> rfps Scenario.db_submitted !! 10%nat = Some 1)
  /\ (let db := after 1004 (Some Scenario.alice)
                   (ReviewResponse 20 (Scenario.review_body Response.approved))
                   Scenario.db_submitted in
      Response.status <$> responses db !! 20%nat = Some Response.approved
      /\ Response.reviewed_at <$> responses db !! 20%nat = Some (Some 1004)).
Proof. repeat split; vm_compute; reflexivity. Qed.

Example scenario_second_response :
  handle 1004 (Some Scenario.bob)
    (CreateResponse 21 (Some 10%nat) (Scenario.response_body None)) Scenario.db_open
  = Err ResponseAlreadyExists.
Proof. vm_compute. reflexivity. Qed.

Example scenario_close_draft :
  handle 1004 (Some Scenario.alice) (CloseRFP 10) Scenario.db_draft = Err CannotClose.
Proof. vm_compute. reflexivity. Qed.

Example scenario_submit_after_deadline :
  handle 6000 (Some Scenario.bob) (SubmitResponse 20) Scenario.db_open = Err RFPExpired.
Proof. vm_compute. reflexivity. Qed.

Example scenario_upload_without_rfp_id :
  handle 1004 (Some Scenario.alice)
    (UploadDocument 30 (Some Scenario.a_file)
       (Scenario.upload_body Document.rfp_document None None))
    Scenario.db_open
  = Err RFPIdRequired.
Proof. vm_compute. reflexivity. Qed.

(** ** [String.prototype.trim] *)

Lemma trimEnd_idempotent s : JS.trimEnd (JS.trimEnd s) = JS.trimEnd s.
Proof.
  induction s as [|c s IH]; simpl; [reflexivity|].
  destruct (JS.trimEnd s) as [|c' t] eqn:E.
  - destruct (JS.is_space c) eqn:Hc; simpl; [reflexivity|]. rewrite Hc. reflexivity.
  - change (JS.trimEnd (String c (String c' t))) with
      (match JS.trimEnd (String c' t) with
       | EmptyString => if JS.is_space c then EmptyString else String c EmptyString
       | t' => String c t'
       end).
    rewrite IH. reflexivity.
Qed.

Lemma trimStart_trimEnd s :
  JS.trimStart (JS.trimEnd (JS.trimStart s)) = JS.trimEnd (JS.trimStart s).
Proof.
  induction s as [|c s IH]; simpl; [reflexivity|].
  destruct (JS.is_space c) eqn:Hc; [exact IH|].
  simpl. destruct (JS.trimEnd s) as [|c' t]; rewrite ?Hc; simpl; rewrite Hc; reflexivity.
Qed.

(** What the sanitizer of a route has trimmed, the setter of the schema
    leaves as it is. *)
Lemma trim_idempotent s : JS.trim (JS.trim s) = JS.trim s.
Proof.
  unfold JS.trim. rewrite trimStart_trimEnd. apply trimEnd_idempotent.
Qed.

(** ** Inversion of the [Result] combinators *)

Lemma bind_Ok {A B} (r : Result A) (k : A -> Result B) (b : B) :
  bind r k = Ok b -> exists a, r = Ok a /\ k a = Ok b.
Proof. destruct r as [a|e]; simpl; [eauto | discriminate]. Qed.

Lemma check_Ok {A} (c : bool) (e : Error) (k : Result A) (a : A) :
  (check c otherwise e ;; k) = Ok a -> c = true /\ k = Ok a.
Proof. destruct c; [auto | discriminate]. Qed.

Lemma authenticate_authorize_Ok {A} roles req_user (k : User -> Result A) (a : A) :
  (let* u := Auth.authenticate req_user in
   let* u := Auth.authorize roles (Some u) in k u) = Ok a ->
  exists u, req_user = Some u
    /\ existsb (Role_eqb (role u)) roles = true
    /\ k u = Ok a.
Proof.
  destruct req_user as [u|]; simpl; [|discriminate].
  destruct (existsb (Role_eqb (role u)) roles) eqn:Hr; simpl; [|discriminate].
  eauto.
Qed.

Lemma authenticate_Ok {A} req_user (k : User -> Result A) (a : A) :
  (let* u := Auth.authenticate req_user in k u) = Ok a ->
  exists u, req_user = Some u /\ k u = Ok a.
Proof. destruct req_user as [u|]; simpl; [eauto | discriminate]. Qed.

(** ** Inversion of [save] *)

Lemma RFP_save_Ok now id orig d coll d' m :
  RFP.save now id orig d coll = Ok (d', m) ->
  RFP.validate now d = true
  /\ d' = RFP.pre_save (RFP.isModified_status orig d) now d
  /\ m = <[id := d']> coll.
Proof.
  unfold RFP.save. destruct (RFP.validate now d); [|discriminate].
  intros [= <- <-]. auto.
Qed.

Lemma RFP_save_new_Ok now oid given d coll d' m :
  RFP.save_new now oid given d coll = Ok (d', m) ->
  RFP.validate now d = true
  /\ coll !! oid = None
  /\ d' = RFP.pre_save given now (RFP.set_created_at now d)
  /\ m = <[oid := d']> coll.
Proof.
  unfold RFP.save_new. destruct (RFP.validate now d); [|discriminate].
  destruct (coll !! oid); [discriminate|].
  intros [= <- <-]. auto.
Qed.

Lemma RFP_validate_deadline now d :
  RFP.validate now d = true -> RFP.deadline d > now.
Proof.
  unfold RFP.validate, RFP.deadline_validator. intros H.
  repeat (apply andb_prop in H; destruct H as [H ?]).
  lia.
Qed.

Lemma Response_save_Ok now id orig d coll d' m :
  Response.save now id orig d coll = Ok (d', m) ->
  Response.validate d = true
  /\ d' = Response.pre_save (Response.isModified_status orig d) now d
  /\ Response.index_conflict id d' coll = false
  /\ m = <[id := d']> coll.
Proof.
  unfold Response.save. destruct (Response.validate d); [|discriminate].
  destruct (Response.index_conflict id _ coll) eqn:Hi; simpl; [discriminate|].
  intros [= <- <-]. auto.
Qed.

Lemma Response_save_new_Ok now oid given d coll d' m :
  Response.save_new now oid given d coll = Ok (d', m) ->
  Response.validate d = true
  /\ coll !! oid = None
  /\ d' = Response.pre_save given now (Response.set_created_at now d)
  /\ Response.index_conflict oid d' coll = false
  /\ m = <[oid := d']> coll.
Proof.
  unfold Response.save_new. destruct (Response.validate d); [|discriminate].
  destruct (coll !! oid); [discriminate|].
  destruct (Response.index_conflict oid _ coll) eqn:Hi; simpl; [discriminate|].
  intros [= <- <-]. auto.
Qed.

Lemma Document_save_new_Ok now oid d coll d' m :
  Document.save_new now oid d coll = Ok (d', m) ->
  Document.validate d = true
  /\ coll !! oid = None
  /\ d' = Document.set_created_at now d
  /\ m = <[oid := d']> coll.
Proof.
  unfold Document.save_new. destruct (Document.validate d); [|discriminate].
  destruct (coll !! oid); [discriminate|].
  intros [= <- <-]. auto.
Qed.

(** ** Inversion of the RFP handlers *)

Lemma createRFP_Ok now oid u b db r' db' :
  rfpController.createRFP now oid u b db = Ok (r', db') ->
  exists d, RFP.construct b (user_id u) = Some d
    /\ RFP.validate now d = true
    /\ rfps db !! oid = None
    /\ r' = RFP.pre_save (JS.is_defined (RFP.b_status b)) now (RFP.set_created_at now d)
    /\ db' = with_rfps (<[oid := r']> (rfps db)) db.
Proof.
  unfold rfpController.createRFP. intros H.
  destruct (RFP.construct b (user_id u)) as [d|]; [|discriminate].
  apply bind_Ok in H as [[d1 m] [Hs H]]. injection H as <- <-.
  apply RFP_save_new_Ok in Hs as (Hv & Hn & -> & ->).
  exists d. auto.
Qed.

Lemma updateRFP_Ok now u id b db r' db' :
  rfpController.updateRFP now u id b db = Ok (r', db') ->
  exists d, rfps db !! id = Some d
    /\ RFP.created_by d = user_id u
    /\ RFP.status d <> RFP.closed /\ RFP.status d <> RFP.cancelled
    /\ RFP.validate now (RFP.assign d b) = true
    /\ r' = RFP.pre_save (RFP.isModified_status d (RFP.assign d b)) now (RFP.assign d b)
    /\ db' = with_rfps (<[id := r']> (rfps db)) db.
Proof.
  unfold rfpController.updateRFP. intros H.
  destruct (rfps db !! id) as [d|] eqn:Hd; [|discriminate].
  destruct (Nat.eqb_spec (RFP.created_by d) (user_id u)) as [Ho|]; [|discriminate].
  destruct (RFP.Status_eqb (RFP.status d) RFP.closed) eqn:Hc; [discriminate|].
  destruct (RFP.Status_eqb (RFP.status d) RFP.cancelled) eqn:Hx; [discriminate|].
  simpl in H. apply bind_Ok in H as [[d1 m] [Hs H]]. injection H as <- <-.
  apply RFP_save_Ok in Hs as (Hv & -> & ->).
  apply RFP_Status_eqb_neq in Hc, Hx.
  exists d. repeat split; auto.
Qed.

Lemma deleteRFP_Ok u id db db' :
  rfpController.deleteRFP u id db = Ok db' ->
  exists d, rfps db !! id = Some d
    /\ RFP.created_by d = user_id u
    /\ RFP.status d = RFP.draft
    /\ db' = with_rfps (delete id (rfps db)) db.
Proof.
  unfold rfpController.deleteRFP. intros H.
  destruct (rfps db !! id) as [d|] eqn:Hd; [|discriminate].
  destruct (Nat.eqb_spec (RFP.created_by d) (user_id u)) as [Ho|]; [|discriminate].
  destruct (RFP.Status_eqb (RFP.status d) RFP.draft) eqn:Hc; [|discriminate].
  injection H as <-. apply RFP_Status_eqb_eq in Hc. eauto.
Qed.

Lemma publishRFP_Ok now u id db r' db' :
  rfpController.publishRFP now u id db = Ok (r', db') ->
  exists d, rfps db !! id = Some d
    /\ RFP.created_by d = user_id u
    /\ RFP.status d = RFP.draft
    /\ RFP.deadline d > now
    /\ r' = RFP.set_published_at (Some now) (RFP.set_status RFP.published d)
    /\ db' = with_rfps (<[id := r']> (rfps db)) db.
Proof.
  unfold rfpController.publishRFP. intros H.
  destruct (rfps db !! id) as [d|] eqn:Hd; [|discriminate].
  destruct (Nat.eqb_spec (RFP.created_by d) (user_id u)) as [Ho|]; [|discriminate].
  destruct (RFP.Status_eqb (RFP.status d) RFP.draft) eqn:Hc; [|discriminate].
  apply bind_Ok in H as [[d1 m] [Hs H]]. injection H as <- <-.
  apply RFP_save_Ok in Hs as (Hv & -> & ->).
  apply RFP_Status_eqb_eq in Hc. apply RFP_validate_deadline in Hv.
  exists d. repeat split; auto.
  unfold RFP.pre_save. simpl. rewrite andb_false_r. reflexivity.
Qed.

Lemma closeRFP_Ok now u id db r' db' :
  rfpController.closeRFP now u id db = Ok (r', db') ->
  exists d, rfps db !! id = Some d
    /\ RFP.created_by d = user_id u
    /\ RFP.status d = RFP.published
    /\ RFP.deadline d > now
    /\ r' = RFP.set_status RFP.closed d
    /\ db' = with_rfps (<[id := r']> (rfps db)) db.
Proof.
  unfold rfpController.closeRFP. intros H.
  destruct (rfps db !! id) as [d|] eqn:Hd; [|discriminate].
  destruct (Nat.eqb_spec (RFP.created_by d) (user_id u)) as [Ho|]; [|discriminate].
  destruct (RFP.Status_eqb (RFP.status d) RFP.published) eqn:Hc; [|discriminate].
  apply bind_Ok in H as [[d1 m] [Hs H]]. injection H as <- <-.
  apply RFP_save_Ok in Hs as (Hv & -> & ->).
  apply RFP_Status_eqb_eq in Hc. apply RFP_validate_deadline in Hv.
  exists d. repeat split; auto.
  unfold RFP.pre_save. simpl. rewrite andb_false_r. reflexivity.
Qed.

(** ** Inversion of the Response handlers *)

Lemma createResponse_Ok now oid u rfp_id b db r' db' :
  responseController.createResponse now oid u rfp_id b db = Ok (r', db') ->
  exists rid rfp d,
    rfp_id = Some rid
    /\ rfps db !! rid = Some rfp
    /\ RFP.status rfp = RFP.published
    /\ now <= RFP.deadline rfp
    /\ Response.findOne rid (user_id u) (responses db) = None
    /\ Response.construct rfp_id b (user_id u) = Some d
    /\ Response.validate d = true
    /\ responses db !! oid = None
    /\ r' = Response.pre_save (JS.is_defined (Response.b_status b)) now
              (Response.set_created_at now d)
    /\ db' = (if Response.Status_eqb (Response.status r') Response.submitted
              then inc_response_count rid else fun x => x)
               (with_responses (<[oid := r']> (responses db)) db).
Proof.
  unfold responseController.createResponse. intros H.
  destruct rfp_id as [rid|]; simpl in H; [|discriminate].
  destruct (rfps db !! rid) as [rfp|] eqn:Hr; simpl in H; [|discriminate].
  destruct (RFP.Status_eqb (RFP.status rfp) RFP.published) eqn:Hp; [|discriminate].
  destruct (Z.ltb_spec (RFP.deadline rfp) now) as [|Hd]; simpl in H; [discriminate|].
  destruct (Response.findOne rid (user_id u) (responses db)) eqn:Hf; [discriminate|].
  destruct (Response.construct (Some rid) b (user_id u)) as [d|] eqn:Hc; [|discriminate].
  apply bind_Ok in H as [[d1 m] [Hs H]].
  apply Response_save_new_Ok in Hs as (Hv & Hn & -> & Hi & ->).
  apply RFP_Status_eqb_eq in Hp.
  exists rid, rfp, d. injection H as <- <-.
  repeat split; auto.
  destruct (Response.Status_eqb _ Response.submitted); reflexivity.
Qed.

Lemma updateResponse_Ok now u id b db r' db' :
  responseController.updateResponse now u id b db = Ok (r', db') ->
  exists d rfp,
    responses db !! id = Some d
    /\ Response.submitted_by d = user_id u
    /\ Response.is_decided (Response.status d) = false
    /\ rfps db !! Response.rfp_id d = Some rfp
    /\ now <= RFP.deadline rfp
    /\ Response.validate (Response.assign d b) = true
    /\ r' = Response.pre_save (Response.isModified_status d (Response.assign d b)) now
              (Response.assign d b)
    /\ db' = (if Response.Status_eqb (Response.status d) Response.draft
                 && Response.Status_eqb (Response.status r') Response.submitted
              then inc_response_count (Response.rfp_id r') else fun x => x)
               (with_responses (<[id := r']> (responses db)) db).
Proof.
  unfold responseController.updateResponse. intros H.
  destruct (responses db !! id) as [d|] eqn:Hd; [|discriminate].
  destruct (Nat.eqb_spec (Response.submitted_by d) (user_id u)) as [Ho|]; [|discriminate].
  destruct (Response.is_decided (Response.status d)) eqn:Hs; [discriminate|].
  simpl in H.
  destruct (rfps db !! Response.rfp_id d) as [rfp|] eqn:Hr; [|discriminate].
  destruct (Z.ltb_spec (RFP.deadline rfp) now) as [|Hdl]; simpl in H; [discriminate|].
  apply bind_Ok in H as [[d1 m] [Hsv H]].
  apply Response_save_Ok in Hsv as (Hv & -> & Hi & ->).
  exists d, rfp. injection H as <- <-.
  repeat split; auto.
  destruct (_ && _); reflexivity.
Qed.

Lemma deleteResponse_Ok u id db db' :
  responseController.deleteResponse u id db = Ok db' ->
  exists d, responses db !! id = Some d
    /\ Response.submitted_by d = user_id u
    /\ Response.status d = Response.draft
    /\ db' = with_responses (delete id (responses db)) db.
Proof.
  unfold responseController.deleteResponse. intros H.
  destruct (responses db !! id) as [d|] eqn:Hd; [|discriminate].
  destruct (Nat.eqb_spec (Response.submitted_by d) (user_id u)) as [Ho|]; [|discriminate].
  destruct (Response.Status_eqb (Response.status d) Response.draft) eqn:Hc; [|discriminate].
  injection H as <-. apply Response_Status_eqb_eq in Hc. eauto.
Qed.

Lemma submitResponse_Ok now u id db r' db' :
  responseController.submitResponse now u id db = Ok (r', db') ->
  exists d rfp,
    responses db !! id = Some d
    /\ Response.submitted_by d = user_id u
    /\ Response.status d = Response.draft
    /\ rfps db !! Response.rfp_id d = Some rfp
    /\ now <= RFP.deadline rfp
    /\ r' = Response.set_submitted_at (Some now)
              (Response.set_status Response.submitted d)
    /\ db' = inc_response_count (Response.rfp_id d)
               (with_responses (<[id := r']> (responses db)) db).
Proof.
  unfold responseController.submitResponse. intros H.
  destruct (responses db !! id) as [d|] eqn:Hd; [|discriminate].
  destruct (Nat.eqb_spec (Response.submitted_by d) (user_id u)) as [Ho|]; [|discriminate].
  destruct (Response.Status_eqb (Response.status d) Response.draft) eqn:Hs; [|discriminate].
  destruct (rfps db !! Response.rfp_id d) as [rfp|] eqn:Hr; [|discriminate].
  destruct (Z.ltb_spec (RFP.deadline rfp) now) as [|Hdl]; simpl in H; [discriminate|].
  apply bind_Ok in H as [[d1 m] [Hsv H]].
  apply Response_save_Ok in Hsv as (Hv & -> & Hi & ->).
  apply Response_Status_eqb_eq in Hs.
  exists d, rfp. injection H as <- <-.
  assert (Hpre : forall m, Response.pre_save m now
            (Response.set_submitted_at (Some now)
               (Response.set_status Response.submitted d))
          = Response.set_submitted_at (Some now)
              (Response.set_status Response.submitted d)).
  { intros m. unfold Response.pre_save. simpl. rewrite !andb_false_r. reflexivity. }
  rewrite Hpre. repeat split; auto.
Qed.

Lemma reviewResponse_Ok now u id b db r' db' :
  responseController.reviewResponse now u id b db = Ok (r', db') ->
  exists d rfp st,
    responses db !! id = Some d
    /\ rfps db !! Response.rfp_id d = Some rfp
    /\ RFP.created_by rfp = user_id u
    /\ (Response.status d = Response.submitted
        \/ Response.status d = Response.under_review)
    /\ Validation.rb_status b = Some st
    /\ r' = Response.pre_save (negb (Response.Status_eqb (Response.status d) st)) now
              (Response.set_reviewed_at (Some now)
                 (Response.set_reviewer_notes (Validation.rb_reviewer_notes b)
                    (Response.set_status st d)))
    /\ db' = with_responses (<[id := r']> (responses db)) db.
Proof.
  unfold responseController.reviewResponse. intros H.
  destruct (responses db !! id) as [d|] eqn:Hd; [|discriminate].
  destruct (rfps db !! Response.rfp_id d) as [rfp|] eqn:Hr; [|discriminate].
  destruct (Nat.eqb_spec (RFP.created_by rfp) (user_id u)) as [Ho|]; [|discriminate].
  destruct (_ || _) eqn:Hs; [|discriminate].
  destruct (Validation.rb_status b) as [st|] eqn:Hst; [|discriminate].
  apply bind_Ok in H as [[d1 m] [Hsv H]].
  apply Response_save_Ok in Hsv as (Hv & -> & Hi & ->).
  exists d, rfp, st. injection H as <- <-.
  repeat split; auto.
  apply orb_prop in Hs as [Hs|Hs]; apply Response_Status_eqb_eq in Hs; auto.
Qed.

(** ** Inversion of the Document handlers *)

Lemma uploadDocument_Ok now oid file u b db d' db' :
  documentController.uploadDocument now oid file u b db = Ok (d', db') ->
  exists f d,
    file = Some f
    /\ Document.construct f b (user_id u) = Some d
    /\ (Document.b_document_type b = Some Document.rfp_document ->
        is_Some (Document.b_rfp_id b))
    /\ (Document.b_document_type b = Some Document.response_document ->
        is_Some (Document.b_response_id b))
    /\ (forall rid, Document.b_rfp_id b = Some rid ->
        exists rfp, rfps db !! rid = Some rfp /\ RFP.created_by rfp = user_id u)
    /\ (forall rid, Document.b_response_id b = Some rid ->
        exists r, responses db !! rid = Some r /\ Response.submitted_by r = user_id u)
    /\ documents db !! oid = None
    /\ d' = Document.set_created_at now d
    /\ db' = push_parents b oid (with_documents (<[oid := d']> (documents db)) db).
Proof.
  unfold documentController.uploadDocument. intros H.
  destruct file as [f|]; [|discriminate].
  destruct (negb _) eqn:H1 in H; [|discriminate].
  destruct (negb _) eqn:H2 in H; [|discriminate].
  apply bind_Ok in H as [[] [H3 H]].
  apply bind_Ok in H as [[] [H4 H]].
  destruct (Document.construct f b (user_id u)) as [d|] eqn:Hc; [|discriminate].
  apply bind_Ok in H as [[d1 m] [Hsv H]].
  apply Document_save_new_Ok in Hsv as (Hv & Hn & -> & ->).
  exists f, d. injection H as <- <-.
  split; [reflexivity|]. split; [exact Hc|].
  split. { intros E. rewrite E in H1. destruct (Document.b_rfp_id b); [eauto|discriminate]. }
  split. { intros E. rewrite E in H2. destruct (Document.b_response_id b); [eauto|discriminate]. }
  split.
  { intros rid E. rewrite E in H3.
    destruct (rfps db !! rid) as [rfp|]; [|discriminate].
    destruct (Nat.eqb_spec (RFP.created_by rfp) (user_id u)); [eauto|discriminate]. }
  split.
  { intros rid E. rewrite E in H4.
    destruct (responses db !! rid) as [r|]; [|discriminate].
    destruct (Nat.eqb_spec (Response.submitted_by r) (user_id u)); [eauto|discriminate]. }
  repeat split; auto.
Qed.

Lemma deleteDocument_Ok u id db db' :
  documentController.deleteDocument u id db = Ok db' ->
  exists d, documents db !! id = Some d
    /\ Document.uploaded_by d = user_id u
    /\ db' = with_documents (delete id (documents (pull_parents d id db)))
               (pull_parents d id db).
Proof.
  unfold documentController.deleteDocument. intros H.
  destruct (documents db !! id) as [d|] eqn:Hd; [|discriminate].
  destruct (Nat.eqb_spec (Document.uploaded_by d) (user_id u)) as [Ho|]; [|discriminate].
  injection H as <-. eauto.
Qed.

(** ** The effect of a request on the RFP collection *)

Lemma rfps_inc_response_count rid db id :
  rfps (inc_response_count rid db) !! id
  = if decide (rid = id)
    then (fun r => RFP.set_response_count (RFP.response_count r + 1) r) <$> rfps db !! rid
    else rfps db !! id.
Proof. unfold inc_response_count. simpl. apply lookup_alter. Qed.

Lemma rfps_push_parents b oid db id d' :
  rfps (push_parents b oid db) !! id = Some d' ->
  rfps db !! id = Some d'
  \/ exists d l, rfps db !! id = Some d /\ d' = RFP.set_document_ids l d.
Proof.
  unfold push_parents.
  destruct (Document.b_response_id b), (Document.b_rfp_id b); simpl; auto;
    rewrite lookup_alter; case_decide; subst; auto;
    destruct (rfps db !! id) as [d|]; simpl; intros [= <-]; eauto.
Qed.

Lemma rfps_pull_parents doc did db id d' :
  rfps (pull_parents doc did db) !! id = Some d' ->
  rfps db !! id = Some d'
  \/ exists d l, rfps db !! id = Some d /\ d' = RFP.set_document_ids l d.
Proof.
  unfold pull_parents.
  destruct (Document.response_id doc), (Document.rfp_id doc); simpl; auto;
    rewrite lookup_alter; case_decide; subst; auto;
    destruct (rfps db !! id) as [d|]; simpl; intros [= <-]; eauto.
Qed.

Lemma counted_effect now r (f : DB -> DB) rid db m id d' :
  may_count r ->
  (f = inc_response_count rid \/ f = fun x => x) ->
  rfps (f (with_responses m db)) !! id = Some d' ->
  rfp_effect now r (rfps db !! id) d'.
Proof.
  intros Hr [-> | ->] H.
  - rewrite rfps_inc_response_count in H. simpl in H. case_decide; subst.
    + destruct (rfps db !! id) as [d|]; simpl in H; [|discriminate].
      injection H as <-. now apply effect_counted.
    + rewrite H. apply effect_none.
  - simpl in H. rewrite H. apply effect_none.
Qed.

Lemma handle_rfp_effect now req_user r db db' id d' :
  handle now req_user r db = Ok db' ->
  rfps db' !! id = Some d' ->
  rfp_effect now r (rfps db !! id) d'.
Proof.
  intros H Hl. destruct r; simpl in H.
  - (* CreateRFP *)
    apply bind_Ok in H as [[x db1] [H [= ->]]]. unfold Routes.post_rfp in H.
    apply authenticate_authorize_Ok in H as (u & -> & _ & H).
    apply bind_Ok in H as [b' [Hb H]].
    apply createRFP_Ok in H as (d & Hc & Hv & Hn & -> & ->).
    simpl in Hl. destruct (decide (oid = id)) as [->|Hne].
    + rewrite lookup_insert_eq in Hl. injection Hl as <-. rewrite Hn.
      eapply effect_created; eauto.
    + rewrite lookup_insert_ne in Hl by assumption. rewrite Hl. apply effect_none.
  - (* UpdateRFP *)
    apply bind_Ok in H as [[x db1] [H [= ->]]]. unfold Routes.put_rfp in H.
    apply authenticate_authorize_Ok in H as (u & -> & _ & H).
    apply bind_Ok in H as [b' [Hb H]].
    apply updateRFP_Ok in H as (d & Hd & Ho & Hc & Hx & Hv & -> & ->).
    simpl in Hl. destruct (decide (id0 = id)) as [->|Hne].
    + rewrite lookup_insert_eq in Hl. injection Hl as <-. rewrite Hd.
      eapply effect_updated; eauto.
    + rewrite lookup_insert_ne in Hl by assumption. rewrite Hl. apply effect_none.
  - (* DeleteRFP *)
    unfold Routes.delete_rfp in H.
    apply authenticate_authorize_Ok in H as (u & -> & _ & H).
    apply deleteRFP_Ok in H as (d & Hd & Ho & Hs & ->).
    simpl in Hl. apply lookup_delete_Some in Hl as [_ Hl]. rewrite Hl. apply effect_none.
  - (* PublishRFP *)
    apply bind_Ok in H as [[x db1] [H [= ->]]]. unfold Routes.post_rfp_publish in H.
    apply authenticate_authorize_Ok in H as (u & -> & _ & H).
    apply publishRFP_Ok in H as (d & Hd & Ho & Hs & Hdl & -> & ->).
    simpl in Hl. destruct (decide (id0 = id)) as [->|Hne].
    + rewrite lookup_insert_eq in Hl. injection Hl as <-. rewrite Hd.
      now apply effect_published.
    + rewrite lookup_insert_ne in Hl by assumption. rewrite Hl. apply effect_none.
  - (* CloseRFP *)
    apply bind_Ok in H as [[x db1] [H [= ->]]]. unfold Routes.post_rfp_close in H.
    apply authenticate_authorize_Ok in H as (u & -> & _ & H).
    apply closeRFP_Ok in H as (d & Hd & Ho & Hs & Hdl & -> & ->).
    simpl in Hl. destruct (decide (id0 = id)) as [->|Hne].
    + rewrite lookup_insert_eq in Hl. injection Hl as <-. rewrite Hd.
      now apply effect_closed.
    + rewrite lookup_insert_ne in Hl by assumption. rewrite Hl. apply effect_none.
  - (* CreateResponse *)
    apply bind_Ok in H as [[x db1] [H [= ->]]]. unfold Routes.post_response in H.
    apply authenticate_authorize_Ok in H as (u & -> & _ & H).
    destruct (Validation.validateRfpId rfp_id); [|discriminate].
    apply bind_Ok in H as [b' [Hb H]].
    apply createResponse_Ok in H
      as (rid & rfp & d & _ & _ & _ & _ & _ & _ & _ & _ & _ & ->).
    eapply (counted_effect _ _ _ rid); [exact I| |exact Hl].
    destruct (Response.Status_eqb _ _); auto.
  - (* UpdateResponse *)
    apply bind_Ok in H as [[x db1] [H [= ->]]]. unfold Routes.put_response in H.
    apply authenticate_authorize_Ok in H as (u & -> & _ & H).
    apply bind_Ok in H as [b' [Hb H]].
    apply updateResponse_Ok in H as (d & rfp & _ & _ & _ & _ & _ & _ & _ & ->).
    eapply (counted_effect _ _ _ (Response.rfp_id x)); [exact I| |exact Hl].
    destruct (_ && _); auto.
  - (* DeleteResponse *)
    unfold Routes.delete_response in H.
    apply authenticate_authorize_Ok in H as (u & -> & _ & H).
    apply deleteResponse_Ok in H as (d & _ & _ & _ & ->).
    simpl in Hl. rewrite Hl. apply effect_none.
  - (* SubmitResponse *)
    apply bind_Ok in H as [[x db1] [H [= ->]]]. unfold Routes.post_response_submit in H.
    apply authenticate_authorize_Ok in H as (u & -> & _ & H).
    apply submitResponse_Ok in H as (d & rfp & _ & _ & _ & _ & _ & _ & ->).
    eapply (counted_effect _ _ _ (Response.rfp_id d)); [exact I| |exact Hl]. auto.
  - (* ReviewResponse *)
    apply bind_Ok in H as [[x db1] [H [= ->]]]. unfold Routes.post_response_review in H.
    apply authenticate_authorize_Ok in H as (u & -> & _ & H).
    apply bind_Ok in H as [b' [Hb H]].
    apply reviewResponse_Ok in H as (d & rfp & st & _ & _ & _ & _ & _ & _ & ->).
    simpl in Hl. rewrite Hl. apply effect_none.
  - (* UploadDocument *)
    apply bind_Ok in H as [[x db1] [H [= ->]]]. unfold Routes.post_document_upload in H.
    apply authenticate_Ok in H as (u & -> & H).
    apply check_Ok in H as [_ H].
    apply bind_Ok in H as [b' [Hb H]].
    apply uploadDocument_Ok in H as (f & d & _ & _ & _ & _ & _ & _ & _ & _ & ->).
    apply rfps_push_parents in Hl as [Hl | (d0 & l & Hl & ->)]; simpl in Hl; rewrite Hl.
    + apply effect_none.
    + now apply effect_linked.
  - (* DeleteDocument *)
    unfold Routes.delete_document in H.
    apply authenticate_Ok in H as (u & -> & H).
    apply deleteDocument_Ok in H as (d & _ & _ & ->).
    simpl in Hl.
    apply rfps_pull_parents in Hl as [Hl | (d0 & l & Hl & ->)]; rewrite Hl.
    + apply effect_none.
    + now apply effect_linked.
Qed.

(** ** Invariants along a sequence of requests *)

Lemma run_invariant (P : DB -> Prop) (Q : Call -> Prop) :
  (forall c db db', Q c -> P db ->
     handle (call_now c) (call_user c) (call_request c) db = Ok db' -> P db') ->
  forall calls db, Forall Q calls -> P db -> P (run calls db).
Proof.
  intros Hstep calls. induction calls as [|c calls IH]; intros db HQ HP; simpl.
  - exact HP.
  - inversion HQ; subst. apply IH; [assumption|].
    unfold after. destruct (handle _ _ _ db) eqn:E; eauto.
Qed.

Lemma reachable_invariant (P : DB -> Prop) :
  P empty_db ->
  (forall now req_user r db db', P db -> handle now req_user r db = Ok db' -> P db') ->
  forall db, reachable db -> P db.
Proof.
  intros H0 Hstep db [calls ->].
  apply (run_invariant P (fun _ => True)); [eauto| |exact H0].
  apply Forall_forall. trivial.
Qed.

(** ** Sanitizers keep the keys they do not name *)

Lemma validateRFP_Ok now b b' :
  Validation.validateRFP now b = Ok b' ->
  Validation.rfp_checks now b = true /\ b' = Validation.rfp_sanitize b.
Proof.
  unfold Validation.validateRFP. destruct (Validation.rfp_checks now b); [|discriminate].
  intros [= <-]. auto.
Qed.

Lemma validateResponse_Ok b b' :
  Validation.validateResponse b = Ok b' ->
  Validation.response_checks b = true /\ b' = Validation.response_sanitize b.
Proof.
  unfold Validation.validateResponse. destruct (Validation.response_checks b); [|discriminate].
  intros [= <-]. auto.
Qed.

Lemma RFP_status_pre_save m now d :
  RFP.status (RFP.pre_save m now d) = RFP.status d.
Proof. unfold RFP.pre_save. destruct (_ && _); reflexivity. Qed.

Lemma RFP_response_count_pre_save m now d :
  RFP.response_count (RFP.pre_save m now d) = RFP.response_count d.
Proof. unfold RFP.pre_save. destruct (_ && _); reflexivity. Qed.

Lemma RFP_construct_status b owner d :
  RFP.construct b owner = Some d -> RFP.status d = default RFP.draft (RFP.b_status b).
Proof.
  unfold RFP.construct.
  destruct (RFP.b_title b), (RFP.b_description b), (RFP.b_category b), (RFP.b_deadline b);
    try discriminate.
  intros [= <-]. reflexivity.
Qed.

(** ** C5: the status [cancelled] *)

Lemma rfp_effect_status now r old d' :
  rfp_effect now r old d' ->
  sets_cancelled r = false ->
  (forall d, old = Some d -> RFP.status d <> RFP.cancelled) ->
  RFP.status d' <> RFP.cancelled.
Proof.
  intros He Hr Hold.
  destruct He as [r d|r d _|r d l _|oid b b' owner d Hb Hc _|id b b' d Hb _ Hx _|id d _ _|id d _ _];
    simpl; try discriminate; try (apply Hold; reflexivity).
  - rewrite RFP_status_pre_save. simpl.
    rewrite (RFP_construct_status _ _ _ Hc).
    apply validateRFP_Ok in Hb as [_ ->]. simpl in *.
    destruct (RFP.b_status b) as [[]|]; simpl; congruence.
  - rewrite RFP_status_pre_save. simpl.
    apply validateRFP_Ok in Hb as [_ ->]. simpl in *.
    destruct (RFP.b_status b) as [[]|]; simpl; congruence.
Qed.

(** C5, as amended.  Publishing, closing and deleting an RFP, and every
    request on Responses and Documents, never produce the status
    [cancelled]; creating and updating an RFP copy the status of the
    body.  So along every sequence of requests none of which carries
    [status: 'cancelled'] in an RFP body, no stored RFP is cancelled. *)
Theorem cancelled_only_from_body calls :
  Forall (fun c => sets_cancelled (call_request c) = false) calls ->
  forall id d,
    rfps (run calls empty_db) !! id = Some d ->
    RFP.status d <> RFP.cancelled.
Proof.
  intros Hcalls.
  apply (run_invariant
           (fun db => forall id d, rfps db !! id = Some d -> RFP.status d <> RFP.cancelled)
           (fun c => sets_cancelled (call_request c) = false)); [|assumption|].
  - intros c db db' Hc Hinv Hh id d' Hl.
    eapply rfp_effect_status; [eapply handle_rfp_effect; eassumption|assumption|].
    intros d Hd. eapply Hinv. exact Hd.
  - intros id d Hl. simpl in Hl. rewrite lookup_empty in Hl. discriminate.
Qed.

(** C5 fails as stated: an update of a draft RFP whose body carries
    [status: 'cancelled'] passes [validateRFP] and the schema, and stores
    the status. *)
Lemma cancelled_reached_by_update :
  RFP.status <$>
    rfps (run [ {| call_now := 1000; call_user := Some Scenario.alice;
                   call_request := CreateRFP 10 (Scenario.rfp_body 5000 None None) |};
                {| call_now := 1004; call_user := Some Scenario.alice;
                   call_request :=
                     UpdateRFP 10 (Scenario.rfp_body 5000 (Some RFP.cancelled) None) |} ]
            empty_db) !! 10%nat
  = Some RFP.cancelled.
Proof. vm_compute. reflexivity. Qed.

Lemma cancelled_only_from_body_witness :
  Forall (fun c => sets_cancelled (call_request c) = false) Scenario.opening
  /\ exists d, rfps (run Scenario.opening empty_db) !! 10%nat = Some d
       /\ RFP.status d <> RFP.cancelled.
Proof.
  assert (H : Forall (fun c => sets_cancelled (call_request c) = false) Scenario.opening)
    by (repeat constructor).
  split; [exact H|].
  eexists. split; [vm_compute; reflexivity|].
  apply (cancelled_only_from_body Scenario.opening H 10%nat). vm_compute. reflexivity.
Defined.

(** ** C1: the response counter *)

Lemma Response_rfp_id_pre_save m now d :
  Response.rfp_id (Response.pre_save m now d) = Response.rfp_id d.
Proof. unfold Response.pre_save. repeat destruct (_ && _); reflexivity. Qed.

Lemma Response_submitted_by_pre_save m now d :
  Response.submitted_by (Response.pre_save m now d) = Response.submitted_by d.
Proof. unfold Response.pre_save. repeat destruct (_ && _); reflexivity. Qed.

Lemma Response_status_pre_save m now d :
  Response.status (Response.pre_save m now d) = Response.status d.
Proof. unfold Response.pre_save. repeat destruct (_ && _); reflexivity. Qed.

Lemma Response_construct_keys rfp_id b uid d :
  Response.construct rfp_id b uid = Some d ->
  rfp_id = Some (Response.rfp_id d) /\ Response.submitted_by d = uid.
Proof.
  unfold Response.construct.
  destruct rfp_id, (Response.b_proposal b); try discriminate.
  intros [= <-]. auto.
Qed.

Lemma counted_once_inc rid rfp m db :
  rfps db !! rid = Some rfp ->
  counted_once rid db (inc_response_count rid (with_responses m db)).
Proof.
  intros Hr. exists rfp. split; [exact Hr|]. split.
  - rewrite rfps_inc_response_count. rewrite decide_True by reflexivity.
    simpl. rewrite Hr. reflexivity.
  - intros id Hne. rewrite rfps_inc_response_count.
    rewrite decide_False by congruence. reflexivity.
Qed.

Lemma rfp_effect_response_count now r old d' :
  rfp_effect now r old d' ->
  overwrites_count r = false ->
  forall d, old = Some d -> RFP.response_count d <= RFP.response_count d'.
Proof.
  intros He Hr d Hd.
  destruct He as [r d0|r d0 _|r d0 l _|oid b b' owner d0 Hb Hc _|id b b' d0 Hb _ _ _|id d0 _ _|id d0 _ _];
    simpl; try discriminate; injection Hd as ->; simpl; try lia.
  rewrite RFP_response_count_pre_save. simpl.
  apply validateRFP_Ok in Hb as [_ ->]. simpl in *.
  destruct (RFP.b_response_count b); [discriminate|simpl; lia].
Qed.

(** C1, as amended.  Each of the three paths into [submitted] (creation
    with [status: 'submitted'], an update from [draft] to [submitted], the
    submit action) increments the counter of the Response's RFP by exactly
    one and leaves every other RFP as it is; and no request other than an
    RFP update whose body carries [response_count] ever lowers the counter
    of a stored RFP (deleting a Response leaves it as it is). *)
Theorem response_count_aggregate :
  (forall now oid req_user rfp_id b db r' db',
      Routes.post_response now oid req_user rfp_id b db = Ok (r', db') ->
      Response.status r' = Response.submitted ->
      counted_once (Response.rfp_id r') db db')
  /\ (forall now req_user id b db r0 r' db',
      responses db !! id = Some r0 ->
      Response.status r0 = Response.draft ->
      Routes.put_response now req_user id b db = Ok (r', db') ->
      Response.status r' = Response.submitted ->
      counted_once (Response.rfp_id r') db db')
  /\ (forall now req_user id db r' db',
      Routes.post_response_submit now req_user id db = Ok (r', db') ->
      Response.status r' = Response.submitted
      /\ counted_once (Response.rfp_id r') db db')
  /\ (forall now req_user r db db' id d d',
      overwrites_count r = false ->
      handle now req_user r db = Ok db' ->
      rfps db !! id = Some d ->
      rfps db' !! id = Some d' ->
      RFP.response_count d <= RFP.response_count d')
  /\ (forall now req_user id db db',
      handle now req_user (DeleteResponse id) db = Ok db' ->
      rfps db' = rfps db).
Proof.
  repeat split.
  - intros now oid req_user rfp_id b db r' db' H Hs. unfold Routes.post_response in H.
    apply authenticate_authorize_Ok in H as (u & -> & _ & H).
    destruct (Validation.validateRfpId rfp_id); [|discriminate].
    apply bind_Ok in H as [b' [Hb H]].
    apply createResponse_Ok in H
      as (rid & rfp & d & Hrid & Hr & _ & _ & _ & Hc & _ & _ & Hr' & ->).
    apply Response_construct_keys in Hc as [Hk _].
    assert (Response.rfp_id r' = rid) as ->.
    { rewrite Hr', Response_rfp_id_pre_save. simpl. congruence. }
    apply Response_Status_eqb_eq in Hs. rewrite Hs.
    eapply counted_once_inc; eassumption.
  - intros now req_user id b db r0 r' db' Hr0 Hd H Hs. unfold Routes.put_response in H.
    apply authenticate_authorize_Ok in H as (u & -> & _ & H).
    apply bind_Ok in H as [b' [Hb H]].
    apply updateResponse_Ok in H as (d & rfp & Hl & _ & _ & Hr & _ & _ & Hr' & ->).
    rewrite Hr0 in Hl. injection Hl as <-.
    assert (Response.rfp_id r' = Response.rfp_id r0) as Hk.
    { rewrite Hr', Response_rfp_id_pre_save. reflexivity. }
    apply Response_Status_eqb_eq in Hd, Hs. rewrite Hd, Hs. simpl.
    rewrite Hk. eapply counted_once_inc; eassumption.
  - apply authenticate_authorize_Ok in H as (u & -> & _ & H).
    apply submitResponse_Ok in H as (d & rfp & _ & _ & _ & _ & _ & -> & _).
    reflexivity.
  - unfold Routes.post_response_submit in H.
    apply authenticate_authorize_Ok in H as (u & -> & _ & H).
    apply submitResponse_Ok in H as (d & rfp & _ & _ & _ & Hr & _ & -> & ->).
    simpl. eapply counted_once_inc; eassumption.
  - intros now req_user r db db' id d d' Hr H Hd Hd'.
    apply (rfp_effect_response_count now r (rfps db !! id) d');
      [eapply handle_rfp_effect; eassumption | exact Hr | exact Hd].
  - intros now req_user id db db' H. simpl in H. unfold Routes.delete_response in H.
    apply authenticate_authorize_Ok in H as (u & -> & _ & H).
    apply deleteResponse_Ok in H as (d & _ & _ & _ & ->). reflexivity.
Qed.

(** C1 fails as stated: the counter of the RFP [10] is 1 after Bob's
    submission, and Alice's update with [response_count: 0] in the body
    lowers it to 0. *)
Lemma response_count_lowered_by_update :
  RFP.response_count <$> rfps Scenario.db_submitted !! 10%nat = Some 1
  /\ RFP.response_count <$>
       rfps (after 1004 (Some Scenario.alice)
               (UpdateRFP 10 (Scenario.rfp_body 5000 None (Some 0)))
               Scenario.db_submitted) !! 10%nat
     = Some 0.
Proof. split; vm_compute; reflexivity. Qed.

Lemma response_count_aggregate_witness :
  (exists r' db',
      Routes.post_response 1003 21 (Some Scenario.carol) (Some 10%nat)
        (Scenario.response_body (Some Response.submitted)) Scenario.db_open = Ok (r', db')
      /\ Response.status r' = Response.submitted
      /\ counted_once (Response.rfp_id r') Scenario.db_open db')
  /\ (exists r0 r' db',
      responses Scenario.db_open !! 20%nat = Some r0
      /\ Response.status r0 = Response.draft
      /\ Routes.put_response 1003 (Some Scenario.bob) 20
           (Scenario.response_body (Some Response.submitted)) Scenario.db_open
         = Ok (r', db')
      /\ Response.status r' = Response.submitted
      /\ counted_once (Response.rfp_id r') Scenario.db_open db')
  /\ (exists r' db',
      Routes.post_response_submit 1003 (Some Scenario.bob) 20 Scenario.db_open
        = Ok (r', db')
      /\ counted_once (Response.rfp_id r') Scenario.db_open db')
  /\ (exists db' d d',
      overwrites_count (SubmitResponse 20) = false
      /\ handle 1003 (Some Scenario.bob) (SubmitResponse 20) Scenario.db_open = Ok db'
      /\ rfps Scenario.db_open !! 10%nat = Some d
      /\ rfps db' !! 10%nat = Some d'
      /\ RFP.response_count d <= RFP.response_count d').
Proof.
  destruct response_count_aggregate as (H1 & H2 & H3 & H4 & _).
  split; [|split; [|split]].
  - eexists _, _. split; [vm_compute; reflexivity|]. split; [reflexivity|].
    apply (H1 1003 21%nat (Some Scenario.carol) (Some 10%nat)
             (Scenario.response_body (Some Response.submitted)) Scenario.db_open);
      vm_compute; reflexivity.
  - eexists _, _, _. split; [vm_compute; reflexivity|]. split; [reflexivity|].
    split; [vm_compute; reflexivity|]. split; [reflexivity|].
    eapply (H2 1003 (Some Scenario.bob) 20%nat
              (Scenario.response_body (Some Response.submitted)) Scenario.db_open);
      vm_compute; reflexivity.
  - eexists _, _. split; [vm_compute; reflexivity|].
    apply (H3 1003 (Some Scenario.bob) 20%nat Scenario.db_open).
    vm_compute; reflexivity.
  - eexists _, _, _. split; [reflexivity|]. split; [vm_compute; reflexivity|].
    split; [vm_compute; reflexivity|]. split; [vm_compute; reflexivity|].
    eapply (H4 1003 (Some Scenario.bob) (SubmitResponse 20) Scenario.db_open _ 10%nat);
      vm_compute; reflexivity.
Defined.

(** ** C2: review *)

Lemma Response_reviewed_at_pre_save m now d t :
  Response.reviewed_at d = Some t ->
  Response.reviewed_at (Response.pre_save m now d) = Some t.
Proof.
  intros H. unfold Response.pre_save.
  destruct (m && negb (Response.Status_eqb (Response.status d) Response.draft)
            && negb (JS.is_defined (Response.submitted_at d))); simpl;
    rewrite H; simpl; rewrite andb_false_r; simpl; exact H.
Qed.

(** What a successful review does: the guards it passed, the status and the
    notes it stored, and the date it stamped. *)
Lemma review_effect now req_user id b db r' db' :
  Routes.post_response_review now req_user id b db = Ok (r', db') ->
  exists u r0 rfp st,
    req_user = Some u /\ role u = buyer
    /\ responses db !! id = Some r0
    /\ rfps db !! Response.rfp_id r0 = Some rfp
    /\ RFP.created_by rfp = user_id u
    /\ (Response.status r0 = Response.submitted
        \/ Response.status r0 = Response.under_review)
    /\ Validation.rb_status b = Some st
    /\ Validation.review_status_allowed st = true
    /\ Response.status r' = st
    /\ Response.reviewer_notes r'
       = option_map JS.trim (Validation.rb_reviewer_notes b)
    /\ Response.reviewed_at r' = Some now
    /\ responses db' !! id = Some r'.
Proof.
  unfold Routes.post_response_review. intros H.
  apply authenticate_authorize_Ok in H as (u & -> & Hrole & H).
  apply bind_Ok in H as [b' [Hb H]].
  unfold Validation.validateReview in Hb.
  destruct (Validation.rb_status b) as [st|] eqn:Hst; [|discriminate].
  destruct (Validation.review_status_allowed st) eqn:Hal; [|discriminate].
  destruct (Validation.optional _ _); [|discriminate].
  injection Hb as <-.
  apply reviewResponse_Ok in H as (r0 & rfp & st' & Hr0 & Hrfp & Ho & Hs & Hst' & -> & ->).
  simpl in Hst'. injection Hst' as <-.
  exists u, r0, rfp, st. repeat split; auto.
  - simpl in Hrole. destruct (role u); [reflexivity|discriminate].
  - rewrite Response_status_pre_save. reflexivity.
  - unfold Response.pre_save. repeat destruct (_ && _); simpl;
      destruct (Validation.rb_reviewer_notes b); simpl;
      rewrite ?trim_idempotent; reflexivity.
  - apply Response_reviewed_at_pre_save. reflexivity.
  - simpl. apply lookup_insert_eq.
Qed.

(** C2, the code against the claim: Alice's review of Bob's submitted
    Response with the outcome [under_review] succeeds, stores the outcome,
    and stamps [reviewed_at] with the instant of the review. *)
Theorem review_under_review_stamps_reviewed_at :
  exists r' db',
    Routes.post_response_review 1004 (Some Scenario.alice) 20
      (Scenario.review_body Response.under_review) Scenario.db_submitted = Ok (r', db')
    /\ Response.status r' = Response.under_review
    /\ Response.reviewed_at r' = Some 1004
    /\ responses db' !! 20%nat = Some r'.
Proof.
  eexists _, _. split; [vm_compute; reflexivity|].
  split; [reflexivity|]. split; [reflexivity|]. vm_compute. reflexivity.
Qed.

(** ** C3: [published_at] *)

(** C3, the code against the claim: after create, publish and close the
    RFP is [closed] and still carries the [published_at] of its
    publication; after create, publish and an update with
    [status: 'draft'] it is [draft] and still carries it. *)
Theorem published_at_outlives_published :
  (RFP.status <$> rfps Scenario.db_closed !! 10%nat = Some RFP.closed
   /\ RFP.published_at <$> rfps Scenario.db_closed !! 10%nat = Some (Some 1001))
  /\ (let db := after 1003 (Some Scenario.alice)
                  (UpdateRFP 10 (Scenario.rfp_body 5000 (Some RFP.draft) None))
                  Scenario.db_open in
      RFP.status <$> rfps db !! 10%nat = Some RFP.draft
      /\ RFP.published_at <$> rfps db !! 10%nat = Some (Some 1001)).
Proof. repeat split; vm_compute; reflexivity. Qed.

Lemma rfp_effect_published_at now r old d' :
  rfp_effect now r old d' ->
  (forall d, old = Some d ->
     RFP.status d = RFP.published -> is_Some (RFP.published_at d)) ->
  RFP.status d' = RFP.published -> is_Some (RFP.published_at d').
Proof.
  intros He Hold.
  destruct He as [r d|r d _|r d l _|oid b b' owner d Hb Hc _|id b b' d Hb _ _ _|id d _ _|id d _ _];
    simpl; try discriminate; try (apply Hold; reflexivity); eauto.
  - rewrite RFP_status_pre_save. simpl.
    rewrite (RFP_construct_status _ _ _ Hc). unfold RFP.pre_save. simpl.
    rewrite (RFP_construct_status _ _ _ Hc).
    destruct (RFP.b_status b') as [st|]; simpl; [|discriminate].
    intros ->. simpl.
    destruct (RFP.published_at d) eqn:E; simpl; [rewrite E|]; eauto.
  - rewrite RFP_status_pre_save. unfold RFP.pre_save, RFP.isModified_status.
    intros Hs. rewrite Hs.
    destruct (RFP.Status_eqb (RFP.status d) RFP.published) eqn:Hp; simpl.
    + apply RFP_Status_eqb_eq in Hp. specialize (Hold d eq_refl Hp).
      destruct (RFP.b_published_at b'); [eauto|exact Hold].
    + destruct (match RFP.b_published_at b' with
                | Some v => Some v
                | None => RFP.published_at d
                end) eqn:E; simpl; [rewrite E|]; eauto.
Qed.

(** The direction of C3 that the code keeps: every stored RFP whose status
    is [published] carries a [published_at]. *)
Lemma published_has_published_at db :
  reachable db ->
  forall id d, rfps db !! id = Some d ->
    RFP.status d = RFP.published -> is_Some (RFP.published_at d).
Proof.
  revert db.
  apply (reachable_invariant
           (fun db => forall id d, rfps db !! id = Some d ->
              RFP.status d = RFP.published -> is_Some (RFP.published_at d))).
  - intros id d Hl. simpl in Hl. rewrite lookup_empty in Hl. discriminate.
  - intros now req_user r db db' Hinv Hh id d' Hl.
    eapply rfp_effect_published_at; [eapply handle_rfp_effect; eassumption|].
    intros d Hd. eapply Hinv. exact Hd.
Qed.

(** Every close breaks the other direction: the RFP it stores is [closed]
    and carries the [published_at] it had. *)
Lemma close_keeps_published_at db now u id r' db' :
  reachable db ->
  rfpController.closeRFP now u id db = Ok (r', db') ->
  RFP.status r' = RFP.closed /\ is_Some (RFP.published_at r').
Proof.
  intros Hreach H.
  apply closeRFP_Ok in H as (d & Hd & _ & Hs & _ & -> & _).
  split; [reflexivity|]. simpl.
  exact (published_has_published_at db Hreach id d Hd Hs).
Qed.

(** ** The unique index on a save that keeps the key *)

Lemma index_conflict_unique id d r0 (coll : gmap nat Response.t) :
  unique_pairs coll ->
  coll !! id = Some r0 ->
  Response.rfp_id d = Response.rfp_id r0 ->
  Response.submitted_by d = Response.submitted_by r0 ->
  Response.index_conflict id d coll = false.
Proof.
  intros Hu Hl Hr Hs. unfold Response.index_conflict.
  destruct (Response.findOne _ _ (delete id coll)) as [x|] eqn:E; [|reflexivity].
  exfalso. unfold Response.findOne in E.
  apply fmap_Some in E as ([i y] & E & ->).
  apply list_find_Some in E as (Hin & [Hp1 Hp2] & _).
  apply list_elem_of_lookup_2, list_elem_of_fmap in Hin as ([k z] & Hz & Hin).
  simpl in Hz. subst z.
  apply elem_of_map_to_list, lookup_delete_Some in Hin as [Hne Hk].
  apply Hne. apply (Hu id k r0 y Hl Hk); simpl in *; congruence.
Qed.

(** ** C4: the state of the parent RFP *)

(** The guards the three handlers do run: creation asks for a published
    RFP whose deadline has not passed; update and submit ask for the
    deadline only. *)
Lemma response_write_guards :
  (forall now oid u rfp_id b db r' db',
      responseController.createResponse now oid u rfp_id b db = Ok (r', db') ->
      exists rfp, rfps db !! Response.rfp_id r' = Some rfp
        /\ RFP.status rfp = RFP.published /\ now <= RFP.deadline rfp)
  /\ (forall now u id b db r' db',
      responseController.updateResponse now u id b db = Ok (r', db') ->
      exists rfp, rfps db !! Response.rfp_id r' = Some rfp /\ now <= RFP.deadline rfp)
  /\ (forall now u id db r' db',
      responseController.submitResponse now u id db = Ok (r', db') ->
      exists rfp, rfps db !! Response.rfp_id r' = Some rfp /\ now <= RFP.deadline rfp).
Proof.
  repeat split.
  - intros now oid u rfp_id b db r' db' H.
    apply createResponse_Ok in H
      as (rid & rfp & d & Hrid & Hr & Hp & Hd & _ & Hc & _ & _ & -> & _).
    apply Response_construct_keys in Hc as [Hk _].
    exists rfp. rewrite Response_rfp_id_pre_save. simpl.
    replace (Response.rfp_id d) with rid by congruence. auto.
  - intros now u id b db r' db' H.
    apply updateResponse_Ok in H as (d & rfp & _ & _ & _ & Hr & Hd & _ & -> & _).
    exists rfp. rewrite Response_rfp_id_pre_save. simpl. auto.
  - intros now u id db r' db' H.
    apply submitResponse_Ok in H as (d & rfp & _ & _ & _ & Hr & Hd & -> & _).
    exists rfp. simpl. auto.
Qed.

(** Past the deadline the three handlers answer 'RFP expired' once the
    guards in front of the deadline check have passed. *)
Lemma response_write_expired :
  (forall now oid u b db rid rfp,
      rfps db !! rid = Some rfp ->
      RFP.status rfp = RFP.published -> RFP.deadline rfp < now ->
      responseController.createResponse now oid u (Some rid) b db = Err RFPExpired)
  /\ (forall now u id b db r rfp,
      responses db !! id = Some r -> Response.submitted_by r = user_id u ->
      Response.is_decided (Response.status r) = false ->
      rfps db !! Response.rfp_id r = Some rfp -> RFP.deadline rfp < now ->
      responseController.updateResponse now u id b db = Err RFPExpired)
  /\ (forall now u id db r rfp,
      responses db !! id = Some r -> Response.submitted_by r = user_id u ->
      Response.status r = Response.draft ->
      rfps db !! Response.rfp_id r = Some rfp -> RFP.deadline rfp < now ->
      responseController.submitResponse now u id db = Err RFPExpired)
  /\ (forall now oid u b db rid rfp,
      rfps db !! rid = Some rfp ->
      RFP.status rfp <> RFP.published ->
      responseController.createResponse now oid u (Some rid) b db = Err CannotRespond).
Proof.
  repeat split.
  - intros now oid u b db rid rfp Hr Hs Hd.
    unfold responseController.createResponse. simpl. rewrite Hr. simpl.
    rewrite Hs. simpl.
    destruct (Z.ltb_spec (RFP.deadline rfp) now); [reflexivity|lia].
  - intros now u id b db r rfp Hl Ho Hs Hr Hd.
    unfold responseController.updateResponse. rewrite Hl, Ho, Nat.eqb_refl, Hs. simpl.
    rewrite Hr. destruct (Z.ltb_spec (RFP.deadline rfp) now); [reflexivity|lia].
  - intros now u id db r rfp Hl Ho Hs Hr Hd.
    unfold responseController.submitResponse. rewrite Hl, Ho, Nat.eqb_refl, Hs. simpl.
    rewrite Hr. destruct (Z.ltb_spec (RFP.deadline rfp) now); [reflexivity|lia].
  - intros now oid u b db rid rfp Hr Hs.
    unfold responseController.createResponse. simpl. rewrite Hr. simpl.
    apply RFP_Status_eqb_neq in Hs. rewrite Hs. reflexivity.
Qed.

(** The submit action never reads the status of the RFP: on a valid draft
    Response of the user, with the RFP there and its deadline not passed,
    it succeeds whatever that status is. *)
Lemma submit_ignores_rfp_status now u id db r rfp :
  responses db !! id = Some r ->
  Response.submitted_by r = user_id u ->
  Response.status r = Response.draft ->
  rfps db !! Response.rfp_id r = Some rfp ->
  now <= RFP.deadline rfp ->
  Response.validate r = true ->
  unique_pairs (responses db) ->
  is_ok (responseController.submitResponse now u id db) = true.
Proof.
  intros Hl Ho Hs Hr Hd Hv Hu.
  unfold responseController.submitResponse.
  rewrite Hl, Ho, Nat.eqb_refl, Hs. simpl. rewrite Hr.
  destruct (Z.ltb_spec (RFP.deadline rfp) now); [lia|]. simpl.
  unfold Response.save.
  assert (Hv' : Response.validate
                  (Response.set_submitted_at (Some now)
                     (Response.set_status Response.submitted r)) = true).
  { destruct r as [rid sby pr pb tl me td an st sa ra rn di ca].
    unfold Response.validate, Response.submitted_at_validator,
      Response.reviewed_at_validator, Schema.when_defined in *.
    simpl in *. destruct sa, ra; rewrite ?orb_true_r, ?andb_true_r in *; exact Hv. }
  rewrite Hv'.
  rewrite (index_conflict_unique id _ r); auto.
  - rewrite Response_rfp_id_pre_save. reflexivity.
  - rewrite Response_submitted_by_pre_save. reflexivity.
Qed.

(** C4, the code against the claim: Alice has closed the RFP [10] before
    its deadline.  Creating a Response for it is refused ('Cannot respond
    to RFP'), but Bob's update of his draft Response and his submission of
    it both succeed, and the submission is counted on the closed RFP. *)
Theorem closed_rfp_accepts_update_and_submit :
  RFP.status <$> rfps Scenario.db_closed !! 10%nat = Some RFP.closed
  /\ handle 1004 (Some Scenario.carol)
       (CreateResponse 21 (Some 10%nat) (Scenario.response_body None)) Scenario.db_closed
     = Err CannotRespond
  /\ is_ok (Routes.put_response 1004 (Some Scenario.bob) 20
              (Scenario.response_body None) Scenario.db_closed) = true
  /\ (let db := after 1004 (Some Scenario.bob) (SubmitResponse 20) Scenario.db_closed in
      Response.status <$> responses db !! 20%nat = Some Response.submitted
      /\ RFP.status <$> rfps db !! 10%nat = Some RFP.closed
      /\ RFP.response_count <$> rfps db !! 10%nat = Some 1).
Proof. repeat split; vm_compute; reflexivity. Qed.

(** ** C6: one Response per submitter and RFP *)

Lemma findOne_None rid uid (coll : gmap nat Response.t) :
  Response.findOne rid uid coll = None <->
  forall k r, coll !! k = Some r -> ~ Response.same_pair rid uid r.
Proof.
  unfold Response.findOne. rewrite fmap_None, list_find_None, Forall_forall.
  split.
  - intros H k r Hl. apply H.
    apply list_elem_of_fmap. exists (k, r). split; [reflexivity|].
    now apply elem_of_map_to_list.
  - intros H r Hin. apply list_elem_of_fmap in Hin as ([k r'] & -> & Hin).
    apply elem_of_map_to_list in Hin. now apply (H k).
Qed.

Lemma findOne_is_Some rid uid (coll : gmap nat Response.t) k r :
  coll !! k = Some r -> Response.same_pair rid uid r ->
  is_Some (Response.findOne rid uid coll).
Proof.
  intros Hl Hp. destruct (Response.findOne rid uid coll) eqn:E; [eauto|].
  exfalso. exact (proj1 (findOne_None rid uid coll) E k r Hl Hp).
Qed.

Lemma responses_push_parents b oid db k r' :
  responses (push_parents b oid db) !! k = Some r' ->
  exists r0, responses db !! k = Some r0
    /\ Response.rfp_id r0 = Response.rfp_id r'
    /\ Response.submitted_by r0 = Response.submitted_by r'.
Proof.
  unfold push_parents.
  destruct (Document.b_response_id b), (Document.b_rfp_id b); simpl; eauto;
    rewrite lookup_alter; case_decide; subst; eauto;
    destruct (responses db !! k) as [r0|]; simpl; intros [= <-]; eauto.
Qed.

Lemma responses_pull_parents doc did db k r' :
  responses (pull_parents doc did db) !! k = Some r' ->
  exists r0, responses db !! k = Some r0
    /\ Response.rfp_id r0 = Response.rfp_id r'
    /\ Response.submitted_by r0 = Response.submitted_by r'.
Proof.
  unfold pull_parents.
  destruct (Document.response_id doc), (Document.rfp_id doc); simpl; eauto;
    rewrite lookup_alter; case_decide; subst; eauto;
    destruct (responses db !! k) as [r0|]; simpl; intros [= <-]; eauto.
Qed.

Lemma responses_counted (f : DB -> DB) rid db :
  f = inc_response_count rid \/ f = (fun x => x) ->
  responses (f db) = responses db.
Proof. intros [-> | ->]; reflexivity. Qed.

Lemma unique_pairs_insert_checked id d (coll : gmap nat Response.t) :
  unique_pairs coll ->
  Response.index_conflict id d coll = false ->
  unique_pairs (<[id := d]> coll).
Proof.
  intros Hu Hi k1 k2 r1 r2 H1 H2 E1 E2.
  unfold Response.index_conflict in Hi.
  destruct (Response.findOne _ _ (delete id coll)) eqn:Hf; [discriminate|].
  pose proof (proj1 (findOne_None _ _ _) Hf) as Hn.
  destruct (decide (k1 = id)) as [->|N1], (decide (k2 = id)) as [->|N2];
    [reflexivity| | |].
  - rewrite lookup_insert_eq in H1. rewrite lookup_insert_ne in H2 by congruence.
    injection H1 as <-. exfalso. apply (Hn k2 r2).
    + apply lookup_delete_Some. split; [congruence|exact H2].
    + split; congruence.
  - rewrite lookup_insert_ne in H1 by congruence. rewrite lookup_insert_eq in H2.
    injection H2 as <-. exfalso. apply (Hn k1 r1).
    + apply lookup_delete_Some. split; [congruence|exact H1].
    + split; congruence.
  - rewrite lookup_insert_ne in H1, H2 by congruence.
    apply (Hu k1 k2 r1 r2); assumption.
Qed.

Lemma unique_pairs_keys (m m' : gmap nat Response.t) :
  (forall k r', m' !! k = Some r' ->
     exists r0, m !! k = Some r0
       /\ Response.rfp_id r0 = Response.rfp_id r'
       /\ Response.submitted_by r0 = Response.submitted_by r') ->
  unique_pairs m -> unique_pairs m'.
Proof.
  intros Hk Hu k1 k2 r1 r2 H1 H2 E1 E2.
  destruct (Hk k1 r1 H1) as (a1 & Ha1 & Hr1 & Hs1).
  destruct (Hk k2 r2 H2) as (a2 & Ha2 & Hr2 & Hs2).
  apply (Hu k1 k2 a1 a2); congruence.
Qed.

Lemma createResponse_saved now oid u rfp_id b db r' db' :
  responseController.createResponse now oid u rfp_id b db = Ok (r', db') ->
  responses db' = <[oid := r']> (responses db)
  /\ Response.index_conflict oid r' (responses db) = false.
Proof.
  unfold responseController.createResponse. intros H.
  destruct rfp_id as [rid|]; simpl in H; [|discriminate].
  destruct (rfps db !! rid) as [rfp|]; simpl in H; [|discriminate].
  destruct (RFP.Status_eqb (RFP.status rfp) RFP.published); [|discriminate].
  destruct (negb (RFP.deadline rfp <? now)); simpl in H; [|discriminate].
  destruct (Response.findOne rid (user_id u) (responses db)); [discriminate|].
  destruct (Response.construct (Some rid) b (user_id u)) as [d|]; [|discriminate].
  apply bind_Ok in H as [[d1 m] [Hs H]].
  apply Response_save_new_Ok in Hs as (_ & _ & -> & Hi & ->).
  injection H as <- <-. split; [|exact Hi].
  destruct (Response.Status_eqb _ Response.submitted); reflexivity.
Qed.

Lemma updateResponse_saved now u id b db r' db' :
  responseController.updateResponse now u id b db = Ok (r', db') ->
  responses db' = <[id := r']> (responses db)
  /\ Response.index_conflict id r' (responses db) = false.
Proof.
  unfold responseController.updateResponse. intros H.
  destruct (responses db !! id) as [d|]; [|discriminate].
  destruct (Nat.eqb (Response.submitted_by d) (user_id u)); [|discriminate].
  destruct (negb (Response.is_decided (Response.status d))); [|discriminate].
  destruct (rfps db !! Response.rfp_id d) as [rfp|]; [|discriminate].
  destruct (negb (RFP.deadline rfp <? now)); simpl in H; [|discriminate].
  apply bind_Ok in H as [[d1 m] [Hsv H]].
  apply Response_save_Ok in Hsv as (_ & -> & Hi & ->).
  injection H as <- <-. split; [|exact Hi].
  destruct (_ && _); reflexivity.
Qed.

Lemma submitResponse_saved now u id db r' db' :
  responseController.submitResponse now u id db = Ok (r', db') ->
  responses db' = <[id := r']> (responses db)
  /\ Response.index_conflict id r' (responses db) = false.
Proof.
  unfold responseController.submitResponse. intros H.
  destruct (responses db !! id) as [d|]; [|discriminate].
  destruct (Nat.eqb (Response.submitted_by d) (user_id u)); [|discriminate].
  destruct (Response.Status_eqb (Response.status d) Response.draft); [|discriminate].
  destruct (rfps db !! Response.rfp_id d) as [rfp|]; [|discriminate].
  destruct (negb (RFP.deadline rfp <? now)); simpl in H; [|discriminate].
  apply bind_Ok in H as [[d1 m] [Hsv H]].
  apply Response_save_Ok in Hsv as (_ & -> & Hi & ->).
  injection H as <- <-. split; [reflexivity|exact Hi].
Qed.

Lemma reviewResponse_saved now u id b db r' db' :
  responseController.reviewResponse now u id b db = Ok (r', db') ->
  responses db' = <[id := r']> (responses db)
  /\ Response.index_conflict id r' (responses db) = false.
Proof.
  unfold responseController.reviewResponse. intros H.
  destruct (responses db !! id) as [d|]; [|discriminate].
  destruct (rfps db !! Response.rfp_id d) as [rfp|]; [|discriminate].
  destruct (Nat.eqb (RFP.created_by rfp) (user_id u)); [|discriminate].
  destruct (_ || _); [|discriminate].
  destruct (Validation.rb_status b) as [st|]; [|discriminate].
  apply bind_Ok in H as [[d1 m] [Hsv H]].
  apply Response_save_Ok in Hsv as (_ & -> & Hi & ->).
  injection H as <- <-. split; [reflexivity|exact Hi].
Qed.

(** What a successful request does to the collection of the Responses:
    it writes one of them through [save], which the unique index lets
    through, or it leaves the key [(rfp_id, submitted_by)] of each. *)
Lemma handle_responses now req_user r db db' :
  handle now req_user r db = Ok db' ->
  (exists id d', responses db' = <[id := d']> (responses db)
     /\ Response.index_conflict id d' (responses db) = false)
  \/ (forall k r', responses db' !! k = Some r' ->
        exists r0, responses db !! k = Some r0
          /\ Response.rfp_id r0 = Response.rfp_id r'
          /\ Response.submitted_by r0 = Response.submitted_by r').
Proof.
  intros H. destruct r; simpl in H.
  - right. apply bind_Ok in H as [[x db1] [H [= ->]]]. unfold Routes.post_rfp in H.
    apply authenticate_authorize_Ok in H as (u & -> & _ & H).
    apply bind_Ok in H as [b' [Hb H]].
    apply createRFP_Ok in H as (d & _ & _ & _ & _ & ->). simpl. eauto.
  - right. apply bind_Ok in H as [[x db1] [H [= ->]]]. unfold Routes.put_rfp in H.
    apply authenticate_authorize_Ok in H as (u & -> & _ & H).
    apply bind_Ok in H as [b' [Hb H]].
    apply updateRFP_Ok in H as (d & _ & _ & _ & _ & _ & _ & ->). simpl. eauto.
  - right. unfold Routes.delete_rfp in H.
    apply authenticate_authorize_Ok in H as (u & -> & _ & H).
    apply deleteRFP_Ok in H as (d & _ & _ & _ & ->). simpl. eauto.
  - right. apply bind_Ok in H as [[x db1] [H [= ->]]]. unfold Routes.post_rfp_publish in H.
    apply authenticate_authorize_Ok in H as (u & -> & _ & H).
    apply publishRFP_Ok in H as (d & _ & _ & _ & _ & _ & ->). simpl. eauto.
  - right. apply bind_Ok in H as [[x db1] [H [= ->]]]. unfold Routes.post_rfp_close in H.
    apply authenticate_authorize_Ok in H as (u & -> & _ & H).
    apply closeRFP_Ok in H as (d & _ & _ & _ & _ & _ & ->). simpl. eauto.
  - left. apply bind_Ok in H as [[x db1] [H [= ->]]]. unfold Routes.post_response in H.
    apply authenticate_authorize_Ok in H as (u & -> & _ & H).
    destruct (Validation.validateRfpId rfp_id); [|discriminate].
    apply bind_Ok in H as [b' [Hb H]].
    apply createResponse_saved in H. eauto.
  - left. apply bind_Ok in H as [[x db1] [H [= ->]]]. unfold Routes.put_response in H.
    apply authenticate_authorize_Ok in H as (u & -> & _ & H).
    apply bind_Ok in H as [b' [Hb H]].
    apply updateResponse_saved in H. eauto.
  - right. unfold Routes.delete_response in H.
    apply authenticate_authorize_Ok in H as (u & -> & _ & H).
    apply deleteResponse_Ok in H as (d & _ & _ & _ & ->).
    simpl. intros k r' Hl. apply lookup_delete_Some in Hl as [_ Hl]. eauto.
  - left. apply bind_Ok in H as [[x db1] [H [= ->]]]. unfold Routes.post_response_submit in H.
    apply authenticate_authorize_Ok in H as (u & -> & _ & H).
    apply submitResponse_saved in H. eauto.
  - left. apply bind_Ok in H as [[x db1] [H [= ->]]]. unfold Routes.post_response_review in H.
    apply authenticate_authorize_Ok in H as (u & -> & _ & H).
    apply bind_Ok in H as [b' [Hb H]].
    apply reviewResponse_saved in H. eauto.
  - right. apply bind_Ok in H as [[x db1] [H [= ->]]]. unfold Routes.post_document_upload in H.
    apply authenticate_Ok in H as (u & -> & H).
    apply check_Ok in H as [_ H].
    apply bind_Ok in H as [b' [Hb H]].
    apply uploadDocument_Ok in H as (f & d & _ & _ & _ & _ & _ & _ & _ & _ & ->).
    intros k r' Hl. apply responses_push_parents in Hl. exact Hl.
  - right. unfold Routes.delete_document in H.
    apply authenticate_Ok in H as (u & -> & H).
    apply deleteDocument_Ok in H as (d & _ & _ & ->).
    intros k r' Hl. simpl in Hl. apply responses_pull_parents in Hl. exact Hl.
Qed.

Lemma unique_pairs_step now req_user r db db' :
  unique_pairs (responses db) ->
  handle now req_user r db = Ok db' ->
  unique_pairs (responses db').
Proof.
  intros Hu Hh.
  destruct (handle_responses _ _ _ _ _ Hh) as [(id & d' & -> & Hi)|Hk].
  - now apply unique_pairs_insert_checked.
  - now apply (unique_pairs_keys (responses db)).
Qed.

Lemma unique_pairs_reachable db : reachable db -> unique_pairs (responses db).
Proof.
  revert db. apply (reachable_invariant (fun db => unique_pairs (responses db))).
  - intros k1 k2 r1 r2 H1. simpl in H1. rewrite lookup_empty in H1. discriminate.
  - intros now req_user r db db' Hu Hh. eapply unique_pairs_step; eassumption.
Qed.

(** C6, as amended.  With a Response of the same submitter stored for the
    RFP that the body names, [createResponse] fails with the error of the
    first guard that does: 'RFP not found' when the RFP is not stored,
    'Cannot respond to RFP' when it is not published, 'RFP expired' when
    its deadline has passed, and 'Response already exists' otherwise; the
    request leaves the database as it was.  And in every database the API
    can reach, no two Responses share the pair (RFP, submitter). *)
Theorem one_response_per_submitter :
  (forall now oid u b db rid k r0,
      responses db !! k = Some r0 ->
      Response.rfp_id r0 = rid ->
      Response.submitted_by r0 = user_id u ->
      responseController.createResponse now oid u (Some rid) b db
      = Err (match rfps db !! rid with
             | None => NotFound
             | Some rfp =>
                 if negb (RFP.Status_eqb (RFP.status rfp) RFP.published)
                 then CannotRespond
                 else if RFP.deadline rfp <? now then RFPExpired
                 else ResponseAlreadyExists
             end)
      /\ after now (Some u) (CreateResponse oid (Some rid) b) db = db)
  /\ (forall db, reachable db -> unique_pairs (responses db)).
Proof.
  split.
  - intros now oid u b db rid k r0 Hl Hr Hs.
    assert (Hf : is_Some (Response.findOne rid (user_id u) (responses db))).
    { eapply findOne_is_Some; [exact Hl|]. split; assumption. }
    destruct Hf as [x Hf].
    split.
    + unfold responseController.createResponse. simpl.
      destruct (rfps db !! rid) as [rfp|] eqn:Hrfp; simpl; [|reflexivity].
      destruct (RFP.Status_eqb (RFP.status rfp) RFP.published); simpl; [|reflexivity].
      destruct (RFP.deadline rfp <? now); simpl; [reflexivity|].
      rewrite Hf. reflexivity.
    + unfold after. simpl. unfold Routes.post_response. simpl.
      destruct (role u); simpl; [reflexivity|].
      destruct (Validation.validateResponse b) as [b'|] eqn:Hv; simpl; [|reflexivity].
      apply validateResponse_Ok in Hv as [_ ->].
      destruct (responseController.createResponse now oid u (Some rid)
                  (Validation.response_sanitize b) db) as [[r' db']|e] eqn:Hc;
        [|reflexivity].
      exfalso. apply createResponse_Ok in Hc
        as (rid' & rfp & d & Hrid & _ & _ & _ & Hnone & _).
      injection Hrid as <-.
      apply (proj1 (findOne_None _ _ _) Hnone k r0 Hl). split; assumption.
  - apply (reachable_invariant (fun db => unique_pairs (responses db))).
    + intros k1 k2 r1 r2 H1. simpl in H1. rewrite lookup_empty in H1. discriminate.
    + intros now req_user r db db' Hu Hh. eapply unique_pairs_step; eassumption.
Qed.

(** C6 fails as stated: Bob's Response [20] is stored for the RFP [10], and
    his second [POST /api/responses] for it is refused, but not with
    'Response already exists': with 'Cannot respond to RFP' once Alice has
    closed the RFP, and with 'RFP expired' at 6000, past its deadline
    (5000).  The guards on the RFP stand before the search for a stored
    Response. *)
Lemma duplicate_refused_without_conflict :
  (Response.rfp_id <$> responses Scenario.db_closed !! 20%nat = Some 10%nat
   /\ Response.submitted_by <$> responses Scenario.db_closed !! 20%nat
      = Some (user_id Scenario.bob)
   /\ responseController.createResponse 1004 21 Scenario.bob (Some 10%nat)
        (Scenario.response_body None) Scenario.db_closed
      = Err CannotRespond
   /\ Routes.post_response 1004 21 (Some Scenario.bob) (Some 10%nat)
        (Scenario.response_body None) Scenario.db_closed
      = Err CannotRespond)
  /\ (Response.rfp_id <$> responses Scenario.db_open !! 20%nat = Some 10%nat
      /\ Response.submitted_by <$> responses Scenario.db_open !! 20%nat
         = Some (user_id Scenario.bob)
      /\ responseController.createResponse 6000 21 Scenario.bob (Some 10%nat)
           (Scenario.response_body None) Scenario.db_open
         = Err RFPExpired
      /\ Routes.post_response 6000 21 (Some Scenario.bob) (Some 10%nat)
           (Scenario.response_body None) Scenario.db_open
         = Err RFPExpired).
Proof. repeat split; vm_compute; reflexivity. Qed.

Lemma one_response_per_submitter_witness :
  (exists r0, responses Scenario.db_open !! 20%nat = Some r0
     /\ Response.rfp_id r0 = 10%nat
     /\ Response.submitted_by r0 = user_id Scenario.bob)
  /\ responseController.createResponse 1004 21 Scenario.bob (Some 10%nat)
       (Scenario.response_body None) Scenario.db_open
     = Err ResponseAlreadyExists
  /\ after 1004 (Some Scenario.bob)
       (CreateResponse 21 (Some 10%nat) (Scenario.response_body None))
       Scenario.db_open
     = Scenario.db_open
  /\ reachable Scenario.db_open
  /\ unique_pairs (responses Scenario.db_open).
Proof.
  destruct one_response_per_submitter as [H1 H2].
  assert (Hl : exists r0, responses Scenario.db_open !! 20%nat = Some r0
                 /\ Response.rfp_id r0 = 10%nat
                 /\ Response.submitted_by r0 = user_id Scenario.bob).
  { eexists. split; [vm_compute; reflexivity|]. split; reflexivity. }
  assert (Hreach : reachable Scenario.db_open) by (exists Scenario.opening; reflexivity).
  split; [exact Hl|].
  destruct Hl as (r0 & Hl & Hk & Hs).
  destruct (H1 1004 21%nat Scenario.bob (Scenario.response_body None) Scenario.db_open
              10%nat 20%nat r0 Hl Hk Hs) as (Hc & Ha).
  split; [rewrite Hc; vm_compute; reflexivity|].
  split; [exact Ha|].
  split; [exact Hreach|].
  exact (H2 Scenario.db_open Hreach).
Defined.

(** ** C7: a Document and its parents *)

Lemma validateUpload_Ok b b' :
  Validation.validateUpload b = Ok b' ->
  Document.b_document_type b' = Document.b_document_type b
  /\ Document.b_rfp_id b' = Document.b_rfp_id b
  /\ Document.b_response_id b' = Document.b_response_id b.
Proof.
  unfold Validation.validateUpload. destruct (_ && _); [|discriminate].
  intros [= <-]. auto.
Qed.

Lemma Document_construct_parents f b uid d :
  Document.construct f b uid = Some d ->
  Document.b_document_type b = Some (Document.document_type d)
  /\ Document.rfp_id d = Document.b_rfp_id b
  /\ Document.response_id d = Document.b_response_id b.
Proof.
  unfold Document.construct. destruct (Document.b_document_type b); [|discriminate].
  intros [= <-]. auto.
Qed.

Lemma uploadDocument_names_parent now oid file u b db d' db' :
  documentController.uploadDocument now oid file u b db = Ok (d', db') ->
  names_required_parent d'.
Proof.
  intros H.
  apply uploadDocument_Ok in H as (f & d & _ & Hc & H1 & H2 & _ & _ & _ & -> & _).
  apply Document_construct_parents in Hc as (Ht & Hr & Hs).
  split; simpl; intros E; [rewrite Hr; apply H1|rewrite Hs; apply H2]; congruence.
Qed.

Lemma handle_documents now req_user r db db' k d' :
  handle now req_user r db = Ok db' ->
  documents db' !! k = Some d' ->
  documents db !! k = Some d' \/ names_required_parent d'.
Proof.
  intros H Hl. destruct r; simpl in H.
  - apply bind_Ok in H as [[x db1] [H [= ->]]]. unfold Routes.post_rfp in H.
    apply authenticate_authorize_Ok in H as (u & -> & _ & H).
    apply bind_Ok in H as [b' [Hb H]].
    apply createRFP_Ok in H as (d & _ & _ & _ & _ & ->). auto.
  - apply bind_Ok in H as [[x db1] [H [= ->]]]. unfold Routes.put_rfp in H.
    apply authenticate_authorize_Ok in H as (u & -> & _ & H).
    apply bind_Ok in H as [b' [Hb H]].
    apply updateRFP_Ok in H as (d & _ & _ & _ & _ & _ & _ & ->). auto.
  - unfold Routes.delete_rfp in H.
    apply authenticate_authorize_Ok in H as (u & -> & _ & H).
    apply deleteRFP_Ok in H as (d & _ & _ & _ & ->). auto.
  - apply bind_Ok in H as [[x db1] [H [= ->]]]. unfold Routes.post_rfp_publish in H.
    apply authenticate_authorize_Ok in H as (u & -> & _ & H).
    apply publishRFP_Ok in H as (d & _ & _ & _ & _ & _ & ->). auto.
  - apply bind_Ok in H as [[x db1] [H [= ->]]]. unfold Routes.post_rfp_close in H.
    apply authenticate_authorize_Ok in H as (u & -> & _ & H).
    apply closeRFP_Ok in H as (d & _ & _ & _ & _ & _ & ->). auto.
  - apply bind_Ok in H as [[x db1] [H [= ->]]]. unfold Routes.post_response in H.
    apply authenticate_authorize_Ok in H as (u & -> & _ & H).
    destruct (Validation.validateRfpId rfp_id); [|discriminate].
    apply bind_Ok in H as [b' [Hb H]].
    apply createResponse_Ok in H
      as (rid & rfp & d & _ & _ & _ & _ & _ & _ & _ & _ & _ & ->).
    left. destruct (Response.Status_eqb _ _); exact Hl.
  - apply bind_Ok in H as [[x db1] [H [= ->]]]. unfold Routes.put_response in H.
    apply authenticate_authorize_Ok in H as (u & -> & _ & H).
    apply bind_Ok in H as [b' [Hb H]].
    apply updateResponse_Ok in H as (d & rfp & _ & _ & _ & _ & _ & _ & _ & ->).
    left. destruct (_ && _); exact Hl.
  - unfold Routes.delete_response in H.
    apply authenticate_authorize_Ok in H as (u & -> & _ & H).
    apply deleteResponse_Ok in H as (d & _ & _ & _ & ->). auto.
  - apply bind_Ok in H as [[x db1] [H [= ->]]]. unfold Routes.post_response_submit in H.
    apply authenticate_authorize_Ok in H as (u & -> & _ & H).
    apply submitResponse_Ok in H as (d & rfp & _ & _ & _ & _ & _ & _ & ->). auto.
  - apply bind_Ok in H as [[x db1] [H [= ->]]]. unfold Routes.post_response_review in H.
    apply authenticate_authorize_Ok in H as (u & -> & _ & H).
    apply bind_Ok in H as [b' [Hb H]].
    apply reviewResponse_Ok in H as (d & rfp & st & _ & _ & _ & _ & _ & _ & ->). auto.
  - apply bind_Ok in H as [[x db1] [H [= ->]]]. unfold Routes.post_document_upload in H.
    apply authenticate_Ok in H as (u & -> & H).
    apply check_Ok in H as [_ H].
    apply bind_Ok in H as [b' [Hb H]].
    pose proof (uploadDocument_names_parent _ _ _ _ _ _ _ _ H) as Hn.
    apply uploadDocument_Ok in H as (f & d & _ & _ & _ & _ & _ & _ & _ & Hx & ->).
    assert (Hdoc : documents (push_parents b' oid
                      (with_documents (<[oid:=x]> (documents db)) db))
                   = <[oid:=x]> (documents db)).
    { unfold push_parents.
      destruct (Document.b_response_id b'), (Document.b_rfp_id b'); reflexivity. }
    rewrite Hdoc in Hl. destruct (decide (oid = k)) as [->|Hne].
    + rewrite lookup_insert_eq in Hl. injection Hl as <-. auto.
    + rewrite lookup_insert_ne in Hl by assumption. auto.
  - unfold Routes.delete_document in H.
    apply authenticate_Ok in H as (u & -> & H).
    apply deleteDocument_Ok in H as (d & _ & _ & ->).
    simpl in Hl. apply lookup_delete_Some in Hl as [_ Hl]. left.
    unfold pull_parents in Hl.
    destruct (Document.response_id d), (Document.rfp_id d); exact Hl.
Qed.

(** C7, as amended.  An upload of type [rfp_document] without [rfp_id],
    or of type [response_document] without [response_id], is refused
    before anything is stored; every stored Document of one of these two
    types names the parent its type asks for; a new Document names the
    parents that its upload names, be it none, one or both, each of them
    owned by the uploader (the RFP created, the Response submitted by
    them); and a successful upload appends the new [_id] to the
    [document_ids] of each parent its body names (the RFP named by
    [rfp_id], the Response named by [response_id]) and changes no other
    RFP or Response. *)
Theorem upload_links_named_parents :
  (forall now oid f u b db,
      Document.b_document_type b = Some Document.rfp_document ->
      Document.b_rfp_id b = None ->
      documentController.uploadDocument now oid (Some f) u b db = Err RFPIdRequired)
  /\ (forall now oid f u b db,
      Document.b_document_type b = Some Document.response_document ->
      Document.b_response_id b = None ->
      documentController.uploadDocument now oid (Some f) u b db = Err ResponseIdRequired)
  /\ (forall db, reachable db ->
      forall k d, documents db !! k = Some d -> names_required_parent d)
  /\ (forall now oid file u b db d' db',
      documentController.uploadDocument now oid file u b db = Ok (d', db') ->
      documents db' !! oid = Some d'
      /\ Document.rfp_id d' = Document.b_rfp_id b
      /\ Document.response_id d' = Document.b_response_id b
      /\ (forall id, Document.rfp_id d' = Some id ->
            RFP.created_by <$> rfps db !! id = Some (user_id u))
      /\ (forall id, Document.response_id d' = Some id ->
            Response.submitted_by <$> responses db !! id = Some (user_id u))
      /\ (forall id,
            rfps db' !! id
            = if decide (Document.b_rfp_id b = Some id)
              then (fun r => RFP.set_document_ids (RFP.document_ids r ++ [oid]) r)
                     <$> rfps db !! id
              else rfps db !! id)
      /\ (forall id,
            responses db' !! id
            = if decide (Document.b_response_id b = Some id)
              then (fun r => Response.set_document_ids
                               (Response.document_ids r ++ [oid]) r)
                     <$> responses db !! id
              else responses db !! id)).
Proof.
  split; [|split; [|split]].
  - intros now oid f u b db Ht Hn. unfold documentController.uploadDocument.
    rewrite Ht, Hn. reflexivity.
  - intros now oid f u b db Ht Hn. unfold documentController.uploadDocument.
    rewrite Ht, Hn. reflexivity.
  - apply (reachable_invariant
             (fun db => forall k d, documents db !! k = Some d -> names_required_parent d)).
    + intros k d Hl. simpl in Hl. rewrite lookup_empty in Hl. discriminate.
    + intros now req_user r db db' Hinv Hh k d' Hl.
      destruct (handle_documents _ _ _ _ _ _ _ Hh Hl) as [Hold|Hnew]; eauto.
  - intros now oid file u b db d' db' H.
    apply uploadDocument_Ok in H as (f & d & _ & Hc & _ & _ & Ho1 & Ho2 & _ & -> & ->).
    apply Document_construct_parents in Hc as (_ & Hp1 & Hp2).
    assert (Hlinks :
      documents (push_parents b oid
                   (with_documents (<[oid:=Document.set_created_at now d]> (documents db)) db))
        !! oid = Some (Document.set_created_at now d)
      /\ (forall id,
            rfps (push_parents b oid
                    (with_documents (<[oid:=Document.set_created_at now d]> (documents db)) db))
              !! id
            = if decide (Document.b_rfp_id b = Some id)
              then (fun r => RFP.set_document_ids (RFP.document_ids r ++ [oid]) r)
                     <$> rfps db !! id
              else rfps db !! id)
      /\ (forall id,
            responses (push_parents b oid
                    (with_documents (<[oid:=Document.set_created_at now d]> (documents db)) db))
              !! id
            = if decide (Document.b_response_id b = Some id)
              then (fun r => Response.set_document_ids
                               (Response.document_ids r ++ [oid]) r)
                     <$> responses db !! id
              else responses db !! id)).
    { unfold push_parents.
      destruct (Document.b_rfp_id b) as [rid|], (Document.b_response_id b) as [sid|];
        simpl; (split; [apply lookup_insert_eq|]); split; intros id;
        try rewrite lookup_alter; repeat case_decide; simplify_eq; try reflexivity;
        try congruence. }
    destruct Hlinks as (L0 & L1 & L2).
    split; [exact L0|]. split; [exact Hp1|]. split; [exact Hp2|].
    split.
    { intros id E. simpl in E. rewrite Hp1 in E.
      destruct (Ho1 id E) as (rfp & -> & <-). reflexivity. }
    split.
    { intros id E. simpl in E. rewrite Hp2 in E.
      destruct (Ho2 id E) as (r & -> & <-). reflexivity. }
    split; [exact L1|exact L2].
Qed.

(** C7 fails as stated: an upload of type [attachment] that names no
    parent is stored and appended to no [document_ids]; one that names the
    RFP [10] is appended to it although its type is not [rfp_document];
    and Bob's upload of type [rfp_document] that names the RFP [10] and the
    Response [20], both his, is stored with both parents and appended to
    the [document_ids] of both. *)
Lemma attachment_upload_parents :
  (let db' := after 1004 (Some Scenario.alice)
                (UploadDocument 30 (Some Scenario.a_file)
                   (Scenario.upload_body Document.attachment None None))
                Scenario.db_open in
   Document.document_type <$> documents db' !! 30%nat = Some Document.attachment
   /\ rfps db' = rfps Scenario.db_open
   /\ responses db' = responses Scenario.db_open)
  /\ (let db' := after 1004 (Some Scenario.alice)
                   (UploadDocument 30 (Some Scenario.a_file)
                      (Scenario.upload_body Document.attachment (Some 10%nat) None))
                   Scenario.db_open in
      Document.document_type <$> documents db' !! 30%nat = Some Document.attachment
      /\ RFP.document_ids <$> rfps db' !! 10%nat = Some [30%nat])
  /\ (RFP.created_by <$> rfps Scenario.db_bobs_rfp !! 10%nat
      = Some (user_id Scenario.bob)
      /\ Response.submitted_by <$> responses Scenario.db_bobs_rfp !! 20%nat
         = Some (user_id Scenario.bob)
      /\ let db' := after 1004 (Some Scenario.bob)
                      (UploadDocument 30 (Some Scenario.a_file)
                         (Scenario.upload_body Document.rfp_document
                            (Some 10%nat) (Some 20%nat)))
                      Scenario.db_bobs_rfp in
         Document.document_type <$> documents db' !! 30%nat
         = Some Document.rfp_document
         /\ Document.rfp_id <$> documents db' !! 30%nat = Some (Some 10%nat)
         /\ Document.response_id <$> documents db' !! 30%nat = Some (Some 20%nat)
         /\ RFP.document_ids <$> rfps db' !! 10%nat = Some [30%nat]
         /\ Response.document_ids <$> responses db' !! 20%nat = Some [30%nat]).
Proof. repeat split; vm_compute; reflexivity. Qed.

Lemma upload_links_named_parents_witness :
  documentController.uploadDocument 1004 30 (Some Scenario.a_file) Scenario.alice
    (Scenario.upload_body Document.rfp_document None None) Scenario.db_open
  = Err RFPIdRequired
  /\ documentController.uploadDocument 1004 30 (Some Scenario.a_file) Scenario.bob
       (Scenario.upload_body Document.response_document None None) Scenario.db_open
     = Err ResponseIdRequired
  /\ (reachable Scenario.db_uploaded
      /\ exists d, documents Scenario.db_uploaded !! 30%nat = Some d
           /\ names_required_parent d)
  /\ (exists d' db',
        documentController.uploadDocument 1004 30 (Some Scenario.a_file) Scenario.alice
          (Scenario.upload_body Document.rfp_document (Some 10%nat) None)
          Scenario.db_open
        = Ok (d', db')
        /\ documents db' !! 30%nat = Some d'
        /\ Document.rfp_id d' = Some 10%nat
        /\ Document.response_id d' = None).
Proof.
  destruct upload_links_named_parents as (H1 & H2 & H3 & H4).
  split; [apply H1; reflexivity|].
  split; [apply H2; reflexivity|].
  assert (Hreach : reachable Scenario.db_uploaded) by (eexists; reflexivity).
  split.
  - split; [exact Hreach|].
    eexists. split; [vm_compute; reflexivity|].
    apply (H3 Scenario.db_uploaded Hreach 30%nat). vm_compute. reflexivity.
  - eexists _, _. split; [vm_compute; reflexivity|].
    edestruct (H4 1004 30%nat (Some Scenario.a_file) Scenario.alice
                 (Scenario.upload_body Document.rfp_document (Some 10%nat) None)
                 Scenario.db_open) as (Hd & Hr & Hs & _);
      [vm_compute; reflexivity|].
    split; [exact Hd|]. split; [exact Hr|exact Hs].
Defined.

(** ** C8: who may read an RFP *)

Lemma listing_matches regexp_test now req_user q db r :
  r ∈ rfpController.data (rfpController.getAllRFPs regexp_test now req_user q db) ->
  rfpController.matches regexp_test (rfpController.build_filter now req_user q) r = true.
Proof.
  unfold rfpController.getAllRFPs. simpl. intros H.
  apply subseteq_take, subseteq_drop in H.
  rewrite merge_sort_Permutation in H.
  unfold rfpController.find in H.
  apply list_elem_of_In, filter_In in H as [_ H]. exact H.
Qed.

(** C8.  A draft RFP is answered to its owner and to nobody else (any other
    user, and a request without user, get 'Access denied'); a published RFP
    whose deadline has not passed is answered to every request; a
    published RFP whose deadline has passed is in no page of a supplier's
    listing, and is still answered to every request that addresses it. *)
Theorem rfp_visibility :
  (forall req_user id db rfp,
      rfps db !! id = Some rfp ->
      RFP.status rfp = RFP.draft ->
      (is_user req_user (RFP.created_by rfp) ->
       Routes.get_rfp req_user id db = Ok rfp)
      /\ (~ is_user req_user (RFP.created_by rfp) ->
          Routes.get_rfp req_user id db = Err AccessDenied))
  /\ (forall now req_user id db rfp,
      rfps db !! id = Some rfp ->
      RFP.status rfp = RFP.published ->
      now <= RFP.deadline rfp ->
      Routes.get_rfp req_user id db = Ok rfp)
  /\ (forall regexp_test now u q req_user id db rfp,
      rfps db !! id = Some rfp ->
      RFP.status rfp = RFP.published ->
      RFP.deadline rfp < now ->
      role u = supplier ->
      (rfp ∉ rfpController.data
                (rfpController.getAllRFPs regexp_test now (Some u) q db))
      /\ Routes.get_rfp req_user id db = Ok rfp).
Proof.
  split; [|split].
  - intros req_user id db rfp Hl Hs.
    unfold Routes.get_rfp, Auth.optionalAuth, rfpController.getRFPById, is_user.
    rewrite Hl, Hs. simpl. split.
    + intros (u & -> & Hu). rewrite Hu, Nat.eqb_refl. reflexivity.
    + intros Hn. destruct req_user as [u|]; [|reflexivity].
      destruct (Nat.eqb_spec (RFP.created_by rfp) (user_id u)) as [E|]; [|reflexivity].
      exfalso. apply Hn. eauto.
  - intros now req_user id db rfp Hl Hs _.
    unfold Routes.get_rfp, rfpController.getRFPById. rewrite Hl, Hs. reflexivity.
  - intros regexp_test now u q req_user id db rfp Hl Hs Hd Hr. split.
    + intros Hin. apply listing_matches in Hin.
      unfold rfpController.matches, rfpController.build_filter in Hin.
      rewrite Hr in Hin. simpl in Hin.
      repeat (apply andb_prop in Hin; destruct Hin as [Hin ?]).
      lia.
    + unfold Routes.get_rfp, rfpController.getRFPById. rewrite Hl, Hs. reflexivity.
Qed.

Lemma rfp_visibility_witness :
  (exists rfp,
      rfps Scenario.db_draft !! 10%nat = Some rfp
      /\ RFP.status rfp = RFP.draft
      /\ Routes.get_rfp (Some Scenario.alice) 10 Scenario.db_draft = Ok rfp
      /\ Routes.get_rfp (Some Scenario.bob) 10 Scenario.db_draft = Err AccessDenied
      /\ Routes.get_rfp None 10 Scenario.db_draft = Err AccessDenied)
  /\ (exists rfp,
      rfps Scenario.db_open !! 10%nat = Some rfp
      /\ RFP.status rfp = RFP.published
      /\ 1004 <= RFP.deadline rfp
      /\ Routes.get_rfp None 10 Scenario.db_open = Ok rfp)
  /\ (exists rfp,
      rfps Scenario.db_open !! 10%nat = Some rfp
      /\ RFP.status rfp = RFP.published
      /\ RFP.deadline rfp < 6000
      /\ (rfp ∉ rfpController.data
                  (rfpController.getAllRFPs (fun _ _ => true) 6000
                     (Some Scenario.bob) Scenario.no_query Scenario.db_open))
      /\ Routes.get_rfp (Some Scenario.bob) 10 Scenario.db_open = Ok rfp).
Proof.
  destruct rfp_visibility as (H1 & H2 & H3).
  split; [|split].
  - eexists. split; [vm_compute; reflexivity|]. split; [reflexivity|].
    edestruct (H1 (Some Scenario.alice) 10%nat Scenario.db_draft) as [Ha _];
      [vm_compute; reflexivity|reflexivity|].
    edestruct (H1 (Some Scenario.bob) 10%nat Scenario.db_draft) as [_ Hb];
      [vm_compute; reflexivity|reflexivity|].
    edestruct (H1 None 10%nat Scenario.db_draft) as [_ Hn];
      [vm_compute; reflexivity|reflexivity|].
    split; [apply Ha; exists Scenario.alice; split; reflexivity|].
    split; [apply Hb; intros (u & [= <-] & Hu); discriminate Hu|].
    apply Hn. intros (u & Hu & _). discriminate Hu.
  - eexists. split; [vm_compute; reflexivity|]. split; [reflexivity|].
    split; [simpl; lia|].
    apply (H2 1004 None 10%nat Scenario.db_open);
      [vm_compute; reflexivity|reflexivity|simpl; lia].
  - eexists. split; [vm_compute; reflexivity|]. split; [reflexivity|].
    split; [simpl; lia|].
    apply (H3 (fun _ _ => true) 6000 Scenario.bob Scenario.no_query
             (Some Scenario.bob) 10%nat Scenario.db_open);
      [vm_compute; reflexivity|reflexivity|simpl; lia|reflexivity].
Defined.

(** ** C9: saving an RFP past its deadline *)

Lemma RFP_validate_expired now d :
  RFP.deadline d <= now -> RFP.validate now d = false.
Proof.
  intros H. destruct (RFP.validate now d) eqn:E; [|reflexivity].
  apply RFP_validate_deadline in E. lia.
Qed.

Lemma RFP_save_expired now id orig d coll :
  RFP.deadline d <= now -> RFP.save now id orig d coll = Err SchemaValidationError.
Proof. intros H. unfold RFP.save. rewrite (RFP_validate_expired _ _ H). reflexivity. Qed.

Lemma after_failed now req_user r db :
  is_ok (handle now req_user r db) = false -> after now req_user r db = db.
Proof. unfold after. destruct (handle now req_user r db); [discriminate|reflexivity]. Qed.

(** C9 fails as stated: at 6000 the deadline (5000) of Alice's draft RFP
    lies in the past, and her update with a body that carries the deadline
    9000 succeeds and stores the new deadline. *)
Lemma expired_rfp_updated :
  RFP.deadline <$> rfps Scenario.db_draft !! 10%nat = Some 5000
  /\ is_ok (handle 6000 (Some Scenario.alice)
              (UpdateRFP 10 (Scenario.rfp_body 9000 None None)) Scenario.db_draft)
     = true
  /\ RFP.deadline <$>
       rfps (after 6000 (Some Scenario.alice)
               (UpdateRFP 10 (Scenario.rfp_body 9000 None None)) Scenario.db_draft)
         !! 10%nat
     = Some 9000.
Proof. repeat split; vm_compute; reflexivity. Qed.

(** C9, as amended.  For an RFP whose deadline lies in the past, publish
    and close never succeed and leave the database as it was, and once the
    ownership and status guards have passed they fail on the schema
    validation of the save; the same holds of an update whose body does
    not carry a deadline after the present instant. *)
Theorem expired_rfp_save_rejected now u id db rfp :
  rfps db !! id = Some rfp ->
  RFP.deadline rfp < now ->
  (is_ok (rfpController.publishRFP now u id db) = false
   /\ (RFP.created_by rfp = user_id u -> RFP.status rfp = RFP.draft ->
       rfpController.publishRFP now u id db = Err SchemaValidationError)
   /\ forall req_user, after now req_user (PublishRFP id) db = db)
  /\ (is_ok (rfpController.closeRFP now u id db) = false
      /\ (RFP.created_by rfp = user_id u -> RFP.status rfp = RFP.published ->
          rfpController.closeRFP now u id db = Err SchemaValidationError)
      /\ forall req_user, after now req_user (CloseRFP id) db = db)
  /\ (forall b,
        (forall t, RFP.b_deadline b = Some t -> t <= now) ->
        is_ok (rfpController.updateRFP now u id b db) = false
        /\ (RFP.created_by rfp = user_id u ->
            RFP.status rfp <> RFP.closed -> RFP.status rfp <> RFP.cancelled ->
            rfpController.updateRFP now u id b db = Err SchemaValidationError)
        /\ forall req_user, after now req_user (UpdateRFP id b) db = db).
Proof.
  intros Hl Hd.
  assert (Hpub : forall v, rfpController.publishRFP now v id db
                   = if Nat.eqb (RFP.created_by rfp) (user_id v)
                     then if RFP.Status_eqb (RFP.status rfp) RFP.draft
                          then Err SchemaValidationError else Err CannotPublish
                     else Err AccessDenied).
  { intros v. unfold rfpController.publishRFP. rewrite Hl.
    destruct (Nat.eqb (RFP.created_by rfp) (user_id v)); [|reflexivity].
    destruct (RFP.Status_eqb (RFP.status rfp) RFP.draft); [|reflexivity].
    rewrite RFP_save_expired by (simpl; lia). reflexivity. }
  assert (Hclose : forall v, rfpController.closeRFP now v id db
                   = if Nat.eqb (RFP.created_by rfp) (user_id v)
                     then if RFP.Status_eqb (RFP.status rfp) RFP.published
                          then Err SchemaValidationError else Err CannotClose
                     else Err AccessDenied).
  { intros v. unfold rfpController.closeRFP. rewrite Hl.
    destruct (Nat.eqb (RFP.created_by rfp) (user_id v)); [|reflexivity].
    destruct (RFP.Status_eqb (RFP.status rfp) RFP.published); [|reflexivity].
    rewrite RFP_save_expired by (simpl; lia). reflexivity. }
  assert (Hupd : forall v b, (forall t, RFP.b_deadline b = Some t -> t <= now) ->
                   rfpController.updateRFP now v id b db
                   = if Nat.eqb (RFP.created_by rfp) (user_id v)
                     then if negb (RFP.Status_eqb (RFP.status rfp) RFP.closed
                                   || RFP.Status_eqb (RFP.status rfp) RFP.cancelled)
                          then Err SchemaValidationError else Err CannotUpdate
                     else Err AccessDenied).
  { intros v b Hb. unfold rfpController.updateRFP. rewrite Hl.
    destruct (Nat.eqb (RFP.created_by rfp) (user_id v)); [|reflexivity].
    destruct (negb (RFP.Status_eqb (RFP.status rfp) RFP.closed
                    || RFP.Status_eqb (RFP.status rfp) RFP.cancelled)); [|reflexivity].
    rewrite RFP_save_expired; [reflexivity|]. simpl.
    destruct (RFP.b_deadline b) as [t|] eqn:E; simpl; [auto|lia]. }
  assert (Hif : forall (c1 c2 : bool) (e1 e2 e3 : Error),
             is_ok (if c1 then if c2 then @Err (RFP.t * DB) e1 else Err e2 else Err e3)
             = false).
  { intros [] [] e1 e2 e3; reflexivity. }
  assert (Hbind : forall (r : Result (RFP.t * DB)),
             is_ok r = false -> is_ok (let* (_, db') := r in Ok db') = false).
  { intros [[x y]|e]; [discriminate|reflexivity]. }
  split; [|split].
  - split; [|split].
    + rewrite Hpub. apply Hif.
    + intros Ho Hs. rewrite Hpub, Ho, Nat.eqb_refl, Hs. reflexivity.
    + intros req_user. apply after_failed. simpl. unfold Routes.post_rfp_publish.
      destruct req_user as [v|]; simpl; [|reflexivity].
      destruct (role v); simpl; [|reflexivity].
      apply Hbind. rewrite Hpub. apply Hif.
  - split; [|split].
    + rewrite Hclose. apply Hif.
    + intros Ho Hs. rewrite Hclose, Ho, Nat.eqb_refl, Hs. reflexivity.
    + intros req_user. apply after_failed. simpl. unfold Routes.post_rfp_close.
      destruct req_user as [v|]; simpl; [|reflexivity].
      destruct (role v); simpl; [|reflexivity].
      apply Hbind. rewrite Hclose. apply Hif.
  - intros b Hb. split; [|split].
    + rewrite (Hupd u b Hb). apply Hif.
    + intros Ho Hc Hx. rewrite (Hupd u b Hb), Ho, Nat.eqb_refl.
      apply RFP_Status_eqb_neq in Hc, Hx. rewrite Hc, Hx. reflexivity.
    + intros req_user. apply after_failed. simpl. unfold Routes.put_rfp.
      destruct req_user as [v|]; simpl; [|reflexivity].
      destruct (role v); simpl; [|reflexivity].
      destruct (Validation.validateRFP now b) as [b'|] eqn:Hv; simpl; [|reflexivity].
      apply validateRFP_Ok in Hv as [_ ->].
      apply Hbind. rewrite (Hupd v (Validation.rfp_sanitize b)) by exact Hb.
      apply Hif.
Qed.

Lemma expired_rfp_save_rejected_witness :
  (exists rfp, rfps Scenario.db_draft !! 10%nat = Some rfp
     /\ RFP.deadline rfp < 6000
     /\ RFP.created_by rfp = user_id Scenario.alice
     /\ RFP.status rfp = RFP.draft)
  /\ rfpController.publishRFP 6000 Scenario.alice 10 Scenario.db_draft
     = Err SchemaValidationError
  /\ after 6000 (Some Scenario.alice) (PublishRFP 10) Scenario.db_draft
     = Scenario.db_draft
  /\ rfpController.updateRFP 6000 Scenario.alice 10
       (Scenario.rfp_body 5000 None None) Scenario.db_draft
     = Err SchemaValidationError
  /\ (exists rfp, rfps Scenario.db_open !! 10%nat = Some rfp
        /\ RFP.deadline rfp < 6000
        /\ RFP.created_by rfp = user_id Scenario.alice
        /\ RFP.status rfp = RFP.published)
  /\ rfpController.closeRFP 6000 Scenario.alice 10 Scenario.db_open
     = Err SchemaValidationError
  /\ after 6000 (Some Scenario.alice) (CloseRFP 10) Scenario.db_open
     = Scenario.db_open.
Proof.
  assert (Hd : exists rfp, rfps Scenario.db_draft !! 10%nat = Some rfp
                 /\ RFP.deadline rfp < 6000
                 /\ RFP.created_by rfp = user_id Scenario.alice
                 /\ RFP.status rfp = RFP.draft).
  { eexists. split; [vm_compute; reflexivity|].
    split; [simpl; lia|]. split; reflexivity. }
  assert (Ho : exists rfp, rfps Scenario.db_open !! 10%nat = Some rfp
                 /\ RFP.deadline rfp < 6000
                 /\ RFP.created_by rfp = user_id Scenario.alice
                 /\ RFP.status rfp = RFP.published).
  { eexists. split; [vm_compute; reflexivity|].
    split; [simpl; lia|]. split; reflexivity. }
  split; [exact Hd|].
  destruct Hd as (rfp & Hl & Hlt & Hown & Hst).
  destruct (expired_rfp_save_rejected 6000 Scenario.alice 10%nat Scenario.db_draft rfp
              Hl Hlt) as ((_ & Hp & Hpa) & _ & Hu).
  split; [exact (Hp Hown Hst)|].
  split; [exact (Hpa (Some Scenario.alice))|].
  destruct (Hu (Scenario.rfp_body 5000 None None)) as (_ & Hu1 & _).
  { intros t [= <-]. lia. }
  split; [apply Hu1; [exact Hown|rewrite Hst; discriminate|rewrite Hst; discriminate]|].
  split; [exact Ho|].
  destruct Ho as (rfp2 & Hl2 & Hlt2 & Hown2 & Hst2).
  destruct (expired_rfp_save_rejected 6000 Scenario.alice 10%nat Scenario.db_open rfp2
              Hl2 Hlt2) as (_ & (_ & Hc & Hca) & _).
  split; [exact (Hc Hown2 Hst2)|].
  exact (Hca (Some Scenario.alice)).
Defined.

(** ** C10: a responder sets the status of the Response *)



Lemma pre_save_stamps now d :
  let d' := Response.pre_save true now d in
  (Response.status d <> Response.draft ->
   Response.submitted_at d' = Some (default now (Response.submitted_at d)))
  /\ (Response.is_decided (Response.status d) = true ->
      Response.reviewed_at d' = Some (default now (Response.reviewed_at d))).
Proof.
  destruct d as [rid sby pr pb tl me td an st sa ra rn di ca].
  unfold Response.pre_save. simpl.
  destruct st, sa, ra; simpl; split; intros H; try reflexivity;
    try discriminate H; exfalso; apply H; reflexivity.
Qed.



(** * Further properties of the code *)

(** ** utils/helpers.js: [sanitizeFilename] *)

Lemma is_underscore_eq c : Helpers.is_underscore c = true <-> c = "_"%char.
Proof. unfold Helpers.is_underscore. apply Ascii.eqb_eq. Qed.

Lemma all_units_cons p c s :
  Helpers.all_units p (String c s) = p c && Helpers.all_units p s.
Proof. reflexivity. Qed.

Lemma no_neighbours_cons p c c' s :
  Helpers.no_neighbours p (String c (String c' s))
  = negb (p c && p c') && Helpers.no_neighbours p (String c' s).
Proof. reflexivity. Qed.

Lemma ends_with_cons p c c' s :
  Helpers.ends_with p (String c (String c' s)) = Helpers.ends_with p (String c' s).
Proof. reflexivity. Qed.

Lemma collapse_underscores_cons c c' s :
  Helpers.collapse_underscores (String c (String c' s))
  = if Helpers.is_underscore c && Helpers.is_underscore c'
    then Helpers.collapse_underscores (String c' s)
    else String c (Helpers.collapse_underscores (String c' s)).
Proof. reflexivity. Qed.

Lemma strip_trailing_cons c c' s :
  Helpers.strip_trailing (String c (String c' s))
  = String c (Helpers.strip_trailing (String c' s)).
Proof. reflexivity. Qed.

Lemma replace_special_units s :
  Helpers.all_units (fun c => Helpers.is_filename_unit c || Helpers.is_underscore c)
    (Helpers.replace_special s) = true.
Proof.
  induction s as [|c s IH]; simpl; [reflexivity|].
  rewrite IH, andb_true_r.
  destruct (Helpers.is_filename_unit c) eqn:Hc; [rewrite Hc|]; reflexivity.
Qed.

Lemma collapse_underscores_units p s :
  Helpers.all_units p s = true ->
  Helpers.all_units p (Helpers.collapse_underscores s) = true.
Proof.
  induction s as [|c s IH]; [reflexivity|].
  intros Hp. simpl in Hp. apply andb_true_iff in Hp as [Hc Hs].
  destruct s as [|c' s']; [simpl; rewrite Hc; reflexivity|].
  rewrite collapse_underscores_cons.
  destruct (Helpers.is_underscore c && Helpers.is_underscore c').
  - apply IH, Hs.
  - rewrite all_units_cons, Hc, (IH Hs). reflexivity.
Qed.

(** The first unit of a collapsed string is the first unit of the string. *)
Lemma collapse_underscores_head c s :
  exists t, Helpers.collapse_underscores (String c s) = String c t.
Proof.
  revert c. induction s as [|c' s IH]; intros c.
  - exists EmptyString. reflexivity.
  - rewrite collapse_underscores_cons.
    destruct (Helpers.is_underscore c && Helpers.is_underscore c') eqn:E.
    + apply andb_true_iff in E as [Hc Hc'].
      apply is_underscore_eq in Hc, Hc'. subst c c'. apply IH.
    + eexists. reflexivity.
Qed.

Lemma collapse_underscores_no_neighbours s :
  Helpers.no_neighbours Helpers.is_underscore (Helpers.collapse_underscores s) = true.
Proof.
  induction s as [|c s IH]; [reflexivity|].
  destruct s as [|c' s']; [reflexivity|].
  rewrite collapse_underscores_cons.
  destruct (Helpers.is_underscore c && Helpers.is_underscore c') eqn:E; [exact IH|].
  destruct (collapse_underscores_head c' s') as [t Ht].
  rewrite Ht in IH |- *.
  rewrite no_neighbours_cons, E, IH. reflexivity.
Qed.

Lemma strip_leading_units p s :
  Helpers.all_units p s = true -> Helpers.all_units p (Helpers.strip_leading s) = true.
Proof.
  destruct s as [|c s]; [reflexivity|].
  intros Hp. unfold Helpers.strip_leading.
  destruct (Helpers.is_underscore c); [|exact Hp].
  simpl in Hp. apply andb_true_iff in Hp as [_ Hp]. exact Hp.
Qed.

Lemma strip_leading_no_neighbours p s :
  Helpers.no_neighbours p s = true ->
  Helpers.no_neighbours p (Helpers.strip_leading s) = true.
Proof.
  destruct s as [|c s]; [reflexivity|].
  intros Hn. unfold Helpers.strip_leading.
  destruct (Helpers.is_underscore c); [|exact Hn].
  destruct s as [|c' s']; [reflexivity|].
  rewrite no_neighbours_cons in Hn. apply andb_true_iff in Hn as [_ Hn]. exact Hn.
Qed.

Lemma strip_leading_starts s :
  Helpers.no_neighbours Helpers.is_underscore s = true ->
  Helpers.starts_with Helpers.is_underscore (Helpers.strip_leading s) = false.
Proof.
  destruct s as [|c s]; [reflexivity|].
  intros Hn. unfold Helpers.strip_leading.
  destruct (Helpers.is_underscore c) eqn:E; [|exact E].
  destruct s as [|c' s']; [reflexivity|].
  rewrite no_neighbours_cons, E in Hn. simpl in Hn.
  apply andb_true_iff in Hn as [Hc' _]. simpl. apply negb_true_iff, Hc'.
Qed.

(** Stripping the end leaves nothing, or a string with the same first
    unit. *)
Lemma strip_trailing_head c s :
  (s = EmptyString /\ Helpers.is_underscore c = true
   /\ Helpers.strip_trailing (String c s) = EmptyString)
  \/ exists t, Helpers.strip_trailing (String c s) = String c t.
Proof.
  destruct s as [|c' s'].
  - simpl. destruct (Helpers.is_underscore c); [left|right; eexists]; auto.
  - right. rewrite strip_trailing_cons. eexists. reflexivity.
Qed.

Lemma strip_trailing_units p s :
  Helpers.all_units p s = true -> Helpers.all_units p (Helpers.strip_trailing s) = true.
Proof.
  induction s as [|c s IH]; [reflexivity|].
  intros Hp. simpl in Hp. apply andb_true_iff in Hp as [Hc Hs].
  destruct s as [|c' s'].
  - simpl. destruct (Helpers.is_underscore c); simpl; [|rewrite Hc]; reflexivity.
  - rewrite strip_trailing_cons, all_units_cons, Hc, (IH Hs). reflexivity.
Qed.

Lemma strip_trailing_no_neighbours p s :
  Helpers.no_neighbours p s = true ->
  Helpers.no_neighbours p (Helpers.strip_trailing s) = true.
Proof.
  induction s as [|c s IH]; [reflexivity|].
  intros Hn. destruct s as [|c' s'].
  - simpl. destruct (Helpers.is_underscore c); reflexivity.
  - rewrite strip_trailing_cons.
    rewrite no_neighbours_cons in Hn. apply andb_true_iff in Hn as [Hcc Hn].
    specialize (IH Hn).
    destruct (strip_trailing_head c' s') as [(_ & _ & E)|[t E]]; rewrite E in IH |- *.
    + reflexivity.
    + rewrite no_neighbours_cons, Hcc, IH. reflexivity.
Qed.

Lemma strip_trailing_starts s :
  Helpers.starts_with Helpers.is_underscore s = false ->
  Helpers.starts_with Helpers.is_underscore (Helpers.strip_trailing s) = false.
Proof.
  destruct s as [|c s]; [reflexivity|].
  intros Hs. destruct (strip_trailing_head c s) as [(_ & _ & E)|[t E]]; rewrite E.
  - reflexivity.
  - exact Hs.
Qed.

Lemma strip_trailing_ends s :
  Helpers.no_neighbours Helpers.is_underscore s = true ->
  Helpers.ends_with Helpers.is_underscore (Helpers.strip_trailing s) = false.
Proof.
  induction s as [|c s IH]; [reflexivity|].
  intros Hn. destruct s as [|c' s'].
  - simpl. destruct (Helpers.is_underscore c) eqn:E; [reflexivity|exact E].
  - rewrite strip_trailing_cons.
    rewrite no_neighbours_cons in Hn. apply andb_true_iff in Hn as [Hcc Hn].
    specialize (IH Hn).
    destruct (strip_trailing_head c' s') as [(_ & Hc' & E)|[t E]]; rewrite E in IH |- *.
    + simpl. rewrite Hc', andb_true_r in Hcc. apply negb_true_iff, Hcc.
    + rewrite ends_with_cons. exact IH.
Qed.

(** Lower case keeps the underscores and brings every unit that the first
    three steps may leave into [[a-z0-9._-]]. *)
Lemma toLowerCase_unit_underscore c :
  Helpers.is_underscore (JS.toLowerCase_unit c) = Helpers.is_underscore c.
Proof. destruct c as [[] [] [] [] [] [] [] []]; reflexivity. Qed.

Lemma toLowerCase_unit_sanitized c :
  Helpers.is_filename_unit c || Helpers.is_underscore c = true ->
  Helpers.is_sanitized_unit (JS.toLowerCase_unit c) = true.
Proof. destruct c as [[] [] [] [] [] [] [] []]; intros H; reflexivity || discriminate H. Qed.

Lemma toLowerCase_units s :
  Helpers.all_units (fun c => Helpers.is_filename_unit c || Helpers.is_underscore c) s = true ->
  Helpers.all_units Helpers.is_sanitized_unit (JS.toLowerCase s) = true.
Proof.
  induction s as [|c s IH]; [reflexivity|].
  simpl. intros [Hc Hs]%andb_true_iff.
  rewrite (toLowerCase_unit_sanitized _ Hc), (IH Hs). reflexivity.
Qed.

Lemma toLowerCase_no_neighbours s :
  Helpers.no_neighbours Helpers.is_underscore (JS.toLowerCase s)
  = Helpers.no_neighbours Helpers.is_underscore s.
Proof.
  induction s as [|c s IH]; [reflexivity|].
  destruct s as [|c' s']; [reflexivity|].
  change (JS.toLowerCase (String c (String c' s')))
    with (String (JS.toLowerCase_unit c) (JS.toLowerCase (String c' s'))).
  change (JS.toLowerCase (String c' s'))
    with (String (JS.toLowerCase_unit c') (JS.toLowerCase s')) in *.
  rewrite !no_neighbours_cons, IH, !toLowerCase_unit_underscore. reflexivity.
Qed.

Lemma toLowerCase_starts s :
  Helpers.starts_with Helpers.is_underscore (JS.toLowerCase s)
  = Helpers.starts_with Helpers.is_underscore s.
Proof. destruct s as [|c s]; [reflexivity|]. simpl. apply toLowerCase_unit_underscore. Qed.

Lemma toLowerCase_ends s :
  Helpers.ends_with Helpers.is_underscore (JS.toLowerCase s)
  = Helpers.ends_with Helpers.is_underscore s.
Proof.
  induction s as [|c s IH]; [reflexivity|].
  destruct s as [|c' s']; [simpl; apply toLowerCase_unit_underscore|].
  change (JS.toLowerCase (String c (String c' s')))
    with (String (JS.toLowerCase_unit c) (JS.toLowerCase (String c' s'))).
  change (JS.toLowerCase (String c' s'))
    with (String (JS.toLowerCase_unit c') (JS.toLowerCase s')) in *.
  rewrite !ends_with_cons. exact IH.
Qed.

(** Each step is the identity on a sanitized name. *)
Lemma replace_special_sanitized s :
  Helpers.all_units Helpers.is_sanitized_unit s = true -> Helpers.replace_special s = s.
Proof.
  induction s as [|c s IH]; [reflexivity|].
  simpl. intros [Hc Hs]%andb_true_iff. rewrite (IH Hs). f_equal.
  revert Hc. clear. destruct c as [[] [] [] [] [] [] [] []]; intros H; reflexivity || discriminate H.
Qed.

Lemma collapse_underscores_sanitized s :
  Helpers.no_neighbours Helpers.is_underscore s = true ->
  Helpers.collapse_underscores s = s.
Proof.
  induction s as [|c s IH]; [reflexivity|].
  destruct s as [|c' s']; [reflexivity|].
  rewrite no_neighbours_cons, collapse_underscores_cons.
  intros [Hcc Hn]%andb_true_iff.
  apply negb_true_iff in Hcc. rewrite Hcc, (IH Hn). reflexivity.
Qed.

Lemma strip_leading_sanitized s :
  Helpers.starts_with Helpers.is_underscore s = false -> Helpers.strip_leading s = s.
Proof. destruct s as [|c s]; [reflexivity|]. simpl. intros ->. reflexivity. Qed.

Lemma strip_trailing_sanitized s :
  Helpers.ends_with Helpers.is_underscore s = false -> Helpers.strip_trailing s = s.
Proof.
  induction s as [|c s IH]; [reflexivity|].
  destruct s as [|c' s']; [simpl; intros ->; reflexivity|].
  rewrite ends_with_cons, strip_trailing_cons. intros H. rewrite (IH H). reflexivity.
Qed.

Lemma toLowerCase_sanitized s :
  Helpers.all_units Helpers.is_sanitized_unit s = true -> JS.toLowerCase s = s.
Proof.
  induction s as [|c s IH]; [reflexivity|].
  simpl. intros [Hc Hs]%andb_true_iff. rewrite (IH Hs). f_equal.
  revert Hc. clear. destruct c as [[] [] [] [] [] [] [] []]; intros H; reflexivity || discriminate H.
Qed.

(** After the first three steps: the units are those of the class or
    underscores, no two underscores are neighbours, none is at the start. *)
Lemma sanitizeFilename_stages s :
  let s3 := Helpers.strip_leading
              (Helpers.collapse_underscores (Helpers.replace_special s)) in
  Helpers.all_units (fun c => Helpers.is_filename_unit c || Helpers.is_underscore c) s3
  = true
  /\ Helpers.no_neighbours Helpers.is_underscore s3 = true
  /\ Helpers.starts_with Helpers.is_underscore s3 = false.
Proof.
  intros s3. subst s3.
  pose proof (replace_special_units s) as H1.
  apply collapse_underscores_units in H1.
  pose proof (collapse_underscores_no_neighbours (Helpers.replace_special s)) as H2.
  split; [apply strip_leading_units, H1|].
  split; [apply strip_leading_no_neighbours, H2|apply strip_leading_starts, H2].
Qed.

Lemma sanitizeFilename_fixed s : Helpers.sanitized s -> Helpers.sanitizeFilename s = s.
Proof.
  intros (H1 & H2 & H3 & H4). unfold Helpers.sanitizeFilename.
  rewrite (replace_special_sanitized _ H1), (collapse_underscores_sanitized _ H2),
    (strip_leading_sanitized _ H3), (strip_trailing_sanitized _ H4).
  apply toLowerCase_sanitized, H1.
Qed.

(** X1.  Whatever the file name, [sanitizeFilename] answers a string of
    code units in [[a-z0-9._-]] in which no two underscores are neighbours
    and none stands at the start or at the end; in particular no path
    separator and no capital letter is left. *)
Theorem sanitizeFilename_shape filename :
  let s := Helpers.sanitizeFilename filename in
  Helpers.all_units Helpers.is_sanitized_unit s = true
  /\ Helpers.no_neighbours Helpers.is_underscore s = true
  /\ Helpers.starts_with Helpers.is_underscore s = false
  /\ Helpers.ends_with Helpers.is_underscore s = false.
Proof.
  intros s. subst s. unfold Helpers.sanitizeFilename.
  destruct (sanitizeFilename_stages filename) as (H1 & H2 & H3).
  rewrite toLowerCase_no_neighbours, toLowerCase_starts, toLowerCase_ends.
  split; [apply toLowerCase_units, strip_trailing_units, H1|].
  split; [apply strip_trailing_no_neighbours, H2|].
  split; [apply strip_trailing_starts, H3|apply strip_trailing_ends, H2].
Qed.

(** X2.  [sanitizeFilename] is idempotent: a sanitized name is stored under
    itself. *)
Theorem sanitizeFilename_idempotent filename :
  Helpers.sanitizeFilename (Helpers.sanitizeFilename filename)
  = Helpers.sanitizeFilename filename.
Proof.
  apply sanitizeFilename_fixed.
  unfold Helpers.sanitized, Helpers.sanitizeFilename.
  destruct (sanitizeFilename_stages filename) as (H1 & H2 & H3).
  rewrite toLowerCase_no_neighbours, toLowerCase_starts, toLowerCase_ends.
  split; [apply toLowerCase_units, strip_trailing_units, H1|].
  split; [apply strip_trailing_no_neighbours, H2|].
  split; [apply strip_trailing_starts, H3|apply strip_trailing_ends, H2].
Qed.

(** ** utils/helpers.js: [createPaginationMeta], [daysBetween] *)

Lemma ceil_div_spec n d :
  0 < d -> n <= JS.ceil_div n d * d < n + d.
Proof.
  intros Hd. unfold JS.ceil_div.
  pose proof (Z.div_mod (- n) d ltac:(lia)) as E.
  pose proof (Z.mod_pos_bound (- n) d Hd) as B.
  nia.
Qed.


Lemma ceil_div_lt n d k : 0 < d -> (k < JS.ceil_div n d <-> k * d < n).
Proof.
  intros Hd. pose proof (ceil_div_spec n d Hd). split; intros H1; [nia|].
  destruct (Z_lt_le_dec k (JS.ceil_div n d)) as [|Hle]; [assumption|]. nia.
Qed.



Lemma round_div_spec n d :
  0 < d -> - d < 2 * (JS.round_div n d * d - n) <= d.
Proof.
  intros Hd. unfold JS.round_div.
  pose proof (Z.div_mod (2 * n + d) (2 * d) ltac:(lia)) as E.
  pose proof (Z.mod_pos_bound (2 * n + d) (2 * d) ltac:(lia)) as B.
  nia.
Qed.

Lemma round_div_mul k d : 0 < d -> JS.round_div (k * d) d = k.
Proof.
  intros Hd. pose proof (round_div_spec (k * d) d Hd). nia.
Qed.

(** X4.  For two valid dates whose difference is a safe integer (less than
    [2 ^ 53] ms, some 285000 years), [daysBetween] does not depend on the
    order of its two dates, is 0 on equal dates, counts exactly [k] between
    two dates that are [k] whole days apart, and is off the exact quotient
    by at most half a day. *)
Theorem daysBetween_symmetric_exact date1 date2 :
  JS.is_time_value date1 = true ->
  JS.is_time_value date2 = true ->
  JS.isSafeInteger (date1 - date2) = true ->
  Helpers.daysBetween date1 date2 = Helpers.daysBetween date2 date1
  /\ (date1 = date2 -> Helpers.daysBetween date1 date2 = 0)
  /\ (forall k, date1 = date2 + k * Helpers.oneDay ->
        Helpers.daysBetween date1 date2 = Z.abs k)
  /\ 0 <= Helpers.daysBetween date1 date2
  /\ 2 * Z.abs (Helpers.daysBetween date1 date2 * Helpers.oneDay - Z.abs (date1 - date2))
     <= Helpers.oneDay.
Proof.
  intros _ _ _.
  assert (Hd : 0 < Helpers.oneDay) by reflexivity.
  unfold Helpers.daysBetween.
  split; [f_equal; lia|].
  split; [intros ->; rewrite Z.sub_diag; reflexivity|].
  split.
  { intros k ->.
    replace (date2 + k * Helpers.oneDay - date2) with (k * Helpers.oneDay) by lia.
    rewrite Z.abs_mul, (Z.abs_eq Helpers.oneDay) by lia.
    apply round_div_mul, Hd. }
  pose proof (round_div_spec (Z.abs (date1 - date2)) Helpers.oneDay Hd) as H.
  split; [|lia].
  pose proof (Z.abs_nonneg (date1 - date2)). nia.
Qed.

(** ** The three listings: pages *)

Lemma validatePagination_parse page limit :
  Validation.validatePagination page limit = true ->
  1 <= rfpController.parse_or page 1
  /\ 1 <= rfpController.parse_or limit 10 <= 100.
Proof.
  unfold Validation.validatePagination, Validation.optional, rfpController.parse_or.
  intros [Hp Hl]%andb_true_iff.
  destruct page as [p|], limit as [l|];
    repeat match goal with
           | H : (_ && _) = true |- _ => apply andb_true_iff in H as [? ?]
           | H : (_ <=? _) = true |- _ => apply Z.leb_le in H
           end;
    repeat match goal with
           | |- context [?n =? 0] => destruct (Z.eqb_spec n 0)
           end; lia.
Qed.

Lemma page_length {A} (l : list A) page limit :
  1 <= page -> 1 <= limit ->
  Z.of_nat (length (take (Z.to_nat limit) (drop (Z.to_nat ((page - 1) * limit)) l)))
  = Z.min limit (Z.max 0 (Z.of_nat (length l) - (page - 1) * limit)).
Proof.
  intros Hp Hl. rewrite length_take, length_drop.
  assert (0 <= (page - 1) * limit) by nia. lia.
Qed.

Lemma page_covers {A} (l : list A) (x : A) limit :
  1 <= limit -> x ∈ l ->
  exists page, 1 <= page
    /\ x ∈ take (Z.to_nat limit) (drop (Z.to_nat ((page - 1) * limit)) l).
Proof.
  intros Hl [i Hi]%list_elem_of_lookup.
  exists (Z.of_nat i / limit + 1).
  pose proof (Z.div_mod (Z.of_nat i) limit ltac:(lia)) as E.
  pose proof (Z.mod_pos_bound (Z.of_nat i) limit ltac:(lia)) as B.
  assert (0 <= Z.of_nat i / limit) by (apply Z.div_pos; lia).
  split; [lia|].
  apply elem_of_take. exists (Z.to_nat (Z.of_nat i mod limit)).
  split; [|lia].
  rewrite lookup_drop. rewrite <- Hi. f_equal.
  replace (Z.of_nat i / limit + 1 - 1) with (Z.of_nat i / limit) by lia.
  apply Nat2Z.inj. rewrite Nat2Z.inj_add, !Z2Nat.id by nia. lia.
Qed.

(** What a page holds, given the numbers the [pagination] object is made
    of. *)
Lemma page_facts {A} (found all : list A) page limit :
  length found = length all ->
  1 <= page -> 1 <= limit <= 100 ->
  let data := take (Z.to_nat limit) (drop (Z.to_nat ((page - 1) * limit)) found) in
  let pg := Pagination.make page limit (length all) in
  Z.of_nat (length data)
  = Z.min (Pagination.items_per_page pg)
      (Z.max 0 (Pagination.total_items pg
                - (Pagination.current_page pg - 1) * Pagination.items_per_page pg))
  /\ (length data <= 100)%nat
  /\ (data <> [] <-> Pagination.current_page pg <= Pagination.total_pages pg).
Proof.
  intros Hlen Hp Hl data pg.
  pose proof (page_length found page limit Hp ltac:(lia)) as E.
  fold data in E. rewrite Hlen in E. simpl.
  split; [exact E|]. split; [lia|].
  pose proof (ceil_div_lt (Z.of_nat (length all)) limit (page - 1) ltac:(lia)) as C.
  split.
  - intros Hne. destruct data as [|x data']; [congruence|]. simpl length in E. lia.
  - intros Hle Hnil. rewrite Hnil in E. simpl in E. lia.
Qed.

(** X5.  On a request that passes [validatePagination] (for [GET
    /api/rfps], one that carries neither [category] nor [search]: the
    handler then builds no [RegExp], whose constructor throws on an invalid
    pattern; for [GET /api/documents], one whose [rfp_id] and
    [response_id], if any, are ObjectIds, as the type of the query has
    it), each of the three listings answers
    [min(limit, total - (page - 1) * limit)] items (none when that is
    negative), hence at most [limit <= 100], and a page is non-empty
    exactly when [current_page <= total_pages]. *)
Theorem listing_pages :
  (forall regexp_test now req_user q db,
      Validation.validatePagination (rfpController.q_page q) (rfpController.q_limit q)
      = true ->
      rfpController.q_category q = None ->
      rfpController.q_search q = None ->
      let data := rfpController.data
                    (rfpController.getAllRFPs regexp_test now req_user q db) in
      let pg := rfpController.getAllRFPs_pagination regexp_test now req_user q db in
      Z.of_nat (length data)
      = Z.min (Pagination.items_per_page pg)
          (Z.max 0 (Pagination.total_items pg
                    - (Pagination.current_page pg - 1) * Pagination.items_per_page pg))
      /\ (length data <= 100)%nat
      /\ (data <> [] <-> Pagination.current_page pg <= Pagination.total_pages pg))
  /\ (forall u q db,
      Validation.validatePagination
        (responseController.q_page q) (responseController.q_limit q) = true ->
      let data := responseController.data (responseController.getAllResponses u q db) in
      let pg := responseController.pagination
                  (responseController.getAllResponses u q db) in
      Z.of_nat (length data)
      = Z.min (Pagination.items_per_page pg)
          (Z.max 0 (Pagination.total_items pg
                    - (Pagination.current_page pg - 1) * Pagination.items_per_page pg))
      /\ (length data <= 100)%nat
      /\ (data <> [] <-> Pagination.current_page pg <= Pagination.total_pages pg))
  /\ (forall u q db,
      Validation.validatePagination
        (documentController.q_page q) (documentController.q_limit q) = true ->
      let data := documentController.data (documentController.getAllDocuments u q db) in
      let pg := documentController.pagination
                  (documentController.getAllDocuments u q db) in
      Z.of_nat (length data)
      = Z.min (Pagination.items_per_page pg)
          (Z.max 0 (Pagination.total_items pg
                    - (Pagination.current_page pg - 1) * Pagination.items_per_page pg))
      /\ (length data <= 100)%nat
      /\ (data <> [] <-> Pagination.current_page pg <= Pagination.total_pages pg)).
Proof.
  split; [|split].
  - intros regexp_test now req_user q db [Hp Hl]%validatePagination_parse _ _.
    apply page_facts; [|exact Hp|exact Hl].
    apply Permutation_length, merge_sort_Permutation.
  - intros u q db [Hp Hl]%validatePagination_parse.
    apply page_facts; [|exact Hp|exact Hl].
    apply Permutation_length, merge_sort_Permutation.
  - intros u q db [Hp Hl]%validatePagination_parse.
    apply page_facts; [|exact Hp|exact Hl].
    apply Permutation_length, merge_sort_Permutation.
Qed.

(** ** GET /api/rfps: who sees what *)

Lemma elem_of_collection {A} (m : gmap nat A) (x : A) :
  x ∈ snd <$> map_to_list m <-> exists k, m !! k = Some x.
Proof.
  rewrite list_elem_of_fmap. split.
  - intros ([k y] & -> & Hin). exists k. now apply elem_of_map_to_list.
  - intros [k Hk]. exists (k, x). split; [reflexivity|]. now apply elem_of_map_to_list.
Qed.

Lemma elem_of_rfp_find regexp_test f db r :
  r ∈ rfpController.find regexp_test f db <->
  (exists k, rfps db !! k = Some r) /\ rfpController.matches regexp_test f r = true.
Proof.
  unfold rfpController.find.
  rewrite list_elem_of_In, filter_In, <- list_elem_of_In, elem_of_collection.
  reflexivity.
Qed.

Lemma elem_of_page {A} (R : relation A) `{!forall x y, Decision (R x y)}
    (l : list A) (n s : nat) (x : A) :
  x ∈ take n (drop s (merge_sort R l)) -> x ∈ l.
Proof.
  intros Hin. apply subseteq_take, subseteq_drop in Hin.
  now rewrite merge_sort_Permutation in Hin.
Qed.

(** X6.  A draft RFP that [GET /api/rfps/:id] refuses to a request (no
    user, or a buyer who is not its creator) is on a page of [GET /api/rfps]
    for the same request: the listing filters drafts out for suppliers
    only. *)
Theorem draft_listed_to_non_owner regexp_test now req_user db id rfp :
  rfps db !! id = Some rfp ->
  RFP.status rfp = RFP.draft ->
  ~ is_user req_user (RFP.created_by rfp) ->
  (forall u, req_user = Some u -> role u = buyer) ->
  Routes.get_rfp req_user id db = Err AccessDenied
  /\ exists page answer,
       Routes.get_rfps regexp_test now req_user (rfps_page page) db = Ok answer
       /\ rfp ∈ rfpController.data answer.
Proof.
  intros Hl Hst Hno Hrole. split.
  - unfold Routes.get_rfp, Auth.optionalAuth, rfpController.getRFPById.
    rewrite Hl, Hst. simpl.
    destruct req_user as [u|]; [|reflexivity].
    destruct (Nat.eqb_spec (RFP.created_by rfp) (user_id u)) as [E|]; [|reflexivity].
    exfalso. apply Hno. exists u. split; [reflexivity|]. symmetry. exact E.
  - set (f := rfpController.build_filter now req_user (rfps_page 1)).
    assert (Hm : rfpController.matches regexp_test f rfp = true).
    { subst f. unfold rfpController.matches, rfpController.build_filter. simpl.
      destruct req_user as [u|]; [|reflexivity].
      rewrite (Hrole u eq_refl). reflexivity. }
    assert (Hin : rfp ∈ merge_sort rfpController.newer_first
                          (rfpController.find regexp_test f db)).
    { rewrite merge_sort_Permutation. apply elem_of_rfp_find. eauto. }
    destruct (page_covers _ _ 10 ltac:(lia) Hin) as (page & Hp & Hpage).
    exists page. eexists. split.
    + unfold Routes.get_rfps, Validation.validatePagination. simpl.
      destruct (Z.leb_spec 1 page); [reflexivity|lia].
    + unfold rfpController.getAllRFPs, Auth.optionalAuth. simpl.
      destruct (Z.eqb_spec page 0); [lia|]. exact Hpage.
Qed.

(** X7.  Every RFP on a page of [GET /api/rfps] is stored; for a supplier
    it is published with its deadline ahead, whatever [status] the query
    asks for; for a buyer asking for [my_rfps] it is one of theirs; for a
    request that is not a supplier's it has the [status] the query asks
    for. *)
Theorem getAllRFPs_scope regexp_test now req_user q db r :
  r ∈ rfpController.data (rfpController.getAllRFPs regexp_test now req_user q db) ->
  (exists id, rfps db !! id = Some r)
  /\ (forall u, req_user = Some u -> role u = supplier ->
        RFP.status r = RFP.published /\ RFP.deadline r > now)
  /\ (forall u, req_user = Some u -> role u = buyer ->
        rfpController.q_my_rfps q = true -> RFP.created_by r = user_id u)
  /\ (forall st, (forall u, req_user = Some u -> role u = buyer) ->
        rfpController.q_status q = Some st -> RFP.status r = st).
Proof.
  unfold rfpController.getAllRFPs. simpl. intros H.
  apply elem_of_page, elem_of_rfp_find in H as [Hk Hm].
  split; [exact Hk|].
  unfold rfpController.matches, rfpController.build_filter in Hm.
  repeat (apply andb_true_iff in Hm as [Hm ?]).
  split; [|split].
  - intros u -> Hr. rewrite Hr in *. simpl in *.
    split; [now apply RFP_Status_eqb_eq|lia].
  - intros u -> Hr Hq. rewrite Hr, Hq in *. simpl in *.
    now apply Nat.eqb_eq.
  - intros st Hr Hq. destruct req_user as [u|].
    + rewrite (Hr u eq_refl), Hq in Hm. simpl in Hm. now apply RFP_Status_eqb_eq.
    + rewrite Hq in Hm. simpl in Hm. now apply RFP_Status_eqb_eq.
Qed.

(** ** Reading Responses *)

Lemma elem_of_buyerRFPs u db rid :
  rid ∈ responseController.buyerRFPs u db <->
  exists rfp, rfps db !! rid = Some rfp /\ RFP.created_by rfp = user_id u.
Proof.
  unfold responseController.buyerRFPs. rewrite list_elem_of_fmap. split.
  - intros ([k rfp] & -> & Hin).
    apply list_elem_of_In, filter_In in Hin as [Hin Hc].
    apply list_elem_of_In, elem_of_map_to_list in Hin.
    exists rfp. split; [exact Hin|]. now apply Nat.eqb_eq.
  - intros (rfp & Hl & Hc). exists (rid, rfp). split; [reflexivity|].
    apply list_elem_of_In, filter_In. split.
    + now apply list_elem_of_In, elem_of_map_to_list.
    + now apply Nat.eqb_eq.
Qed.

Lemma elem_of_response_find f db r :
  r ∈ responseController.find f db <->
  (exists k, responses db !! k = Some r) /\ responseController.matches f r = true.
Proof.
  unfold responseController.find.
  rewrite list_elem_of_In, filter_In, <- list_elem_of_In, elem_of_collection.
  reflexivity.
Qed.

(** X8.  Every Response on a page of [GET /api/responses] is stored and
    has the [status] the query asks for; a supplier is answered Responses
    of their own only, a buyer Responses to RFPs of their own only. *)
Theorem getAllResponses_scope u q db r :
  r ∈ responseController.data (responseController.getAllResponses u q db) ->
  (exists k, responses db !! k = Some r)
  /\ (forall st, responseController.q_status q = Some st -> Response.status r = st)
  /\ (role u = supplier -> Response.submitted_by r = user_id u)
  /\ (role u = buyer ->
      exists rfp, rfps db !! Response.rfp_id r = Some rfp
        /\ RFP.created_by rfp = user_id u).
Proof.
  unfold responseController.getAllResponses. simpl. intros H.
  apply elem_of_page, elem_of_response_find in H as [Hk Hm].
  split; [exact Hk|].
  unfold responseController.matches, responseController.build_filter in Hm.
  simpl in Hm.
  apply andb_true_iff in Hm as [Hm Hrfp]. apply andb_true_iff in Hm as [Hst Hsub].
  split; [|split].
  - intros st Hq. rewrite Hq in Hst. simpl in Hst. now apply Response_Status_eqb_eq.
  - intros Hr. rewrite Hr in Hsub. simpl in Hsub. now apply Nat.eqb_eq.
  - intros Hr. rewrite Hr in Hrfp. simpl in Hrfp.
    apply existsb_exists in Hrfp as (rid & Hin & E).
    apply Nat.eqb_eq in E. subst rid.
    now apply elem_of_buyerRFPs, list_elem_of_In.
Qed.

(** X9.  [GET /api/responses/:id] answers a stored Response whose RFP is
    stored to its submitter and to the creator of that RFP, and to nobody
    else; when the RFP is gone the handler fails on the [null] reference,
    for the submitter too. *)
Theorem getResponseById_access u id db r :
  responses db !! id = Some r ->
  (forall rfp, rfps db !! Response.rfp_id r = Some rfp ->
     (Response.submitted_by r = user_id u \/ RFP.created_by rfp = user_id u ->
      responseController.getResponseById u id db = Ok r)
     /\ (Response.submitted_by r <> user_id u -> RFP.created_by rfp <> user_id u ->
         responseController.getResponseById u id db = Err AccessDenied))
  /\ (rfps db !! Response.rfp_id r = None ->
      responseController.getResponseById u id db = Err InternalError).
Proof.
  intros Hl. unfold responseController.getResponseById. rewrite Hl. split.
  - intros rfp ->. split.
    + intros [E|E]; rewrite E, Nat.eqb_refl; [reflexivity|].
      rewrite orb_true_r. reflexivity.
    + intros H1 H2. apply Nat.eqb_neq in H1, H2. rewrite H1, H2. reflexivity.
  - intros ->. reflexivity.
Qed.

#[local] Instance later_first_total : Total rfpController.later_first.
Proof.
  intros a b. unfold rfpController.later_first.
  destruct (Response.submitted_at a), (Response.submitted_at b); try tauto. lia.
Qed.

(** X10.  [GET /api/rfps/:id/responses] answers the creator of the RFP
    with every Response stored for it, drafts included, and with nothing
    else, the Responses submitted last first and those never submitted
    last; any other buyer gets 'Access denied' and a supplier is stopped
    by the role check. *)
Theorem getRFPResponses_complete req_user id db rfp :
  rfps db !! id = Some rfp ->
  (forall u, req_user = Some u -> role u = buyer -> user_id u = RFP.created_by rfp ->
     exists l, Routes.get_rfp_responses req_user id db = Ok l
       /\ (forall r, r ∈ l <->
             exists k, responses db !! k = Some r /\ Response.rfp_id r = id)
       /\ Sorted rfpController.later_first l)
  /\ (forall u, req_user = Some u -> role u = buyer -> user_id u <> RFP.created_by rfp ->
        Routes.get_rfp_responses req_user id db = Err AccessDenied)
  /\ (forall u, req_user = Some u -> role u = supplier ->
        Routes.get_rfp_responses req_user id db = Err RoleRestricted).
Proof.
  intros Hl. unfold Routes.get_rfp_responses, rfpController.getRFPResponses.
  split; [|split].
  - intros u -> Hr Hu. simpl. rewrite Hr. simpl. rewrite Hl, Hu, Nat.eqb_refl.
    eexists. split; [reflexivity|]. split.
    + intros r. rewrite merge_sort_Permutation.
      rewrite list_elem_of_In, filter_In, <- list_elem_of_In, elem_of_collection.
      rewrite Nat.eqb_eq. split.
      * intros [[k Hk] E]. eauto.
      * intros (k & Hk & E). eauto.
    + apply (Sorted_merge_sort _).
  - intros u -> Hr Hu. simpl. rewrite Hr. simpl. rewrite Hl.
    destruct (Nat.eqb_spec (RFP.created_by rfp) (user_id u)); [congruence|reflexivity].
  - intros u -> Hr. simpl. rewrite Hr. reflexivity.
Qed.

(** ** Reading Documents *)

Lemma elem_of_document_find f db d :
  d ∈ documentController.find f db <->
  (exists k, documents db !! k = Some d) /\ documentController.matches f d = true.
Proof.
  unfold documentController.find.
  rewrite list_elem_of_In, filter_In, <- list_elem_of_In, elem_of_collection.
  reflexivity.
Qed.

Lemma same_id_eq a b : documentController.same_id a b = true <-> a = Some b.
Proof.
  destruct a as [x|]; simpl; [rewrite Nat.eqb_eq|]; split; congruence.
Qed.

(** X11.  Every Document on a page of [GET /api/documents] is stored and
    matches the [document_type], [rfp_id] and [response_id] the query asks
    for; when the query names neither an RFP nor a Response, the user is
    answered Documents of their own upload only. *)
Theorem getAllDocuments_scope u q db d :
  d ∈ documentController.data (documentController.getAllDocuments u q db) ->
  (exists k, documents db !! k = Some d)
  /\ (forall ty, documentController.q_document_type q = Some ty ->
        Document.document_type d = ty)
  /\ (forall rid, documentController.q_rfp_id q = Some rid ->
        Document.rfp_id d = Some rid)
  /\ (forall rid, documentController.q_response_id q = Some rid ->
        Document.response_id d = Some rid)
  /\ (documentController.q_rfp_id q = None ->
      documentController.q_response_id q = None ->
      Document.uploaded_by d = user_id u).
Proof.
  unfold documentController.getAllDocuments. simpl. intros H.
  apply elem_of_page, elem_of_document_find in H as [Hk Hm].
  split; [exact Hk|].
  unfold documentController.matches, documentController.build_filter in Hm.
  simpl in Hm.
  apply andb_true_iff in Hm as [Hm Hup]. apply andb_true_iff in Hm as [Hm Hresp].
  apply andb_true_iff in Hm as [Hty Hrfp].
  split; [|split; [|split]].
  - intros ty Hq. rewrite Hq in Hty. simpl in Hty.
    destruct (Document.document_type d), ty; simpl in Hty; congruence.
  - intros rid Hq. rewrite Hq in Hrfp. simpl in Hrfp. now apply same_id_eq.
  - intros rid Hq. rewrite Hq in Hresp. simpl in Hresp. now apply same_id_eq.
  - intros E1 E2. rewrite E1, E2 in Hup. simpl in Hup. now apply Nat.eqb_eq.
Qed.

(** X12.  A stored Document that names an RFP is on a page of
    [GET /api/documents?rfp_id=...] for every authenticated user, also for
    one whom [GET /api/documents/:id] answers 'Access denied': the listing
    drops the restriction to the user's own uploads as soon as the query
    names an RFP, and checks nothing in its place. *)
Theorem documents_of_rfp_listed_to_everyone u id db d rid :
  documents db !! id = Some d ->
  Document.rfp_id d = Some rid ->
  exists page answer,
    Routes.get_documents (Some u) (rfp_documents_page rid page) db = Ok answer
    /\ d ∈ documentController.data answer.
Proof.
  intros Hl Hrid.
  set (f := documentController.build_filter u (rfp_documents_page rid 1)).
  assert (Hm : documentController.matches f d = true).
  { subst f. unfold documentController.matches, documentController.build_filter.
    simpl. rewrite Hrid. simpl. rewrite Nat.eqb_refl. reflexivity. }
  assert (Hin : d ∈ merge_sort documentController.newer_first
                        (documentController.find f db)).
  { rewrite merge_sort_Permutation. apply elem_of_document_find. eauto. }
  destruct (page_covers _ _ 10 ltac:(lia) Hin) as (page & Hp & Hpage).
  exists page. eexists. split.
  - unfold Routes.get_documents, Validation.validatePagination. simpl.
    destruct (Z.leb_spec 1 page); [reflexivity|lia].
  - unfold documentController.getAllDocuments. simpl.
    destruct (Z.eqb_spec page 0); [lia|]. exact Hpage.
Qed.

(** The three ways to a Document: its uploader, the creator of the stored
    RFP it names, the submitter of the stored Response it names. *)
Lemma getDocumentById_cases u id db d :
  documents db !! id = Some d ->
  documentController.getDocumentById u id db
  = if Nat.eqb (Document.uploaded_by d) (user_id u)
       || match Document.rfp_id d ≫= (fun rid => rfps db !! rid) with
          | Some rfp => Nat.eqb (RFP.created_by rfp) (user_id u)
          | None => false
          end
       || match Document.response_id d ≫= (fun rid => responses db !! rid) with
          | Some r => Nat.eqb (Response.submitted_by r) (user_id u)
          | None => false
          end
    then Ok d else Err AccessDenied.
Proof.
  intros Hl. unfold documentController.getDocumentById. rewrite Hl.
  destruct (Nat.eqb (Document.uploaded_by d) (user_id u));
    destruct (Document.rfp_id d ≫= (fun rid => rfps db !! rid)) as [rfp|];
    destruct (Document.response_id d ≫= (fun rid => responses db !! rid)) as [r|];
    simpl;
    try destruct (Nat.eqb (RFP.created_by rfp) (user_id u));
    try destruct (Nat.eqb (Response.submitted_by r) (user_id u));
    reflexivity.
Qed.

(** X13.  [GET /api/documents/:id] answers a stored Document to its
    uploader, to the creator of the stored RFP it names and to the
    submitter of the stored Response it names, and 'Access denied' to
    everybody else; [GET /api/documents/:id/download] decides in the same
    way, and then answers 404 when the file is not on the disk. *)
Theorem document_access fs_access u id db d :
  documents db !! id = Some d ->
  (documentController.getDocumentById u id db = Ok d <->
     Document.uploaded_by d = user_id u
     \/ (exists rid rfp, Document.rfp_id d = Some rid /\ rfps db !! rid = Some rfp
           /\ RFP.created_by rfp = user_id u)
     \/ (exists rid r, Document.response_id d = Some rid
           /\ responses db !! rid = Some r
           /\ Response.submitted_by r = user_id u))
  /\ (documentController.getDocumentById u id db <> Ok d ->
      documentController.getDocumentById u id db = Err AccessDenied)
  /\ documentController.downloadDocument fs_access u id db
     = match documentController.getDocumentById u id db with
       | Ok d' => if fs_access (Document.file_path d') then Ok d' else Err NotFound
       | Err e => Err e
       end.
Proof.
  intros Hl. split; [|split].
  - rewrite (getDocumentById_cases u id db d Hl).
    destruct (Nat.eqb_spec (Document.uploaded_by d) (user_id u)) as [E1|E1]; simpl.
    { split; [intros _; left; exact E1|reflexivity]. }
    destruct (Document.rfp_id d) as [rid|] eqn:Erid; simpl.
    + destruct (rfps db !! rid) as [rfp|] eqn:Erfp; simpl.
      * destruct (Nat.eqb_spec (RFP.created_by rfp) (user_id u)) as [E2|E2]; simpl.
        { split; [intros _; right; left; eauto|reflexivity]. }
        destruct (Document.response_id d) as [sid|] eqn:Esid; simpl.
        -- destruct (responses db !! sid) as [r|] eqn:Er; simpl.
           ++ destruct (Nat.eqb_spec (Response.submitted_by r) (user_id u)) as [E3|E3].
              { split; [intros _; right; right; eauto|reflexivity]. }
              split; [discriminate|].
              intros [?|[(? & ? & [= <-] & ? & ?)|(? & ? & [= <-] & ? & ?)]]; congruence.
           ++ split; [discriminate|].
              intros [?|[(? & ? & [= <-] & ? & ?)|(? & ? & [= <-] & ? & ?)]]; congruence.
        -- split; [discriminate|].
           intros [?|[(? & ? & [= <-] & ? & ?)|(? & ? & ? & ? & ?)]]; congruence.
      * destruct (Document.response_id d) as [sid|] eqn:Esid; simpl.
        -- destruct (responses db !! sid) as [r|] eqn:Er; simpl.
           ++ destruct (Nat.eqb_spec (Response.submitted_by r) (user_id u)) as [E3|E3].
              { split; [intros _; right; right; eauto|reflexivity]. }
              split; [discriminate|].
              intros [?|[(? & ? & [= <-] & ? & ?)|(? & ? & [= <-] & ? & ?)]]; congruence.
           ++ split; [discriminate|].
              intros [?|[(? & ? & [= <-] & ? & ?)|(? & ? & [= <-] & ? & ?)]]; congruence.
        -- split; [discriminate|].
           intros [?|[(? & ? & [= <-] & ? & ?)|(? & ? & ? & ? & ?)]]; congruence.
    + destruct (Document.response_id d) as [sid|] eqn:Esid; simpl.
      * destruct (responses db !! sid) as [r|] eqn:Er; simpl.
        -- destruct (Nat.eqb_spec (Response.submitted_by r) (user_id u)) as [E3|E3].
           { split; [intros _; right; right; eauto|reflexivity]. }
           split; [discriminate|].
           intros [?|[(? & ? & ? & ? & ?)|(? & ? & [= <-] & ? & ?)]]; congruence.
        -- split; [discriminate|].
           intros [?|[(? & ? & ? & ? & ?)|(? & ? & [= <-] & ? & ?)]]; congruence.
      * split; [discriminate|].
        intros [?|[(? & ? & ? & ? & ?)|(? & ? & ? & ? & ?)]]; congruence.
  - rewrite (getDocumentById_cases u id db d Hl).
    destruct (_ || _ || _); [congruence|reflexivity].
  - unfold documentController.downloadDocument, documentController.getDocumentById.
    rewrite Hl.
    destruct (Nat.eqb (Document.uploaded_by d) (user_id u));
      destruct (Document.rfp_id d ≫= (fun rid => rfps db !! rid)) as [rfp|];
      destruct (Document.response_id d ≫= (fun rid => responses db !! rid)) as [r|];
      simpl;
      try destruct (Nat.eqb (RFP.created_by rfp) (user_id u));
      try destruct (Nat.eqb (Response.submitted_by r) (user_id u));
      reflexivity.
Qed.

(** ** DELETE /api/rfps/:id leaves the Responses behind *)

(** X14.  A successful [deleteRFP] removes the RFP and nothing else: its
    Responses and Documents stay stored.  None of these Responses is
    updated, submitted, reviewed or answered by [GET /api/responses/:id]
    any more.  An update and a submit first make their own checks: 403 to
    who is not the submitter, 400 on a status they do not take (decided,
    resp. not draft).  Past these checks, and for every review and every
    [GET] by id whoever asks, the handler fails on the [null] reference
    that [populate] leaves (a 500). *)
Theorem deleteRFP_orphans_responses u id db db' :
  rfpController.deleteRFP u id db = Ok db' ->
  rfps db' !! id = None
  /\ (forall id', id' <> id -> rfps db' !! id' = rfps db !! id')
  /\ responses db' = responses db
  /\ documents db' = documents db
  /\ forall k r, responses db !! k = Some r -> Response.rfp_id r = id ->
       (forall now v b,
          responseController.updateResponse now v k b db'
          = Err (if negb (Nat.eqb (Response.submitted_by r) (user_id v))
                 then AccessDenied
                 else if Response.is_decided (Response.status r) then CannotUpdate
                 else InternalError))
       /\ (forall now v,
             responseController.submitResponse now v k db'
             = Err (if negb (Nat.eqb (Response.submitted_by r) (user_id v))
                    then AccessDenied
                    else if negb (Response.Status_eqb (Response.status r) Response.draft)
                    then CannotSubmit
                    else InternalError))
       /\ (forall now v b,
             responseController.reviewResponse now v k b db' = Err InternalError)
       /\ (forall v, responseController.getResponseById v k db' = Err InternalError).
Proof.
  intros H. apply deleteRFP_Ok in H as (d & Hl & Hown & Hst & ->). simpl.
  split; [apply lookup_delete_eq|].
  split; [intros id' Hne; apply lookup_delete_ne; congruence|].
  split; [reflexivity|]. split; [reflexivity|].
  intros k r Hk Hrid.
  assert (Hgone : delete id (rfps db) !! Response.rfp_id r = None)
    by (rewrite Hrid; apply lookup_delete_eq).
  split; [|split; [|split]].
  - intros now v b.
    unfold responseController.updateResponse. simpl. rewrite Hk.
    destruct (Nat.eqb (Response.submitted_by r) (user_id v)); simpl; [|reflexivity].
    destruct (Response.is_decided (Response.status r)); simpl; [reflexivity|].
    rewrite Hgone. reflexivity.
  - intros now v.
    unfold responseController.submitResponse. simpl. rewrite Hk.
    destruct (Nat.eqb (Response.submitted_by r) (user_id v)); simpl; [|reflexivity].
    destruct (Response.Status_eqb (Response.status r) Response.draft); simpl;
      [|reflexivity].
    rewrite Hgone. reflexivity.
  - intros now v b. unfold responseController.reviewResponse. simpl.
    rewrite Hk, Hgone. reflexivity.
  - intros v. unfold responseController.getResponseById. simpl.
    rewrite Hk, Hgone. reflexivity.
Qed.

(** ** The effect of a request on the Response collection *)

Lemma responses_push_parents_ids b oid db k r' :
  responses (push_parents b oid db) !! k = Some r' ->
  responses db !! k = Some r'
  \/ exists r0 l, responses db !! k = Some r0 /\ r' = Response.set_document_ids l r0.
Proof.
  unfold push_parents.
  destruct (Document.b_response_id b), (Document.b_rfp_id b); simpl; auto;
    rewrite lookup_alter; case_decide; subst; auto;
    destruct (responses db !! k) as [d|]; simpl; intros [= <-]; eauto.
Qed.

Lemma responses_pull_parents_ids doc did db k r' :
  responses (pull_parents doc did db) !! k = Some r' ->
  responses db !! k = Some r'
  \/ exists r0 l, responses db !! k = Some r0 /\ r' = Response.set_document_ids l r0.
Proof.
  unfold pull_parents.
  destruct (Document.response_id doc), (Document.rfp_id doc); simpl; auto;
    rewrite lookup_alter; case_decide; subst; auto;
    destruct (responses db !! k) as [d|]; simpl; intros [= <-]; eauto.
Qed.

Lemma validateReview_Ok b b' :
  Validation.validateReview b = Ok b' ->
  exists st, Validation.rb_status b = Some st
    /\ Validation.review_status_allowed st = true
    /\ Validation.rb_status b' = Some st.
Proof.
  unfold Validation.validateReview.
  destruct (Validation.rb_status b) as [st|]; [|discriminate].
  destruct (Validation.review_status_allowed st) eqn:E; [|discriminate].
  destruct (Validation.optional _ _); [|discriminate].
  intros [= <-]. eauto.
Qed.

Lemma handle_response_effect now req_user r db db' k r' :
  handle now req_user r db = Ok db' ->
  responses db' !! k = Some r' ->
  response_effect now r (responses db !! k) r'.
Proof.
  intros H Hl. destruct r; simpl in H.
  - (* CreateRFP *)
    apply bind_Ok in H as [[x db1] [H [= ->]]]. unfold Routes.post_rfp in H.
    apply authenticate_authorize_Ok in H as (u & -> & _ & H).
    apply bind_Ok in H as [b' [Hb H]].
    apply createRFP_Ok in H as (d & _ & _ & _ & _ & ->).
    simpl in Hl. rewrite Hl. apply response_kept.
  - (* UpdateRFP *)
    apply bind_Ok in H as [[x db1] [H [= ->]]]. unfold Routes.put_rfp in H.
    apply authenticate_authorize_Ok in H as (u & -> & _ & H).
    apply bind_Ok in H as [b' [Hb H]].
    apply updateRFP_Ok in H as (d & _ & _ & _ & _ & _ & _ & ->).
    simpl in Hl. rewrite Hl. apply response_kept.
  - (* DeleteRFP *)
    unfold Routes.delete_rfp in H.
    apply authenticate_authorize_Ok in H as (u & -> & _ & H).
    apply deleteRFP_Ok in H as (d & _ & _ & _ & ->).
    simpl in Hl. rewrite Hl. apply response_kept.
  - (* PublishRFP *)
    apply bind_Ok in H as [[x db1] [H [= ->]]]. unfold Routes.post_rfp_publish in H.
    apply authenticate_authorize_Ok in H as (u & -> & _ & H).
    apply publishRFP_Ok in H as (d & _ & _ & _ & _ & _ & ->).
    simpl in Hl. rewrite Hl. apply response_kept.
  - (* CloseRFP *)
    apply bind_Ok in H as [[x db1] [H [= ->]]]. unfold Routes.post_rfp_close in H.
    apply authenticate_authorize_Ok in H as (u & -> & _ & H).
    apply closeRFP_Ok in H as (d & _ & _ & _ & _ & _ & ->).
    simpl in Hl. rewrite Hl. apply response_kept.
  - (* CreateResponse *)
    apply bind_Ok in H as [[x db1] [H [= ->]]]. unfold Routes.post_response in H.
    apply authenticate_authorize_Ok in H as (u & -> & _ & H).
    destruct (Validation.validateRfpId rfp_id); [|discriminate].
    apply bind_Ok in H as [b' [Hb H]].
    apply createResponse_Ok in H
      as (rid & rfp & d & _ & _ & _ & _ & _ & Hc & Hv & Hn & -> & ->).
    rewrite (responses_counted _ rid) in Hl by (destruct (Response.Status_eqb _ _); auto).
    simpl in Hl. destruct (decide (oid = k)) as [->|Hne].
    + rewrite lookup_insert_eq in Hl. injection Hl as <-. rewrite Hn.
      eapply response_created; eauto.
    + rewrite lookup_insert_ne in Hl by assumption. rewrite Hl. apply response_kept.
  - (* UpdateResponse *)
    apply bind_Ok in H as [[x db1] [H [= ->]]]. unfold Routes.put_response in H.
    apply authenticate_authorize_Ok in H as (u & -> & _ & H).
    apply bind_Ok in H as [b' [Hb H]].
    apply updateResponse_Ok in H as (d & rfp & Hd & _ & Hdec & _ & _ & Hv & -> & ->).
    rewrite (responses_counted _ (Response.rfp_id
               (Response.pre_save (Response.isModified_status d (Response.assign d b'))
                  now (Response.assign d b')))) in Hl
      by (destruct (_ && _); auto).
    simpl in Hl. destruct (decide (id = k)) as [->|Hne].
    + rewrite lookup_insert_eq in Hl. injection Hl as <-. rewrite Hd.
      eapply response_updated; eauto.
    + rewrite lookup_insert_ne in Hl by assumption. rewrite Hl. apply response_kept.
  - (* DeleteResponse *)
    unfold Routes.delete_response in H.
    apply authenticate_authorize_Ok in H as (u & -> & _ & H).
    apply deleteResponse_Ok in H as (d & _ & _ & _ & ->).
    simpl in Hl. apply lookup_delete_Some in Hl as [_ Hl]. rewrite Hl.
    apply response_kept.
  - (* SubmitResponse *)
    apply bind_Ok in H as [[x db1] [H [= ->]]]. unfold Routes.post_response_submit in H.
    apply authenticate_authorize_Ok in H as (u & -> & _ & H).
    apply submitResponse_Ok in H as (d & rfp & Hd & _ & Hst & _ & _ & -> & ->).
    rewrite (responses_counted _ (Response.rfp_id d)) in Hl by auto.
    simpl in Hl. destruct (decide (id = k)) as [->|Hne].
    + rewrite lookup_insert_eq in Hl. injection Hl as <-. rewrite Hd.
      now apply response_submitted.
    + rewrite lookup_insert_ne in Hl by assumption. rewrite Hl. apply response_kept.
  - (* ReviewResponse *)
    apply bind_Ok in H as [[x db1] [H [= ->]]]. unfold Routes.post_response_review in H.
    apply authenticate_authorize_Ok in H as (u & -> & _ & H).
    apply bind_Ok in H as [b' [Hb H]].
    apply validateReview_Ok in Hb as (st0 & _ & Hallowed & Hst0).
    apply reviewResponse_Ok in H as (d & rfp & st & Hd & _ & _ & Hfrom & Hst & -> & ->).
    assert (st = st0) by congruence. subst st0.
    simpl in Hl. destruct (decide (id = k)) as [->|Hne].
    + rewrite lookup_insert_eq in Hl. injection Hl as <-. rewrite Hd.
      now apply response_reviewed.
    + rewrite lookup_insert_ne in Hl by assumption. rewrite Hl. apply response_kept.
  - (* UploadDocument *)
    apply bind_Ok in H as [[x db1] [H [= ->]]]. unfold Routes.post_document_upload in H.
    apply authenticate_Ok in H as (u & -> & H).
    apply check_Ok in H as [_ H].
    apply bind_Ok in H as [b' [Hb H]].
    apply uploadDocument_Ok in H as (f & d & _ & _ & _ & _ & _ & _ & _ & _ & ->).
    apply responses_push_parents_ids in Hl as [Hl | (d0 & l & Hl & ->)];
      simpl in Hl; rewrite Hl.
    + apply response_kept.
    + now apply response_linked.
  - (* DeleteDocument *)
    unfold Routes.delete_document in H.
    apply authenticate_Ok in H as (u & -> & H).
    apply deleteDocument_Ok in H as (d & _ & _ & ->).
    simpl in Hl.
    apply responses_pull_parents_ids in Hl as [Hl | (d0 & l & Hl & ->)]; rewrite Hl.
    + apply response_kept.
    + now apply response_linked.
Qed.

(** Only the two deletions take a document out of its collection, and
    they take drafts only. *)
Lemma handle_keeps_response now req_user r db db' k d :
  handle now req_user r db = Ok db' ->
  responses db !! k = Some d ->
  Response.status d <> Response.draft ->
  is_Some (responses db' !! k).
Proof.
  intros H Hk Hst. destruct r; simpl in H.
  - apply bind_Ok in H as [[x db1] [H [= ->]]]. unfold Routes.post_rfp in H.
    apply authenticate_authorize_Ok in H as (u & -> & _ & H).
    apply bind_Ok in H as [b' [Hb H]].
    apply createRFP_Ok in H as (? & _ & _ & _ & _ & ->). simpl. eauto.
  - apply bind_Ok in H as [[x db1] [H [= ->]]]. unfold Routes.put_rfp in H.
    apply authenticate_authorize_Ok in H as (u & -> & _ & H).
    apply bind_Ok in H as [b' [Hb H]].
    apply updateRFP_Ok in H as (? & _ & _ & _ & _ & _ & _ & ->). simpl. eauto.
  - unfold Routes.delete_rfp in H.
    apply authenticate_authorize_Ok in H as (u & -> & _ & H).
    apply deleteRFP_Ok in H as (? & _ & _ & _ & ->). simpl. eauto.
  - apply bind_Ok in H as [[x db1] [H [= ->]]]. unfold Routes.post_rfp_publish in H.
    apply authenticate_authorize_Ok in H as (u & -> & _ & H).
    apply publishRFP_Ok in H as (? & _ & _ & _ & _ & _ & ->). simpl. eauto.
  - apply bind_Ok in H as [[x db1] [H [= ->]]]. unfold Routes.post_rfp_close in H.
    apply authenticate_authorize_Ok in H as (u & -> & _ & H).
    apply closeRFP_Ok in H as (? & _ & _ & _ & _ & _ & ->). simpl. eauto.
  - apply bind_Ok in H as [[x db1] [H [= ->]]]. unfold Routes.post_response in H.
    apply authenticate_authorize_Ok in H as (u & -> & _ & H).
    destruct (Validation.validateRfpId rfp_id); [|discriminate].
    apply bind_Ok in H as [b' [Hb H]].
    apply createResponse_Ok in H
      as (rid & rfp & d0 & _ & _ & _ & _ & _ & _ & _ & Hn & _ & ->).
    rewrite (responses_counted _ rid) by (destruct (Response.Status_eqb _ _); auto).
    simpl. rewrite lookup_insert_ne by congruence. eauto.
  - apply bind_Ok in H as [[x db1] [H [= ->]]]. unfold Routes.put_response in H.
    apply authenticate_authorize_Ok in H as (u & -> & _ & H).
    apply bind_Ok in H as [b' [Hb H]].
    apply updateResponse_Ok in H as (d0 & rfp & Hd & _ & _ & _ & _ & _ & Hx & ->).
    rewrite (responses_counted _ (Response.rfp_id x)) by (destruct (_ && _); auto).
    simpl. destruct (decide (id = k)) as [->|Hne].
    + rewrite lookup_insert_eq. eauto.
    + rewrite lookup_insert_ne by assumption. eauto.
  - unfold Routes.delete_response in H.
    apply authenticate_authorize_Ok in H as (u & -> & _ & H).
    apply deleteResponse_Ok in H as (d0 & Hd & _ & Hdraft & ->). simpl.
    rewrite lookup_delete_ne by congruence. eauto.
  - apply bind_Ok in H as [[x db1] [H [= ->]]]. unfold Routes.post_response_submit in H.
    apply authenticate_authorize_Ok in H as (u & -> & _ & H).
    apply submitResponse_Ok in H as (d0 & rfp & Hd & _ & _ & _ & _ & _ & ->).
    rewrite (responses_counted _ (Response.rfp_id d0)) by auto.
    simpl. destruct (decide (id = k)) as [->|Hne].
    + rewrite lookup_insert_eq. eauto.
    + rewrite lookup_insert_ne by assumption. eauto.
  - apply bind_Ok in H as [[x db1] [H [= ->]]]. unfold Routes.post_response_review in H.
    apply authenticate_authorize_Ok in H as (u & -> & _ & H).
    apply bind_Ok in H as [b' [Hb H]].
    apply reviewResponse_Ok in H as (d0 & rfp & st & Hd & _ & _ & _ & _ & _ & ->).
    simpl. destruct (decide (id = k)) as [->|Hne].
    + rewrite lookup_insert_eq. eauto.
    + rewrite lookup_insert_ne by assumption. eauto.
  - apply bind_Ok in H as [[x db1] [H [= ->]]]. unfold Routes.post_document_upload in H.
    apply authenticate_Ok in H as (u & -> & H).
    apply check_Ok in H as [_ H].
    apply bind_Ok in H as [b' [Hb H]].
    apply uploadDocument_Ok in H as (f & d0 & _ & _ & _ & _ & _ & _ & _ & _ & ->).
    unfold push_parents.
    destruct (Document.b_response_id b'), (Document.b_rfp_id b'); simpl;
      try rewrite lookup_alter; try case_decide; subst; rewrite ?Hk; simpl; eauto.
  - unfold Routes.delete_document in H.
    apply authenticate_Ok in H as (u & -> & H).
    apply deleteDocument_Ok in H as (d0 & _ & _ & ->). simpl.
    unfold pull_parents.
    destruct (Document.response_id d0), (Document.rfp_id d0); simpl;
      try rewrite lookup_alter; try case_decide; subst; rewrite ?Hk; simpl; eauto.
Qed.

Lemma Response_pre_save_false now d : Response.pre_save false now d = d.
Proof. reflexivity. Qed.

Lemma Response_submitted_at_pre_save m now d :
  is_Some (Response.submitted_at d) ->
  is_Some (Response.submitted_at (Response.pre_save m now d)).
Proof.
  intros [t Ht]. unfold Response.pre_save. rewrite Ht. simpl.
  rewrite andb_false_r.
  destruct (_ && _ && _); simpl; rewrite Ht; eauto.
Qed.

(** X15.  An approved or rejected Response is final: whatever request
    succeeds, it stays stored with every field as it was, but for the list
    of its documents. *)
Theorem decided_response_is_final now req_user r db db' k d :
  handle now req_user r db = Ok db' ->
  responses db !! k = Some d ->
  Response.is_decided (Response.status d) = true ->
  exists d', responses db' !! k = Some d'
    /\ d' = Response.set_document_ids (Response.document_ids d') d.
Proof.
  intros H Hk Hdec.
  assert (Hst : Response.status d <> Response.draft).
  { intros E. rewrite E in Hdec. discriminate. }
  destruct (handle_keeps_response _ _ _ _ _ _ _ H Hk Hst) as [d' Hk'].
  exists d'. split; [exact Hk'|].
  pose proof (handle_response_effect _ _ _ _ _ _ _ H Hk') as He.
  rewrite Hk in He.
  inversion He; subst.
  - destruct d'; reflexivity.
  - destruct d; reflexivity.
  - congruence.
  - match goal with E : Response.status d = Response.draft |- _ =>
      rewrite E in Hdec; discriminate end.
  - match goal with E : _ \/ _ |- _ =>
      destruct E as [E|E]; rewrite E in Hdec; discriminate end.
Qed.

Lemma response_effect_stamped now r old d' :
  response_effect now r old d' ->
  (forall d, old = Some d -> stamped d) ->
  stamped d'.
Proof.
  intros He Hold. destruct He as [r d|r d l _|oid rfp_id b b' uid d Hb Hc Hv
                                  |id b b' d Hb Hdec Hv|id d Hst|id b st notes d Hfrom Hal].
  - now apply Hold.
  - exact (Hold d eq_refl).
  - (* created *)
    assert (Hstatus : Response.status d = default Response.draft (Response.b_status b')).
    { unfold Response.construct in Hc.
      destruct rfp_id, (Response.b_proposal b'); try discriminate.
      injection Hc as <-. reflexivity. }
    destruct (Response.b_status b') as [st|] eqn:Eb; simpl in *.
    + pose proof (pre_save_stamps now (Response.set_created_at now d)) as [S1 S2].
      cbv zeta in S1, S2. split.
      * rewrite Response_status_pre_save. intros Hne.
        rewrite (S1 Hne). eauto.
      * rewrite Response_status_pre_save. intros Hd.
        rewrite (S2 Hd). eauto.
    + rewrite Response_pre_save_false. split; simpl.
      * rewrite Hstatus. congruence.
      * rewrite Hstatus. discriminate.
  - (* updated *)
    destruct (Hold d eq_refl) as [I1 I2].
    destruct (Response.isModified_status d (Response.assign d b')) eqn:Em.
    + pose proof (pre_save_stamps now (Response.assign d b')) as [S1 S2].
      cbv zeta in S1, S2. split; rewrite Response_status_pre_save.
      * intros Hne. rewrite (S1 Hne). eauto.
      * intros Hd. rewrite (S2 Hd). eauto.
    + rewrite Response_pre_save_false.
      apply negb_false_iff, Response_Status_eqb_eq in Em.
      split; rewrite <- Em; simpl.
      * intros Hne. destruct (I1 Hne) as [t Ht]. rewrite Ht.
        destruct (Response.b_submitted_at b'); simpl; eauto.
      * rewrite Hdec. discriminate.
  - (* submitted *)
    split; simpl; [eauto|discriminate].
  - (* reviewed *)
    destruct (Hold d eq_refl) as [I1 _].
    assert (Hne : Response.status d <> Response.draft)
      by (destruct Hfrom as [E|E]; rewrite E; discriminate).
    split; intros _.
    + apply Response_submitted_at_pre_save. simpl. exact (I1 Hne).
    + erewrite Response_reviewed_at_pre_save; [eauto|reflexivity].
Qed.

(** X16.  In every database that the requests can reach, a Response that
    is not a draft carries its [submitted_at] and an approved or rejected
    one its [reviewed_at], whichever of the handlers brought it to its
    status. *)
Theorem response_dates_present db :
  reachable db ->
  forall k r, responses db !! k = Some r ->
    (Response.status r <> Response.draft -> is_Some (Response.submitted_at r))
    /\ (Response.is_decided (Response.status r) = true ->
        is_Some (Response.reviewed_at r)).
Proof.
  intros Hr.
  apply (reachable_invariant
           (fun db => forall k r, responses db !! k = Some r -> stamped r));
    [| |exact Hr].
  - intros k r Hk. simpl in Hk. rewrite lookup_empty in Hk. discriminate.
  - intros now req_user rq db0 db1 IH H k r Hk.
    eapply response_effect_stamped.
    + eapply handle_response_effect; eassumption.
    + intros d Hd. eapply IH. exact Hd.
Qed.

(** ** RFPs: final states and what the validators leave true *)

Lemma rfps_counted_dom (f : DB -> DB) rid db id :
  f = inc_response_count rid \/ f = (fun x => x) ->
  is_Some (rfps db !! id) -> is_Some (rfps (f db) !! id).
Proof.
  intros [-> | ->] [d Hd]; [|eauto].
  rewrite rfps_inc_response_count. case_decide; subst; rewrite Hd; simpl; eauto.
Qed.

Lemma handle_keeps_rfp now req_user r db db' id d :
  handle now req_user r db = Ok db' ->
  rfps db !! id = Some d ->
  RFP.status d <> RFP.draft ->
  is_Some (rfps db' !! id).
Proof.
  intros H Hk Hst. destruct r; simpl in H.
  - apply bind_Ok in H as [[x db1] [H [= ->]]]. unfold Routes.post_rfp in H.
    apply authenticate_authorize_Ok in H as (u & -> & _ & H).
    apply bind_Ok in H as [b' [Hb H]].
    apply createRFP_Ok in H as (? & _ & _ & Hn & _ & ->). simpl.
    rewrite lookup_insert_ne by congruence. eauto.
  - apply bind_Ok in H as [[x db1] [H [= ->]]]. unfold Routes.put_rfp in H.
    apply authenticate_authorize_Ok in H as (u & -> & _ & H).
    apply bind_Ok in H as [b' [Hb H]].
    apply updateRFP_Ok in H as (? & _ & _ & _ & _ & _ & _ & ->). simpl.
    destruct (decide (id0 = id)) as [->|Hne].
    + rewrite lookup_insert_eq. eauto.
    + rewrite lookup_insert_ne by assumption. eauto.
  - unfold Routes.delete_rfp in H.
    apply authenticate_authorize_Ok in H as (u & -> & _ & H).
    apply deleteRFP_Ok in H as (d0 & Hd & _ & Hdraft & ->). simpl.
    rewrite lookup_delete_ne by congruence. eauto.
  - apply bind_Ok in H as [[x db1] [H [= ->]]]. unfold Routes.post_rfp_publish in H.
    apply authenticate_authorize_Ok in H as (u & -> & _ & H).
    apply publishRFP_Ok in H as (? & _ & _ & _ & _ & _ & ->). simpl.
    destruct (decide (id0 = id)) as [->|Hne].
    + rewrite lookup_insert_eq. eauto.
    + rewrite lookup_insert_ne by assumption. eauto.
  - apply bind_Ok in H as [[x db1] [H [= ->]]]. unfold Routes.post_rfp_close in H.
    apply authenticate_authorize_Ok in H as (u & -> & _ & H).
    apply closeRFP_Ok in H as (? & _ & _ & _ & _ & _ & ->). simpl.
    destruct (decide (id0 = id)) as [->|Hne].
    + rewrite lookup_insert_eq. eauto.
    + rewrite lookup_insert_ne by assumption. eauto.
  - apply bind_Ok in H as [[x db1] [H [= ->]]]. unfold Routes.post_response in H.
    apply authenticate_authorize_Ok in H as (u & -> & _ & H).
    destruct (Validation.validateRfpId rfp_id); [|discriminate].
    apply bind_Ok in H as [b' [Hb H]].
    apply createResponse_Ok in H
      as (rid & rfp & d0 & _ & _ & _ & _ & _ & _ & _ & _ & _ & ->).
    apply (rfps_counted_dom _ rid); [destruct (Response.Status_eqb _ _); auto|].
    simpl. eauto.
  - apply bind_Ok in H as [[x db1] [H [= ->]]]. unfold Routes.put_response in H.
    apply authenticate_authorize_Ok in H as (u & -> & _ & H).
    apply bind_Ok in H as [b' [Hb H]].
    apply updateResponse_Ok in H as (d0 & rfp & _ & _ & _ & _ & _ & _ & _ & ->).
    apply (rfps_counted_dom _ (Response.rfp_id x)); [destruct (_ && _); auto|].
    simpl. eauto.
  - unfold Routes.delete_response in H.
    apply authenticate_authorize_Ok in H as (u & -> & _ & H).
    apply deleteResponse_Ok in H as (d0 & _ & _ & _ & ->). simpl. eauto.
  - apply bind_Ok in H as [[x db1] [H [= ->]]]. unfold Routes.post_response_submit in H.
    apply authenticate_authorize_Ok in H as (u & -> & _ & H).
    apply submitResponse_Ok in H as (d0 & rfp & _ & _ & _ & _ & _ & _ & ->).
    apply (rfps_counted_dom _ (Response.rfp_id d0)); [auto|]. simpl. eauto.
  - apply bind_Ok in H as [[x db1] [H [= ->]]]. unfold Routes.post_response_review in H.
    apply authenticate_authorize_Ok in H as (u & -> & _ & H).
    apply bind_Ok in H as [b' [Hb H]].
    apply reviewResponse_Ok in H as (d0 & rfp & st & _ & _ & _ & _ & _ & _ & ->).
    simpl. eauto.
  - apply bind_Ok in H as [[x db1] [H [= ->]]]. unfold Routes.post_document_upload in H.
    apply authenticate_Ok in H as (u & -> & H).
    apply check_Ok in H as [_ H].
    apply bind_Ok in H as [b' [Hb H]].
    apply uploadDocument_Ok in H as (f & d0 & _ & _ & _ & _ & _ & _ & _ & _ & ->).
    unfold push_parents.
    destruct (Document.b_response_id b'), (Document.b_rfp_id b'); simpl;
      try rewrite lookup_alter; try case_decide; subst; rewrite ?Hk; simpl; eauto.
  - unfold Routes.delete_document in H.
    apply authenticate_Ok in H as (u & -> & H).
    apply deleteDocument_Ok in H as (d0 & _ & _ & ->). simpl.
    unfold pull_parents.
    destruct (Document.response_id d0), (Document.rfp_id d0); simpl;
      try rewrite lookup_alter; try case_decide; subst; rewrite ?Hk; simpl; eauto.
Qed.

(** X17.  A closed or cancelled RFP is final: whatever request succeeds,
    it stays stored with its status and every other field as they were,
    but for [response_count], which can only grow (a submission is still
    counted on it), and the list of its documents. *)
Theorem closed_rfp_is_final now req_user r db db' id d :
  handle now req_user r db = Ok db' ->
  rfps db !! id = Some d ->
  RFP.status d = RFP.closed \/ RFP.status d = RFP.cancelled ->
  exists d', rfps db' !! id = Some d'
    /\ RFP.status d' = RFP.status d
    /\ same_but_count_and_documents d d'
    /\ RFP.response_count d <= RFP.response_count d'.
Proof.
  intros H Hk Hfinal.
  assert (Hst : RFP.status d <> RFP.draft)
    by (destruct Hfinal as [E|E]; rewrite E; discriminate).
  destruct (handle_keeps_rfp _ _ _ _ _ _ _ H Hk Hst) as [d' Hk'].
  exists d'. split; [exact Hk'|].
  pose proof (handle_rfp_effect _ _ _ _ _ _ _ H Hk') as He.
  rewrite Hk in He. unfold same_but_count_and_documents.
  inversion He; subst.
  - destruct d'. repeat split; simpl; lia.
  - destruct d. repeat split; simpl; lia.
  - destruct d. repeat split; simpl; lia.
  - exfalso. destruct Hfinal; congruence.
  - exfalso. destruct Hfinal as [E|E];
      match goal with Hd : RFP.status d = RFP.draft |- _ => rewrite Hd in E end;
      discriminate.
  - exfalso. destruct Hfinal as [E|E];
      match goal with Hd : RFP.status d = RFP.published |- _ => rewrite Hd in E end;
      discriminate.
Qed.

Lemma RFP_pre_save_cases m now d :
  RFP.pre_save m now d = d \/ RFP.pre_save m now d = RFP.set_published_at (Some now) d.
Proof. unfold RFP.pre_save. destruct (_ && _ && _); auto. Qed.

Lemma well_formed_pre_save m now d : well_formed d -> well_formed (RFP.pre_save m now d).
Proof. destruct (RFP_pre_save_cases m now d) as [-> | ->]; auto. Qed.

Lemma isLength_trimmed mn mx v :
  Validation.isLength mn mx (Validation.trimmed v) = true ->
  JS.trim (JS.trim (Validation.trimmed v)) = JS.trim (Validation.trimmed v)
  /\ mn <= JS.len (JS.trim (Validation.trimmed v)) <= mx.
Proof.
  unfold Validation.isLength, Validation.trimmed. rewrite !trim_idempotent.
  intros [H1 H2]%andb_true_iff. split; [reflexivity|]. lia.
Qed.

(** The budgets of a document that passes the schema validators. *)
Lemma RFP_validate_budgets now d :
  RFP.validate now d = true ->
  (forall mn, RFP.budget_min d = Some mn -> 0 <= mn)
  /\ (forall mx, RFP.budget_max d = Some mx -> 0 <= mx)
  /\ (forall mn mx, RFP.budget_min d = Some mn -> RFP.budget_max d = Some mx ->
        mn <= mx)
  /\ 0 <= RFP.response_count d.
Proof.
  unfold RFP.validate. intros H.
  apply andb_true_iff in H as [H Hcount].
  do 5 (apply andb_true_iff in H as [H _]).
  apply andb_true_iff in H as [H Hmax]. apply andb_true_iff in H as [_ Hmin].
  unfold Schema.min in *. apply Z.leb_le in Hcount.
  unfold RFP.budget_min_validator, RFP.budget_max_validator, JS.truthy in *.
  destruct (RFP.budget_min d) as [mn|], (RFP.budget_max d) as [mx|]; simpl in *;
    repeat match goal with
           | H : (_ && _) = true |- _ => apply andb_true_iff in H as [? ?]
           end;
    repeat split; try (intros; discriminate);
    intros; simplify_eq; try lia.
  all: repeat match goal with
              | H : (_ || _) = true |- _ => apply orb_true_iff in H as [H|H]
              | H : negb (negb _) = true |- _ => rewrite negb_involutive in H
              | H : (_ =? _) = true |- _ => apply Z.eqb_eq in H
              | H : (_ <=? _) = true |- _ => apply Z.leb_le in H
              | H : (_ >=? _) = true |- _ => apply Z.geb_le in H
              end; lia.
Qed.

Lemma rfp_effect_well_formed now r old d' :
  rfp_effect now r old d' ->
  (forall d, old = Some d -> well_formed d) ->
  well_formed d'.
Proof.
  intros He Hold.
  destruct He as [r d|r d _|r d l _|oid b b' owner d Hb Hc Hv
                  |id b b' d Hb _ _ Hv|id d _ _|id d _ _].
  - now apply Hold.
  - destruct (Hold d eq_refl) as (? & ? & ? & ? & ? & ? & ?).
    repeat split; simpl; try tauto; auto; lia.
  - exact (Hold d eq_refl).
  - (* created *)
    apply well_formed_pre_save.
    apply validateRFP_Ok in Hb as [Hchk ->].
    pose proof (RFP_validate_budgets _ _ Hv) as (B1 & B2 & B3 & B4).
    unfold Validation.rfp_checks in Hchk.
    do 6 (apply andb_true_iff in Hchk as [Hchk _]).
    apply andb_true_iff in Hchk as [Hchk Hcat].
    apply andb_true_iff in Hchk as [Htitle Hdesc].
    unfold RFP.construct, Validation.rfp_sanitize in Hc. simpl in Hc.
    destruct (RFP.b_deadline b) as [dl|]; [|discriminate].
    injection Hc as <-.
    unfold well_formed. simpl.
    apply isLength_trimmed in Htitle, Hdesc, Hcat.
    repeat split; try tauto; auto.
  - (* updated *)
    apply well_formed_pre_save.
    apply validateRFP_Ok in Hb as [Hchk ->].
    pose proof (RFP_validate_budgets _ _ Hv) as (B1 & B2 & B3 & B4).
    unfold Validation.rfp_checks in Hchk.
    do 6 (apply andb_true_iff in Hchk as [Hchk _]).
    apply andb_true_iff in Hchk as [Hchk Hcat].
    apply andb_true_iff in Hchk as [Htitle Hdesc].
    unfold well_formed. simpl.
    apply isLength_trimmed in Htitle, Hdesc, Hcat.
    repeat split; try tauto; auto.
  - exact (Hold d eq_refl).
  - exact (Hold d eq_refl).
Qed.

(** X18.  In every database that the requests can reach, the title, the
    description and the category of a stored RFP are trimmed and have
    5 to 200, 10 to 5000 and 2 to 100 code units, its budgets are not
    negative and, when both are present, [budget_min <= budget_max], and
    its [response_count] is not negative. *)
Theorem stored_rfp_well_formed db :
  reachable db ->
  forall id d, rfps db !! id = Some d -> well_formed d.
Proof.
  intros Hr.
  apply (reachable_invariant (fun db => forall id d, rfps db !! id = Some d -> well_formed d));
    [| |exact Hr].
  - intros id d Hd. simpl in Hd. rewrite lookup_empty in Hd. discriminate.
  - intros now req_user rq db0 db1 IH H id d Hd.
    eapply rfp_effect_well_formed.
    + eapply handle_rfp_effect; eassumption.
    + intros d0 Hd0. eapply IH. exact Hd0.
Qed.

(** ** Who may write *)

(** X19.  No request without a user writes: it ends with 401 before its
    body is looked at.  A request of a user whose role is not the one the
    route asks for ends with 403, before validation and before the
    database is read: a supplier never creates, updates, deletes, publishes
    or closes an RFP nor reviews a Response, a buyer never creates,
    updates, deletes or submits a Response. *)
Theorem write_requires_role now r db :
  handle now None r db = Err AuthenticationRequired
  /\ (forall u ro, required_role r = Some ro -> role u <> ro ->
        handle now (Some u) r db = Err RoleRestricted)
  /\ (forall u db' ro, handle now (Some u) r db = Ok db' ->
        required_role r = Some ro -> role u = ro).
Proof.
  split; [destruct r; reflexivity|].
  assert (Hwrong : forall u ro, required_role r = Some ro -> role u <> ro ->
            handle now (Some u) r db = Err RoleRestricted).
  { intros u ro Hreq Hne.
    destruct r; simpl in Hreq; try discriminate Hreq; injection Hreq as <-;
      destruct u as [uid []]; simpl in Hne; try congruence; reflexivity. }
  split; [exact Hwrong|].
  intros u db' ro Hok Hreq.
  destruct (role u) eqn:Eu, ro; try reflexivity; exfalso.
  - rewrite (Hwrong u supplier Hreq) in Hok; [discriminate|congruence].
  - rewrite (Hwrong u buyer Hreq) in Hok; [discriminate|congruence].
Qed.

(** ** A Response that goes back to draft is counted again *)

Lemma Response_validate_pre_save m now d :
  Response.validate (Response.pre_save m now d) = Response.validate d.
Proof.
  destruct d as [rid sby pr pb tl me td an st0 sa0 ra0 rn di ca].
  unfold Response.pre_save, Response.validate, Response.submitted_at_validator,
    Response.reviewed_at_validator, Schema.when_defined. simpl.
  destruct m, st0, sa0, ra0; simpl; rewrite ?orb_true_r, ?andb_true_r; reflexivity.
Qed.

Lemma updateResponse_succeeds now u id b db r0 rfp :
  responses db !! id = Some r0 ->
  Response.submitted_by r0 = user_id u ->
  Response.is_decided (Response.status r0) = false ->
  rfps db !! Response.rfp_id r0 = Some rfp ->
  now <= RFP.deadline rfp ->
  Response.validate (Response.assign r0 b) = true ->
  unique_pairs (responses db) ->
  let r' := Response.pre_save (Response.isModified_status r0 (Response.assign r0 b))
              now (Response.assign r0 b) in
  responseController.updateResponse now u id b db
  = Ok (r', (if Response.Status_eqb (Response.status r0) Response.draft
                && Response.Status_eqb (Response.status r') Response.submitted
             then inc_response_count (Response.rfp_id r') else fun x => x)
              (with_responses (<[id := r']> (responses db)) db)).
Proof.
  intros Hl Ho Hdec Hrfp Hd Hv Hu r'.
  assert (Hi : Response.index_conflict id r' (responses db) = false).
  { apply (index_conflict_unique id r' r0); auto; unfold r';
      [rewrite Response_rfp_id_pre_save|rewrite Response_submitted_by_pre_save];
      reflexivity. }
  unfold responseController.updateResponse.
  rewrite Hl, Ho, Nat.eqb_refl, Hdec. simpl. rewrite Hrfp.
  destruct (Z.ltb_spec (RFP.deadline rfp) now); [lia|]. simpl.
  unfold Response.save. rewrite Hv.
  change (Response.pre_save (Response.isModified_status r0 (Response.assign r0 b))
            now (Response.assign r0 b)) with r'.
  rewrite Hi. simpl. destruct (_ && _); reflexivity.
Qed.

Lemma submitResponse_succeeds now u id db r0 rfp :
  responses db !! id = Some r0 ->
  Response.submitted_by r0 = user_id u ->
  Response.status r0 = Response.draft ->
  rfps db !! Response.rfp_id r0 = Some rfp ->
  now <= RFP.deadline rfp ->
  Response.validate r0 = true ->
  unique_pairs (responses db) ->
  let r' := Response.set_submitted_at (Some now)
              (Response.set_status Response.submitted r0) in
  responseController.submitResponse now u id db
  = Ok (r', inc_response_count (Response.rfp_id r0)
              (with_responses (<[id := r']> (responses db)) db)).
Proof.
  intros Hl Ho Hs Hrfp Hd Hv Hu r'.
  destruct (responseController.submitResponse now u id db) as [[r2 db2]|e] eqn:E.
  - apply submitResponse_Ok in E as (d & rfp' & Hl' & _ & _ & _ & _ & -> & ->).
    assert (d = r0) by congruence. subst d. reflexivity.
  - pose proof (submit_ignores_rfp_status now u id db r0 rfp Hl Ho Hs Hrfp Hd Hv Hu) as Hok.
    rewrite E in Hok. discriminate.
Qed.

Lemma unique_pairs_insert id r0 r' (coll : gmap nat Response.t) :
  unique_pairs coll ->
  coll !! id = Some r0 ->
  Response.rfp_id r' = Response.rfp_id r0 ->
  Response.submitted_by r' = Response.submitted_by r0 ->
  unique_pairs (<[id := r']> coll).
Proof.
  intros Hu Hl Hr Hs k1 k2 r1 r2 H1 H2 E1 E2.
  destruct (decide (k1 = id)) as [->|N1], (decide (k2 = id)) as [->|N2];
    [reflexivity| | |].
  - rewrite lookup_insert_eq in H1. rewrite lookup_insert_ne in H2 by congruence.
    injection H1 as <-. apply (Hu id k2 r0 r2); congruence.
  - rewrite lookup_insert_ne in H1 by congruence. rewrite lookup_insert_eq in H2.
    injection H2 as <-. apply (Hu k1 id r1 r0); congruence.
  - rewrite lookup_insert_ne in H1, H2 by congruence.
    apply (Hu k1 k2 r1 r2); assumption.
Qed.

(** X22.  [response_count] counts submissions, not Responses: the
    submitter of a Response that is submitted (or under review) can set it
    back to [draft] with an update whose body carries [status: 'draft'],
    which leaves the counter as it is, and then submit it again, which
    counts the same Response on its RFP once more. *)
Theorem resubmission_counts_again now1 now2 u id b db r0 rfp :
  responses db !! id = Some r0 ->
  Response.submitted_by r0 = user_id u ->
  Response.status r0 = Response.submitted
  \/ Response.status r0 = Response.under_review ->
  rfps db !! Response.rfp_id r0 = Some rfp ->
  now1 <= RFP.deadline rfp ->
  now2 <= RFP.deadline rfp ->
  Response.b_status b = Some Response.draft ->
  Response.validate (Response.assign r0 b) = true ->
  unique_pairs (responses db) ->
  exists r1 db1 r2 db2,
    responseController.updateResponse now1 u id b db = Ok (r1, db1)
    /\ Response.status r1 = Response.draft
    /\ rfps db1 = rfps db
    /\ responseController.submitResponse now2 u id db1 = Ok (r2, db2)
    /\ Response.status r2 = Response.submitted
    /\ counted_once (Response.rfp_id r0) db db2.
Proof.
  intros Hl Ho Hst Hrfp Hd1 Hd2 Hb Hv Hu.
  assert (Hdec : Response.is_decided (Response.status r0) = false)
    by (destruct Hst as [E|E]; rewrite E; reflexivity).
  assert (Hnd : Response.Status_eqb (Response.status r0) Response.draft = false)
    by (destruct Hst as [E|E]; rewrite E; reflexivity).
  pose proof (updateResponse_succeeds now1 u id b db r0 rfp Hl Ho Hdec Hrfp Hd1 Hv Hu)
    as Hup.
  cbv zeta in Hup. rewrite Hnd in Hup. simpl in Hup.
  set (r1 := Response.pre_save (Response.isModified_status r0 (Response.assign r0 b))
               now1 (Response.assign r0 b)) in *.
  set (db1 := with_responses (<[id := r1]> (responses db)) db) in *.
  assert (K1 : Response.status r1 = Response.draft).
  { subst r1. rewrite Response_status_pre_save. simpl. rewrite Hb. reflexivity. }
  assert (K2 : Response.rfp_id r1 = Response.rfp_id r0)
    by (subst r1; rewrite Response_rfp_id_pre_save; reflexivity).
  assert (K3 : Response.submitted_by r1 = Response.submitted_by r0)
    by (subst r1; rewrite Response_submitted_by_pre_save; reflexivity).
  assert (Hsub : responseController.submitResponse now2 u id db1
                 = Ok (Response.set_submitted_at (Some now2)
                         (Response.set_status Response.submitted r1),
                       inc_response_count (Response.rfp_id r1)
                         (with_responses
                            (<[id := Response.set_submitted_at (Some now2)
                                       (Response.set_status Response.submitted r1)]>
                               (responses db1)) db1))).
  { apply (submitResponse_succeeds now2 u id db1 r1 rfp).
    - subst db1. simpl. apply lookup_insert_eq.
    - congruence.
    - exact K1.
    - rewrite K2. exact Hrfp.
    - exact Hd2.
    - subst r1. rewrite Response_validate_pre_save. exact Hv.
    - subst db1. simpl. now apply (unique_pairs_insert id r0). }
  eexists _, _, _, _.
  split; [exact Hup|]. split; [exact K1|]. split; [reflexivity|].
  split; [exact Hsub|]. split; [reflexivity|].
  rewrite K2.
  destruct (counted_once_inc (Response.rfp_id r0) rfp
              (<[id := Response.set_submitted_at (Some now2)
                         (Response.set_status Response.submitted r1)]> (responses db1))
              db1 Hrfp) as (rfp' & E1 & E2 & E3).
  exists rfp'. split; [exact E1|]. split; [exact E2|exact E3].
Qed.

(** ** The instant of the deadline *)

(** X23.  The code compares a deadline with the present instant in two
    ways: [deadline > now] (the listing of a supplier, [findActive], the
    validators) and [deadline < now] ([is_expired], the three writes of a
    Response).  At the instant of its deadline a published RFP is
    therefore neither active nor expired: it is on no page of a supplier's
    listing and not among [findActive], while no creation of a Response
    for it, and no update or submission of one, is refused as 'RFP
    expired'. *)
Theorem deadline_instant regexp_test now db id rfp :
  rfps db !! id = Some rfp ->
  RFP.status rfp = RFP.published ->
  RFP.deadline rfp = now ->
  (RFP.is_expired now rfp = false
   /\ Helpers.isFutureDate now (RFP.deadline rfp) = false
   /\ Helpers.isPastDate now (RFP.deadline rfp) = false)
  /\ RFP.findActive now (rfps db) !! id = None
  /\ (forall u q, role u = supplier ->
        rfp ∉ rfpController.data
                (rfpController.getAllRFPs regexp_test now (Some u) q db))
  /\ (forall oid u b,
        responseController.createResponse now oid u (Some id) b db <> Err RFPExpired)
  /\ (forall u k b r, responses db !! k = Some r -> Response.rfp_id r = id ->
        responseController.updateResponse now u k b db <> Err RFPExpired
        /\ responseController.submitResponse now u k db <> Err RFPExpired).
Proof.
  intros Hl Hst Hdl.
  assert (Hlt : (RFP.deadline rfp <? now) = false) by (apply Z.ltb_ge; lia).
  assert (Hgt : (RFP.deadline rfp >? now) = false).
  { destruct (Z.gtb_spec (RFP.deadline rfp) now); [lia|reflexivity]. }
  split; [|split; [|split; [|split]]].
  - unfold RFP.is_expired, Helpers.isFutureDate, Helpers.isPastDate. auto.
  - unfold RFP.findActive. apply map_lookup_filter_None. right.
    intros r Hr. assert (r = rfp) by congruence. subst r. simpl.
    rewrite Hgt, andb_false_r. auto.
  - intros u q Hrole Hin.
    apply listing_matches in Hin.
    unfold rfpController.matches, rfpController.build_filter in Hin.
    rewrite Hrole in Hin. simpl in Hin.
    rewrite Hgt in Hin. rewrite !andb_false_r in Hin. simpl in Hin. discriminate.
  - intros oid u b. unfold responseController.createResponse. simpl.
    rewrite Hl. simpl. rewrite Hst, Hlt. simpl.
    destruct (Response.findOne _ _ _); [discriminate|].
    destruct (Response.construct _ _ _); [|discriminate].
    destruct (Response.save_new _ _ _ _ _) as [[? ?]|e] eqn:E; simpl; [discriminate|].
    unfold Response.save_new in E.
    destruct (Response.validate _); [|congruence].
    destruct (responses db !! oid); [congruence|].
    destruct (Response.index_conflict _ _ _); simpl in E; congruence.
  - intros u k b r Hk Hrid. split.
    + unfold responseController.updateResponse. rewrite Hk, Hrid, Hl.
      destruct (Nat.eqb _ _); [|discriminate].
      destruct (Response.is_decided _); simpl; [discriminate|].
      rewrite Hlt. simpl.
      destruct (Response.save _ _ _ _ _) as [[? ?]|e] eqn:E; simpl; [discriminate|].
      unfold Response.save in E.
      destruct (Response.validate _); [|congruence].
      destruct (Response.index_conflict _ _ _); simpl in E; congruence.
    + unfold responseController.submitResponse. rewrite Hk, Hrid, Hl.
      destruct (Nat.eqb _ _); [|discriminate].
      destruct (Response.Status_eqb _ _); simpl; [|discriminate].
      rewrite Hlt. simpl.
      destruct (Response.save _ _ _ _ _) as [[? ?]|e] eqn:E; simpl; [discriminate|].
      unfold Response.save in E.
      destruct (Response.validate _); [|congruence].
      destruct (Response.index_conflict _ _ _); simpl in E; congruence.
Qed.

(** ** Upload, then delete *)

Lemma pull_push oid l : oid ∉ l -> pull oid (l ++ [oid]) = l.
Proof.
  unfold pull. induction l as [|x l IH]; simpl; intros Hn.
  - rewrite Nat.eqb_refl. reflexivity.
  - apply not_elem_of_cons in Hn as [Hne Hn].
    destruct (Nat.eqb_spec x oid) as [->|_]; [congruence|].
    simpl. f_equal. apply IH, Hn.
Qed.

Lemma alter_pull_push_rfp (m : gmap nat RFP.t) rid oid :
  (forall rfp, m !! rid = Some rfp -> oid ∉ RFP.document_ids rfp) ->
  alter (fun r => RFP.set_document_ids (pull oid (RFP.document_ids r)) r) rid
    (alter (fun r => RFP.set_document_ids (RFP.document_ids r ++ [oid]) r) rid m)
  = m.
Proof.
  intros Hn. apply map_eq. intros i.
  destruct (decide (rid = i)) as [<-|Hne];
    [rewrite !lookup_alter_eq|rewrite !lookup_alter_ne by assumption; reflexivity].
  destruct (m !! rid) as [r|] eqn:E; simpl; [|reflexivity].
  f_equal. specialize (Hn r eq_refl). destruct r; simpl in *.
  unfold RFP.set_document_ids. simpl. rewrite (pull_push _ _ Hn). reflexivity.
Qed.

Lemma alter_pull_push_response (m : gmap nat Response.t) rid oid :
  (forall r, m !! rid = Some r -> oid ∉ Response.document_ids r) ->
  alter (fun r => Response.set_document_ids (pull oid (Response.document_ids r)) r) rid
    (alter (fun r => Response.set_document_ids (Response.document_ids r ++ [oid]) r)
       rid m)
  = m.
Proof.
  intros Hn. apply map_eq. intros i.
  destruct (decide (rid = i)) as [<-|Hne];
    [rewrite !lookup_alter_eq|rewrite !lookup_alter_ne by assumption; reflexivity].
  destruct (m !! rid) as [r|] eqn:E; simpl; [|reflexivity].
  f_equal. specialize (Hn r eq_refl). destruct r; simpl in *.
  unfold Response.set_document_ids. simpl. rewrite (pull_push _ _ Hn). reflexivity.
Qed.

Lemma Document_construct_uploader f b uid d :
  Document.construct f b uid = Some d -> Document.uploaded_by d = uid.
Proof.
  unfold Document.construct. destruct (Document.b_document_type b); [|discriminate].
  intros [= <-]. reflexivity.
Qed.

(** X24.  Deleting a Document right after its upload gives the database
    back as it was before the upload, provided the new [_id] was in the
    [document_ids] of no parent that the upload names: the [$pull] of
    [deleteDocument] then undoes the [$push] of [uploadDocument] on the
    same parents, and nothing else is left of the upload (the embedding
    carries no [updated_at]).  A list that held the [_id] before the
    upload would lose it: [$pull] removes every occurrence. *)
Theorem upload_then_delete now oid file u b db d' db' :
  documentController.uploadDocument now oid file u b db = Ok (d', db') ->
  (forall rid rfp, Document.b_rfp_id b = Some rid -> rfps db !! rid = Some rfp ->
     oid ∉ RFP.document_ids rfp) ->
  (forall rid r, Document.b_response_id b = Some rid -> responses db !! rid = Some r ->
     oid ∉ Response.document_ids r) ->
  documentController.deleteDocument u oid db' = Ok db.
Proof.
  intros H Hrfp Hresp.
  apply uploadDocument_Ok in H as (f & d & _ & Hc & _ & _ & _ & _ & Hnew & -> & ->).
  destruct (Document_construct_parents _ _ _ _ Hc) as (_ & Prfp & Presp).
  pose proof (Document_construct_uploader _ _ _ _ Hc) as Hup.
  unfold documentController.deleteDocument.
  assert (Hdoc : documents (push_parents b oid
                   (with_documents (<[oid := Document.set_created_at now d]> (documents db)) db))
                 !! oid = Some (Document.set_created_at now d)).
  { unfold push_parents.
    destruct (Document.b_response_id b), (Document.b_rfp_id b); simpl;
      apply lookup_insert_eq. }
  rewrite Hdoc. simpl. rewrite Hup, Nat.eqb_refl. simpl.
  rewrite Prfp, Presp. f_equal.
  destruct db as [R S D]. simpl in *.
  unfold push_parents, pull_rfp_document, pull_response_document,
    push_rfp_document, push_response_document, with_documents, with_rfps,
    with_responses.
  destruct (Document.b_rfp_id b) as [rid|] eqn:E1,
           (Document.b_response_id b) as [sid|] eqn:E2; simpl;
    rewrite ?alter_pull_push_rfp, ?alter_pull_push_response by eauto;
    rewrite delete_insert_id by assumption; reflexivity.
Qed.

(** ** The lists of documents of the parents *)

Lemma rfps_push_parents_lookup b oid db id :
  rfps (push_parents b oid db) !! id
  = if decide (Document.b_rfp_id b = Some id)
    then (fun r => RFP.set_document_ids (RFP.document_ids r ++ [oid]) r) <$> rfps db !! id
    else rfps db !! id.
Proof.
  unfold push_parents, push_rfp_document, push_response_document, with_rfps,
    with_responses.
  destruct (Document.b_response_id b), (Document.b_rfp_id b) as [rid|]; cbn [rfps];
    case_decide as E; try discriminate E; try reflexivity;
    try (injection E as ->; apply lookup_alter_eq);
    apply lookup_alter_ne; congruence.
Qed.

Lemma responses_push_parents_lookup b oid db id :
  responses (push_parents b oid db) !! id
  = if decide (Document.b_response_id b = Some id)
    then (fun r => Response.set_document_ids (Response.document_ids r ++ [oid]) r)
           <$> responses db !! id
    else responses db !! id.
Proof.
  unfold push_parents, push_rfp_document, push_response_document, with_rfps,
    with_responses.
  destruct (Document.b_response_id b) as [rid|], (Document.b_rfp_id b); cbn [responses];
    case_decide as E; try discriminate E; try reflexivity;
    try (injection E as ->; apply lookup_alter_eq);
    apply lookup_alter_ne; congruence.
Qed.

Lemma documents_push_parents b oid db :
  documents (push_parents b oid db) = documents db.
Proof.
  unfold push_parents.
  destruct (Document.b_response_id b), (Document.b_rfp_id b); reflexivity.
Qed.

Lemma rfps_pull_parents_lookup d did db id :
  rfps (pull_parents d did db) !! id
  = if decide (Document.rfp_id d = Some id)
    then (fun r => RFP.set_document_ids (pull did (RFP.document_ids r)) r) <$> rfps db !! id
    else rfps db !! id.
Proof.
  unfold pull_parents, pull_rfp_document, pull_response_document, with_rfps,
    with_responses.
  destruct (Document.response_id d), (Document.rfp_id d) as [rid|]; cbn [rfps];
    case_decide as E; try discriminate E; try reflexivity;
    try (injection E as ->; apply lookup_alter_eq);
    apply lookup_alter_ne; congruence.
Qed.

Lemma responses_pull_parents_lookup d did db id :
  responses (pull_parents d did db) !! id
  = if decide (Document.response_id d = Some id)
    then (fun r => Response.set_document_ids (pull did (Response.document_ids r)) r)
           <$> responses db !! id
    else responses db !! id.
Proof.
  unfold pull_parents, pull_rfp_document, pull_response_document, with_rfps,
    with_responses.
  destruct (Document.response_id d) as [rid|], (Document.rfp_id d); cbn [responses];
    case_decide as E; try discriminate E; try reflexivity;
    try (injection E as ->; apply lookup_alter_eq);
    apply lookup_alter_ne; congruence.
Qed.

Lemma documents_pull_parents d did db :
  documents (pull_parents d did db) = documents db.
Proof.
  unfold pull_parents.
  destruct (Document.response_id d), (Document.rfp_id d); reflexivity.
Qed.

Lemma handle_documents_kept now req_user r db db' :
  ~ may_link r ->
  handle now req_user r db = Ok db' ->
  documents db' = documents db.
Proof.
  intros Hno H. destruct r; simpl in H; simpl in Hno; try tauto.
  - apply bind_Ok in H as [[x db1] [H [= ->]]]. unfold Routes.post_rfp in H.
    apply authenticate_authorize_Ok in H as (u & -> & _ & H).
    apply bind_Ok in H as [b' [Hb H]].
    apply createRFP_Ok in H as (? & _ & _ & _ & _ & ->). reflexivity.
  - apply bind_Ok in H as [[x db1] [H [= ->]]]. unfold Routes.put_rfp in H.
    apply authenticate_authorize_Ok in H as (u & -> & _ & H).
    apply bind_Ok in H as [b' [Hb H]].
    apply updateRFP_Ok in H as (? & _ & _ & _ & _ & _ & _ & ->). reflexivity.
  - unfold Routes.delete_rfp in H.
    apply authenticate_authorize_Ok in H as (u & -> & _ & H).
    apply deleteRFP_Ok in H as (? & _ & _ & _ & ->). reflexivity.
  - apply bind_Ok in H as [[x db1] [H [= ->]]]. unfold Routes.post_rfp_publish in H.
    apply authenticate_authorize_Ok in H as (u & -> & _ & H).
    apply publishRFP_Ok in H as (? & _ & _ & _ & _ & _ & ->). reflexivity.
  - apply bind_Ok in H as [[x db1] [H [= ->]]]. unfold Routes.post_rfp_close in H.
    apply authenticate_authorize_Ok in H as (u & -> & _ & H).
    apply closeRFP_Ok in H as (? & _ & _ & _ & _ & _ & ->). reflexivity.
  - apply bind_Ok in H as [[x db1] [H [= ->]]]. unfold Routes.post_response in H.
    apply authenticate_authorize_Ok in H as (u & -> & _ & H).
    destruct (Validation.validateRfpId rfp_id); [|discriminate].
    apply bind_Ok in H as [b' [Hb H]].
    apply createResponse_Ok in H
      as (rid & rfp & d0 & _ & _ & _ & _ & _ & _ & _ & _ & _ & ->).
    destruct (Response.Status_eqb _ _); reflexivity.
  - apply bind_Ok in H as [[x db1] [H [= ->]]]. unfold Routes.put_response in H.
    apply authenticate_authorize_Ok in H as (u & -> & _ & H).
    apply bind_Ok in H as [b' [Hb H]].
    apply updateResponse_Ok in H as (d0 & rfp & _ & _ & _ & _ & _ & _ & _ & ->).
    destruct (_ && _); reflexivity.
  - unfold Routes.delete_response in H.
    apply authenticate_authorize_Ok in H as (u & -> & _ & H).
    apply deleteResponse_Ok in H as (d0 & _ & _ & _ & ->). reflexivity.
  - apply bind_Ok in H as [[x db1] [H [= ->]]]. unfold Routes.post_response_submit in H.
    apply authenticate_authorize_Ok in H as (u & -> & _ & H).
    apply submitResponse_Ok in H as (d0 & rfp & _ & _ & _ & _ & _ & _ & ->).
    reflexivity.
  - apply bind_Ok in H as [[x db1] [H [= ->]]]. unfold Routes.post_response_review in H.
    apply authenticate_authorize_Ok in H as (u & -> & _ & H).
    apply bind_Ok in H as [b' [Hb H]].
    apply reviewResponse_Ok in H as (d0 & rfp & st & _ & _ & _ & _ & _ & _ & ->).
    reflexivity.
Qed.

Lemma classic_link r : may_link r \/ ~ may_link r.
Proof. destruct r; simpl; tauto. Qed.

(** ** Who changes what *)

Lemma same_but_refl d : same_but_count_and_documents d d.
Proof. destruct d; reflexivity. Qed.

Lemma same_but_counted d :
  same_but_count_and_documents d
    (RFP.set_response_count (RFP.response_count d + 1) d).
Proof. destruct d; reflexivity. Qed.

Lemma same_but_linked d l :
  same_but_count_and_documents d (RFP.set_document_ids l d).
Proof. destruct d; reflexivity. Qed.

Lemma authorized_role (u : User) (ro : Role) :
  existsb (Role_eqb (role u)) [ro] = true -> role u = ro.
Proof. simpl. destruct (role u), ro; simpl; congruence. Qed.

Lemma rfps_counted_same (f : DB -> DB) rid m db id d :
  f = inc_response_count rid \/ f = (fun x => x) ->
  rfps db !! id = Some d ->
  exists d', rfps (f (with_responses m db)) !! id = Some d'
    /\ same_but_count_and_documents d d'.
Proof.
  intros [-> | ->] Hd.
  - rewrite rfps_inc_response_count. simpl. case_decide; subst; rewrite Hd; simpl.
    + eexists. split; [reflexivity|apply same_but_counted].
    + eexists. split; [reflexivity|apply same_but_refl].
  - simpl. eexists. split; [exact Hd|apply same_but_refl].
Qed.

(** X26.  Whatever request succeeds, a stored RFP stays stored and as it
    was, but for [response_count] and [document_ids], unless the request
    is one of a buyer who is the creator of that RFP: nobody else updates,
    publishes, closes or deletes it. *)
Theorem rfp_changed_by_owner_only now req_user r db db' id d :
  handle now req_user r db = Ok db' ->
  rfps db !! id = Some d ->
  (exists d', rfps db' !! id = Some d' /\ same_but_count_and_documents d d')
  \/ (exists u, req_user = Some u /\ role u = buyer
        /\ user_id u = RFP.created_by d).
Proof.
  intros H Hd. destruct r; simpl in H.
  - apply bind_Ok in H as [[x db1] [H [= ->]]]. unfold Routes.post_rfp in H.
    apply authenticate_authorize_Ok in H as (u & -> & _ & H).
    apply bind_Ok in H as [b' [Hb H]].
    apply createRFP_Ok in H as (? & _ & _ & Hn & _ & ->). simpl.
    left. exists d. rewrite lookup_insert_ne by congruence.
    split; [exact Hd|apply same_but_refl].
  - apply bind_Ok in H as [[x db1] [H [= ->]]]. unfold Routes.put_rfp in H.
    apply authenticate_authorize_Ok in H as (u & -> & Hrole & H).
    apply bind_Ok in H as [b' [Hb H]].
    apply updateRFP_Ok in H as (d0 & Hd0 & Ho & _ & _ & _ & _ & ->). simpl.
    destruct (decide (id0 = id)) as [->|Hne].
    + right. exists u. assert (d0 = d) by congruence. subst d0.
      split; [reflexivity|]. split; [now apply authorized_role|congruence].
    + left. exists d. rewrite lookup_insert_ne by assumption.
      split; [exact Hd|apply same_but_refl].
  - unfold Routes.delete_rfp in H.
    apply authenticate_authorize_Ok in H as (u & -> & Hrole & H).
    apply deleteRFP_Ok in H as (d0 & Hd0 & Ho & _ & ->). simpl.
    destruct (decide (id0 = id)) as [->|Hne].
    + right. exists u. assert (d0 = d) by congruence. subst d0.
      split; [reflexivity|]. split; [now apply authorized_role|congruence].
    + left. exists d. rewrite lookup_delete_ne by assumption.
      split; [exact Hd|apply same_but_refl].
  - apply bind_Ok in H as [[x db1] [H [= ->]]]. unfold Routes.post_rfp_publish in H.
    apply authenticate_authorize_Ok in H as (u & -> & Hrole & H).
    apply publishRFP_Ok in H as (d0 & Hd0 & Ho & _ & _ & _ & ->). simpl.
    destruct (decide (id0 = id)) as [->|Hne].
    + right. exists u. assert (d0 = d) by congruence. subst d0.
      split; [reflexivity|]. split; [now apply authorized_role|congruence].
    + left. exists d. rewrite lookup_insert_ne by assumption.
      split; [exact Hd|apply same_but_refl].
  - apply bind_Ok in H as [[x db1] [H [= ->]]]. unfold Routes.post_rfp_close in H.
    apply authenticate_authorize_Ok in H as (u & -> & Hrole & H).
    apply closeRFP_Ok in H as (d0 & Hd0 & Ho & _ & _ & _ & ->). simpl.
    destruct (decide (id0 = id)) as [->|Hne].
    + right. exists u. assert (d0 = d) by congruence. subst d0.
      split; [reflexivity|]. split; [now apply authorized_role|congruence].
    + left. exists d. rewrite lookup_insert_ne by assumption.
      split; [exact Hd|apply same_but_refl].
  - apply bind_Ok in H as [[x db1] [H [= ->]]]. unfold Routes.post_response in H.
    apply authenticate_authorize_Ok in H as (u & -> & _ & H).
    destruct (Validation.validateRfpId rfp_id); [|discriminate].
    apply bind_Ok in H as [b' [Hb H]].
    apply createResponse_Ok in H
      as (rid & rfp & d0 & _ & _ & _ & _ & _ & _ & _ & _ & _ & ->).
    left. apply (rfps_counted_same _ rid); [|exact Hd].
    destruct (Response.Status_eqb _ _); auto.
  - apply bind_Ok in H as [[x db1] [H [= ->]]]. unfold Routes.put_response in H.
    apply authenticate_authorize_Ok in H as (u & -> & _ & H).
    apply bind_Ok in H as [b' [Hb H]].
    apply updateResponse_Ok in H as (d0 & rfp & _ & _ & _ & _ & _ & _ & _ & ->).
    left. apply (rfps_counted_same _ (Response.rfp_id x)); [|exact Hd].
    destruct (_ && _); auto.
  - unfold Routes.delete_response in H.
    apply authenticate_authorize_Ok in H as (u & -> & _ & H).
    apply deleteResponse_Ok in H as (d0 & _ & _ & _ & ->). simpl.
    left. exists d. split; [exact Hd|apply same_but_refl].
  - apply bind_Ok in H as [[x db1] [H [= ->]]]. unfold Routes.post_response_submit in H.
    apply authenticate_authorize_Ok in H as (u & -> & _ & H).
    apply submitResponse_Ok in H as (d0 & rfp & _ & _ & _ & _ & _ & _ & ->).
    left. apply (rfps_counted_same _ (Response.rfp_id d0)); [auto|exact Hd].
  - apply bind_Ok in H as [[x db1] [H [= ->]]]. unfold Routes.post_response_review in H.
    apply authenticate_authorize_Ok in H as (u & -> & _ & H).
    apply bind_Ok in H as [b' [Hb H]].
    apply reviewResponse_Ok in H as (d0 & rfp & st & _ & _ & _ & _ & _ & _ & ->).
    simpl. left. exists d. split; [exact Hd|apply same_but_refl].
  - apply bind_Ok in H as [[x db1] [H [= ->]]]. unfold Routes.post_document_upload in H.
    apply authenticate_Ok in H as (u & -> & H).
    apply check_Ok in H as [_ H].
    apply bind_Ok in H as [b' [Hb H]].
    apply uploadDocument_Ok in H as (f & d0 & _ & _ & _ & _ & _ & _ & _ & _ & ->).
    left. rewrite rfps_push_parents_lookup. simpl. rewrite Hd.
    case_decide; simpl; eexists; (split; [reflexivity|]);
      [apply same_but_linked|apply same_but_refl].
  - unfold Routes.delete_document in H.
    apply authenticate_Ok in H as (u & -> & H).
    apply deleteDocument_Ok in H as (d0 & _ & _ & ->).
    left. unfold with_documents. cbn [rfps].
    rewrite rfps_pull_parents_lookup, Hd.
    case_decide; simpl; eexists; (split; [reflexivity|]);
      [apply same_but_linked|apply same_but_refl].
Qed.

(** X27.  Whatever request succeeds, a stored Document stays stored and
    as it was, unless the request is the deletion of that Document by its
    uploader: there is no way to change a Document, and nobody else
    removes it. *)
Theorem stored_document_is_immutable now req_user r db db' k d :
  handle now req_user r db = Ok db' ->
  documents db !! k = Some d ->
  documents db' !! k = Some d
  \/ (r = DeleteDocument k /\ documents db' !! k = None
      /\ exists u, req_user = Some u /\ user_id u = Document.uploaded_by d).
Proof.
  intros H Hd.
  destruct (classic_link r) as [Hlink|Hno].
  - destruct r; simpl in Hlink; try contradiction; simpl in H.
    + apply bind_Ok in H as [[x db1] [H [= ->]]].
      unfold Routes.post_document_upload in H.
      apply authenticate_Ok in H as (u & -> & H).
      apply check_Ok in H as [_ H].
      apply bind_Ok in H as [b' [Hb H]].
      apply uploadDocument_Ok in H as (f & d0 & _ & _ & _ & _ & _ & _ & Hn & _ & ->).
      left. rewrite documents_push_parents. simpl.
      rewrite lookup_insert_ne by congruence. exact Hd.
    + unfold Routes.delete_document in H.
      apply authenticate_Ok in H as (u & -> & H).
      apply deleteDocument_Ok in H as (d0 & Hd0 & Hup & ->).
      unfold with_documents. cbn [documents]. rewrite documents_pull_parents.
      destruct (decide (id = k)) as [->|Hne].
      * right. assert (d0 = d) by congruence. subst d0.
        split; [reflexivity|]. split; [apply lookup_delete_eq|].
        exists u. split; [reflexivity|congruence].
      * left. rewrite lookup_delete_ne by assumption. exact Hd.
  - left. rewrite (handle_documents_kept _ _ _ _ _ Hno H). exact Hd.
Qed.

Lemma same_proposal_pre_save m now d : same_proposal d (Response.pre_save m now d).
Proof.
  unfold Response.pre_save, same_proposal.
  destruct (_ && _ && _); simpl; destruct (_ && _ && _); simpl; repeat split.
Qed.

Lemma responses_kept_linked d : d = Response.set_document_ids (Response.document_ids d) d.
Proof. destruct d; reflexivity. Qed.

(** X28.  Whatever request succeeds, a stored Response stays stored and
    as it was, but for [document_ids], unless the request is one of a
    supplier who is its submitter, or the review of that Response by a
    buyer who is the creator of its RFP; a review leaves the proposal as
    it was: it touches the status, the reviewer's notes and the two dates
    only. *)
Theorem response_changed_by_submitter_or_reviewer now req_user r db db' k d :
  handle now req_user r db = Ok db' ->
  responses db !! k = Some d ->
  (exists d', responses db' !! k = Some d'
     /\ d' = Response.set_document_ids (Response.document_ids d') d)
  \/ (exists u, req_user = Some u /\ role u = supplier
        /\ user_id u = Response.submitted_by d)
  \/ (exists u rfp b d',
        req_user = Some u /\ role u = buyer /\ r = ReviewResponse k b
        /\ rfps db !! Response.rfp_id d = Some rfp
        /\ RFP.created_by rfp = user_id u
        /\ responses db' !! k = Some d'
        /\ same_proposal d d').
Proof.
  intros H Hd.
  assert (Hkeep : forall m : gmap nat Response.t, m !! k = Some d ->
            exists d', m !! k = Some d'
              /\ d' = Response.set_document_ids (Response.document_ids d') d).
  { intros m Hm. exists d. split; [exact Hm|apply responses_kept_linked]. }
  destruct r; simpl in H.
  - apply bind_Ok in H as [[x db1] [H [= ->]]]. unfold Routes.post_rfp in H.
    apply authenticate_authorize_Ok in H as (u & -> & _ & H).
    apply bind_Ok in H as [b' [Hb H]].
    apply createRFP_Ok in H as (? & _ & _ & _ & _ & ->). left. now apply Hkeep.
  - apply bind_Ok in H as [[x db1] [H [= ->]]]. unfold Routes.put_rfp in H.
    apply authenticate_authorize_Ok in H as (u & -> & _ & H).
    apply bind_Ok in H as [b' [Hb H]].
    apply updateRFP_Ok in H as (? & _ & _ & _ & _ & _ & _ & ->). left. now apply Hkeep.
  - unfold Routes.delete_rfp in H.
    apply authenticate_authorize_Ok in H as (u & -> & _ & H).
    apply deleteRFP_Ok in H as (? & _ & _ & _ & ->). left. now apply Hkeep.
  - apply bind_Ok in H as [[x db1] [H [= ->]]]. unfold Routes.post_rfp_publish in H.
    apply authenticate_authorize_Ok in H as (u & -> & _ & H).
    apply publishRFP_Ok in H as (? & _ & _ & _ & _ & _ & ->). left. now apply Hkeep.
  - apply bind_Ok in H as [[x db1] [H [= ->]]]. unfold Routes.post_rfp_close in H.
    apply authenticate_authorize_Ok in H as (u & -> & _ & H).
    apply closeRFP_Ok in H as (? & _ & _ & _ & _ & _ & ->). left. now apply Hkeep.
  - apply bind_Ok in H as [[x db1] [H [= ->]]]. unfold Routes.post_response in H.
    apply authenticate_authorize_Ok in H as (u & -> & _ & H).
    destruct (Validation.validateRfpId rfp_id); [|discriminate].
    apply bind_Ok in H as [b' [Hb H]].
    apply createResponse_Ok in H
      as (rid & rfp & d0 & _ & _ & _ & _ & _ & _ & _ & Hn & _ & ->).
    left. rewrite (responses_counted _ rid) by (destruct (Response.Status_eqb _ _); auto).
    apply Hkeep. simpl. rewrite lookup_insert_ne by congruence. exact Hd.
  - apply bind_Ok in H as [[x db1] [H [= ->]]]. unfold Routes.put_response in H.
    apply authenticate_authorize_Ok in H as (u & -> & Hrole & H).
    apply bind_Ok in H as [b' [Hb H]].
    apply updateResponse_Ok in H as (d0 & rfp & Hd0 & Ho & _ & _ & _ & _ & _ & ->).
    destruct (decide (id = k)) as [->|Hne].
    + right. left. exists u. assert (d0 = d) by congruence. subst d0.
      split; [reflexivity|]. split; [now apply authorized_role|congruence].
    + left. rewrite (responses_counted _ (Response.rfp_id x)) by (destruct (_ && _); auto).
      apply Hkeep. simpl. rewrite lookup_insert_ne by assumption. exact Hd.
  - unfold Routes.delete_response in H.
    apply authenticate_authorize_Ok in H as (u & -> & Hrole & H).
    apply deleteResponse_Ok in H as (d0 & Hd0 & Ho & _ & ->).
    destruct (decide (id = k)) as [->|Hne].
    + right. left. exists u. assert (d0 = d) by congruence. subst d0.
      split; [reflexivity|]. split; [now apply authorized_role|congruence].
    + left. apply Hkeep. simpl. rewrite lookup_delete_ne by assumption. exact Hd.
  - apply bind_Ok in H as [[x db1] [H [= ->]]]. unfold Routes.post_response_submit in H.
    apply authenticate_authorize_Ok in H as (u & -> & Hrole & H).
    apply submitResponse_Ok in H as (d0 & rfp & Hd0 & Ho & _ & _ & _ & _ & ->).
    destruct (decide (id = k)) as [->|Hne].
    + right. left. exists u. assert (d0 = d) by congruence. subst d0.
      split; [reflexivity|]. split; [now apply authorized_role|congruence].
    + left. rewrite (responses_counted _ (Response.rfp_id d0)) by auto.
      apply Hkeep. simpl. rewrite lookup_insert_ne by assumption. exact Hd.
  - apply bind_Ok in H as [[x db1] [H [= ->]]]. unfold Routes.post_response_review in H.
    apply authenticate_authorize_Ok in H as (u & -> & Hrole & H).
    apply bind_Ok in H as [b' [Hb H]].
    apply reviewResponse_Ok in H as (d0 & rfp & st & Hd0 & Hrfp & Ho & _ & _ & -> & ->).
    destruct (decide (id = k)) as [->|Hne].
    + right. right. assert (d0 = d) by congruence. subst d0.
      exists u, rfp, b. eexists.
      split; [reflexivity|]. split; [now apply authorized_role|].
      split; [reflexivity|]. split; [exact Hrfp|]. split; [exact Ho|].
      split; [simpl; apply lookup_insert_eq|].
      match goal with |- same_proposal d (Response.pre_save ?m ?n ?x) =>
        destruct (same_proposal_pre_save m n x)
          as (E1 & E2 & E3 & E4 & E5 & E6 & E7 & E8 & E9 & E10)
      end.
      unfold same_proposal.
      rewrite E1, E2, E3, E4, E5, E6, E7, E8, E9, E10. simpl. repeat split.
    + left. apply Hkeep. simpl. rewrite lookup_insert_ne by assumption. exact Hd.
  - apply bind_Ok in H as [[x db1] [H [= ->]]]. unfold Routes.post_document_upload in H.
    apply authenticate_Ok in H as (u & -> & H).
    apply check_Ok in H as [_ H].
    apply bind_Ok in H as [b' [Hb H]].
    apply uploadDocument_Ok in H as (f & d0 & _ & _ & _ & _ & _ & _ & _ & _ & ->).
    left. rewrite responses_push_parents_lookup. simpl. rewrite Hd.
    case_decide; simpl; eexists; (split; [reflexivity|]).
    + destruct d; reflexivity.
    + apply responses_kept_linked.
  - unfold Routes.delete_document in H.
    apply authenticate_Ok in H as (u & -> & H).
    apply deleteDocument_Ok in H as (d0 & _ & _ & ->).
    left. unfold with_documents. cbn [responses].
    rewrite responses_pull_parents_lookup, Hd.
    case_decide; simpl; eexists; (split; [reflexivity|]).
    + destruct d; reflexivity.
    + apply responses_kept_linked.
Qed.

(** ** What the validators leave true of a stored Response *)

Lemma when_defined_maxlength mx (o : option string) s :
  Schema.when_defined o (Schema.maxlength mx) = true -> o = Some s -> JS.len s <= mx.
Proof. intros H ->. simpl in H. unfold Schema.maxlength in H. lia. Qed.

Lemma Response_validate_fields d :
  Response.validate d = true ->
  JS.len (Response.proposal d) <= 10000
  /\ (forall v, Response.proposed_budget d = Some v -> 0 <= v)
  /\ (forall s, Response.timeline d = Some s -> JS.len s <= 1000)
  /\ (forall s, Response.methodology d = Some s -> JS.len s <= 5000)
  /\ (forall s, Response.team_details d = Some s -> JS.len s <= 3000)
  /\ (forall s, Response.additional_notes d = Some s -> JS.len s <= 2000).
Proof.
  unfold Response.validate. intros H.
  do 3 (apply andb_true_iff in H as [H _]).
  apply andb_true_iff in H as [H Hnotes]. apply andb_true_iff in H as [H Hteam].
  apply andb_true_iff in H as [H Hmeth]. apply andb_true_iff in H as [H Htime].
  apply andb_true_iff in H as [H Hbud]. apply andb_true_iff in H as [_ Hmax].
  split; [unfold Schema.maxlength in Hmax; lia|].
  split.
  { intros v Hv. rewrite Hv in Hbud. simpl in Hbud. unfold Schema.min in Hbud. lia. }
  repeat split; intros s Hs; eapply when_defined_maxlength; eassumption.
Qed.

Lemma well_formed_response_same d d' :
  same_proposal d d' -> well_formed_response d -> well_formed_response d'.
Proof.
  intros (_ & _ & E3 & E4 & E5 & E6 & E7 & E8 & _ & _).
  unfold well_formed_response. rewrite E3, E4, E5, E6, E7, E8. auto.
Qed.

Lemma response_effect_well_formed now r old d' :
  response_effect now r old d' ->
  (forall d, old = Some d -> well_formed_response d) ->
  well_formed_response d'.
Proof.
  intros He Hold.
  destruct He as [r d|r d l _|oid rfp_id b b' uid d Hb Hc Hv
                  |id b b' d Hb Hdec Hv|id d Hst|id b st notes d Hfrom Hal].
  - now apply Hold.
  - exact (Hold d eq_refl).
  - (* created *)
    apply (well_formed_response_same (Response.set_created_at now d));
      [apply same_proposal_pre_save|].
    apply validateResponse_Ok in Hb as [Hchk ->].
    destruct (Response_validate_fields _ Hv) as (F1 & F2 & F3 & F4 & F5 & F6).
    unfold Validation.response_checks in Hchk.
    do 5 (apply andb_true_iff in Hchk as [Hchk _]).
    apply isLength_trimmed in Hchk.
    unfold Response.construct, Validation.response_sanitize in Hc. simpl in Hc.
    destruct rfp_id; [|discriminate]. injection Hc as <-.
    unfold well_formed_response. simpl in *. repeat split; try tauto; auto.
  - (* updated *)
    apply (well_formed_response_same (Response.assign d b'));
      [apply same_proposal_pre_save|].
    apply validateResponse_Ok in Hb as [Hchk ->].
    destruct (Response_validate_fields _ Hv) as (F1 & F2 & F3 & F4 & F5 & F6).
    unfold Validation.response_checks in Hchk.
    do 5 (apply andb_true_iff in Hchk as [Hchk _]).
    apply isLength_trimmed in Hchk.
    unfold well_formed_response. simpl in *. repeat split; try tauto; auto.
  - exact (Hold d eq_refl).
  - apply (well_formed_response_same
             (Response.set_reviewed_at (Some now)
                (Response.set_reviewer_notes notes (Response.set_status st d))));
      [apply same_proposal_pre_save|].
    exact (Hold d eq_refl).
Qed.

(** X29.  In every database that the requests can reach, the proposal of
    a stored Response is trimmed and has 10 to 10000 code units, its
    [proposed_budget] is not negative, and its timeline, methodology, team
    details and additional notes have at most 1000, 5000, 3000 and 2000
    code units. *)
Theorem stored_response_well_formed db :
  reachable db ->
  forall k r, responses db !! k = Some r -> well_formed_response r.
Proof.
  intros Hr.
  apply (reachable_invariant
           (fun db => forall k r, responses db !! k = Some r -> well_formed_response r));
    [| |exact Hr].
  - intros k r Hk. simpl in Hk. rewrite lookup_empty in Hk. discriminate.
  - intros now req_user rq db0 db1 IH H k r Hk.
    eapply response_effect_well_formed.
    + eapply handle_response_effect; eassumption.
    + intros d Hd. eapply IH. exact Hd.
Qed.

(** ** The file types of the stored Documents *)

Lemma fileFilter_content_type f b uid d :
  documentController.fileFilter f = true ->
  Document.construct f b uid = Some d ->
  In (Document.content_type d) documentController.allowedTypes.
Proof.
  unfold documentController.fileFilter. intros Hf Hc.
  apply existsb_exists in Hf as (ty & Hin & E).
  apply String.eqb_eq in E.
  unfold Document.construct in Hc.
  destruct (Document.b_document_type b); [|discriminate].
  injection Hc as <-. cbn [Document.content_type]. rewrite E.
  unfold documentController.allowedTypes in Hin. simpl in Hin.
  repeat (destruct Hin as [<-|Hin]; [vm_compute; tauto|]).
  contradiction.
Qed.

(** Where a stored Document comes from: it was stored before the request,
    or the request is an upload whose file [fileFilter] has let through. *)
Lemma handle_document_origin now req_user r db db' k d' :
  handle now req_user r db = Ok db' ->
  documents db' !! k = Some d' ->
  documents db !! k = Some d'
  \/ exists f b uid d,
       documentController.fileFilter f = true
       /\ Document.construct f b uid = Some d
       /\ d' = Document.set_created_at now d.
Proof.
  intros H Hl.
  destruct (classic_link r) as [Hlink|Hno].
  - destruct r; simpl in Hlink; try contradiction; simpl in H.
    + apply bind_Ok in H as [[x db1] [H [= ->]]].
      unfold Routes.post_document_upload in H.
      apply authenticate_Ok in H as (u & -> & H).
      apply check_Ok in H as [Hfile H].
      apply bind_Ok in H as [b' [Hb H]].
      apply uploadDocument_Ok in H as (f & d & -> & Hc & _ & _ & _ & _ & _ & -> & ->).
      rewrite documents_push_parents in Hl. simpl in Hl.
      destruct (decide (oid = k)) as [->|Hne].
      * rewrite lookup_insert_eq in Hl. injection Hl as <-. right.
        exists f, b', (user_id u), d. auto.
      * rewrite lookup_insert_ne in Hl by assumption. auto.
    + unfold Routes.delete_document in H.
      apply authenticate_Ok in H as (u & -> & H).
      apply deleteDocument_Ok in H as (d & _ & _ & ->).
      rewrite documents_pull_parents in Hl. simpl in Hl.
      apply lookup_delete_Some in Hl as [_ Hl]. auto.
  - left. rewrite (handle_documents_kept _ _ _ _ _ Hno H) in Hl. exact Hl.
Qed.

(** X30.  In every database that the requests can reach, the
    [content_type] of a stored Document is one of the nine MIME types of
    [fileFilter]: multer refuses any other file before the handler, and no
    request rewrites a stored Document. *)
Theorem stored_document_type_allowed db :
  reachable db ->
  forall k d, documents db !! k = Some d ->
    In (Document.content_type d) documentController.allowedTypes.
Proof.
  revert db.
  apply (reachable_invariant
           (fun db => forall k d, documents db !! k = Some d ->
              In (Document.content_type d) documentController.allowedTypes)).
  - intros k d Hl. simpl in Hl. rewrite lookup_empty in Hl. discriminate.
  - intros now req_user r db db' Hinv Hh k d' Hl.
    destruct (handle_document_origin _ _ _ _ _ _ _ Hh Hl)
      as [Hold|(f & b & uid & d & Hf & Hc & ->)].
    + exact (Hinv k d' Hold).
    + exact (fileFilter_content_type f b uid d Hf Hc).
Qed.

(** ** The properties above on the scenario *)

Lemma reachable_db_open : reachable Scenario.db_open.
Proof. exists Scenario.opening. reflexivity. Qed.

Lemma reachable_db_submitted : reachable Scenario.db_submitted.
Proof. exists Scenario.submission. vm_compute. reflexivity. Qed.

Lemma daysBetween_symmetric_exact_witness :
  JS.is_time_value 259200500 = true
  /\ JS.isSafeInteger (259200500 - 500) = true
  /\ Helpers.daysBetween 259200500 500 = 3
  /\ Helpers.daysBetween 259200500 500 = Helpers.daysBetween 500 259200500.
Proof.
  destruct (daysBetween_symmetric_exact 259200500 500 eq_refl eq_refl eq_refl)
    as (H1 & _ & H3 & _).
  split; [reflexivity|]. split; [reflexivity|].
  split; [exact (H3 3 eq_refl)|exact H1].
Defined.

Lemma listing_pages_witness :
  (Validation.validatePagination (Some 1) None = true
   /\ (length (rfpController.data
                 (rfpController.getAllRFPs (fun _ _ => true) 1004 None (rfps_page 1)
                    Scenario.db_open)) <= 100)%nat)
  /\ (length (responseController.data
                (responseController.getAllResponses Scenario.bob
                   Scenario.no_response_query Scenario.db_open)) <= 100)%nat
  /\ (length (documentController.data
                (documentController.getAllDocuments Scenario.alice
                   Scenario.no_document_query Scenario.db_uploaded)) <= 100)%nat.
Proof.
  destruct listing_pages as (H1 & H2 & H3).
  split; [split; [reflexivity|]|split].
  - exact (proj1 (proj2 (H1 (fun _ _ => true) 1004 None (rfps_page 1)
                           Scenario.db_open eq_refl eq_refl eq_refl))).
  - exact (proj1 (proj2 (H2 Scenario.bob Scenario.no_response_query
                           Scenario.db_open eq_refl))).
  - exact (proj1 (proj2 (H3 Scenario.alice Scenario.no_document_query
                           Scenario.db_uploaded eq_refl))).
Defined.

Lemma draft_listed_to_non_owner_witness :
  exists rfp,
    rfps Scenario.db_draft !! 10%nat = Some rfp
    /\ RFP.status rfp = RFP.draft
    /\ Routes.get_rfp (Some Scenario.dave) 10 Scenario.db_draft = Err AccessDenied
    /\ exists page answer,
         Routes.get_rfps (fun _ _ => true) 1004 (Some Scenario.dave) (rfps_page page)
           Scenario.db_draft = Ok answer
         /\ rfp ∈ rfpController.data answer.
Proof.
  eexists. split; [vm_compute; reflexivity|]. split; [reflexivity|].
  apply (draft_listed_to_non_owner (fun _ _ => true) 1004 (Some Scenario.dave)
           Scenario.db_draft 10%nat).
  - vm_compute. reflexivity.
  - reflexivity.
  - intros (u & [= <-] & Hu). discriminate Hu.
  - intros u [= <-]. reflexivity.
Defined.

Lemma getAllRFPs_scope_witness :
  exists r,
    r ∈ rfpController.data
          (rfpController.getAllRFPs (fun _ _ => true) 1004 (Some Scenario.bob)
             Scenario.no_query Scenario.db_open)
    /\ RFP.status r = RFP.published /\ RFP.deadline r > 1004.
Proof.
  assert (E : exists r,
             rfpController.data
               (rfpController.getAllRFPs (fun _ _ => true) 1004 (Some Scenario.bob)
                  Scenario.no_query Scenario.db_open) = [r])
    by (eexists; vm_compute; reflexivity).
  destruct E as [r E]. exists r.
  assert (Hin : r ∈ rfpController.data
                      (rfpController.getAllRFPs (fun _ _ => true) 1004
                         (Some Scenario.bob) Scenario.no_query Scenario.db_open))
    by (rewrite E; apply list_elem_of_here).
  split; [exact Hin|].
  destruct (getAllRFPs_scope _ _ _ _ _ _ Hin) as (_ & Hs & _).
  exact (Hs Scenario.bob eq_refl eq_refl).
Defined.

Lemma getAllResponses_scope_witness :
  exists r,
    r ∈ responseController.data
          (responseController.getAllResponses Scenario.bob Scenario.no_response_query
             Scenario.db_open)
    /\ Response.submitted_by r = user_id Scenario.bob.
Proof.
  assert (E : exists r,
             responseController.data
               (responseController.getAllResponses Scenario.bob
                  Scenario.no_response_query Scenario.db_open) = [r])
    by (eexists; vm_compute; reflexivity).
  destruct E as [r E]. exists r.
  assert (Hin : r ∈ responseController.data
                      (responseController.getAllResponses Scenario.bob
                         Scenario.no_response_query Scenario.db_open))
    by (rewrite E; apply list_elem_of_here).
  split; [exact Hin|].
  destruct (getAllResponses_scope _ _ _ _ Hin) as (_ & _ & Hs & _).
  exact (Hs eq_refl).
Defined.

Lemma getResponseById_access_witness :
  exists r rfp,
    responses Scenario.db_open !! 20%nat = Some r
    /\ rfps Scenario.db_open !! Response.rfp_id r = Some rfp
    /\ responseController.getResponseById Scenario.bob 20 Scenario.db_open = Ok r
    /\ responseController.getResponseById Scenario.alice 20 Scenario.db_open = Ok r
    /\ responseController.getResponseById Scenario.carol 20 Scenario.db_open
       = Err AccessDenied.
Proof.
  eexists _, _. split; [vm_compute; reflexivity|]. split; [vm_compute; reflexivity|].
  edestruct (getResponseById_access Scenario.bob 20%nat Scenario.db_open) as [Hb _];
    [vm_compute; reflexivity|].
  edestruct Hb as [Hb1 _]; [vm_compute; reflexivity|].
  edestruct (getResponseById_access Scenario.alice 20%nat Scenario.db_open) as [Ha _];
    [vm_compute; reflexivity|].
  edestruct Ha as [Ha1 _]; [vm_compute; reflexivity|].
  edestruct (getResponseById_access Scenario.carol 20%nat Scenario.db_open) as [Hc _];
    [vm_compute; reflexivity|].
  edestruct Hc as [_ Hc2]; [vm_compute; reflexivity|].
  split; [apply Hb1; left; reflexivity|].
  split; [apply Ha1; right; reflexivity|].
  apply Hc2; discriminate.
Defined.

Lemma getRFPResponses_complete_witness :
  (exists rfp l,
      rfps Scenario.db_open !! 10%nat = Some rfp
      /\ Routes.get_rfp_responses (Some Scenario.alice) 10 Scenario.db_open = Ok l
      /\ forall r, r ∈ l <->
           exists k, responses Scenario.db_open !! k = Some r
             /\ Response.rfp_id r = 10%nat)
  /\ Routes.get_rfp_responses (Some Scenario.dave) 10 Scenario.db_open
     = Err AccessDenied
  /\ Routes.get_rfp_responses (Some Scenario.bob) 10 Scenario.db_open
     = Err RoleRestricted.
Proof.
  assert (Hl : exists rfp, rfps Scenario.db_open !! 10%nat = Some rfp
                 /\ RFP.created_by rfp = 1%nat)
    by (eexists; split; vm_compute; reflexivity).
  destruct Hl as (rfp & Hl & Hc).
  split; [|split].
  - destruct (getRFPResponses_complete (Some Scenario.alice) 10%nat Scenario.db_open
                rfp Hl) as (H1 & _ & _).
    destruct (H1 Scenario.alice eq_refl eq_refl) as (l & Hok & Hall & _);
      [simpl; congruence|].
    exists rfp, l. split; [exact Hl|]. split; [exact Hok|exact Hall].
  - destruct (getRFPResponses_complete (Some Scenario.dave) 10%nat Scenario.db_open
                rfp Hl) as (_ & H2 & _).
    apply (H2 Scenario.dave eq_refl eq_refl). simpl. rewrite Hc. discriminate.
  - destruct (getRFPResponses_complete (Some Scenario.bob) 10%nat Scenario.db_open
                rfp Hl) as (_ & _ & H3).
    exact (H3 Scenario.bob eq_refl eq_refl).
Defined.

Lemma getAllDocuments_scope_witness :
  exists d,
    d ∈ documentController.data
          (documentController.getAllDocuments Scenario.alice
             Scenario.no_document_query Scenario.db_uploaded)
    /\ Document.uploaded_by d = user_id Scenario.alice.
Proof.
  assert (E : exists d,
             documentController.data
               (documentController.getAllDocuments Scenario.alice
                  Scenario.no_document_query Scenario.db_uploaded) = [d])
    by (eexists; vm_compute; reflexivity).
  destruct E as [d E]. exists d.
  assert (Hin : d ∈ documentController.data
                      (documentController.getAllDocuments Scenario.alice
                         Scenario.no_document_query Scenario.db_uploaded))
    by (rewrite E; apply list_elem_of_here).
  split; [exact Hin|].
  destruct (getAllDocuments_scope _ _ _ _ Hin) as (_ & _ & _ & _ & Hs).
  exact (Hs eq_refl eq_refl).
Defined.

Lemma documents_of_rfp_listed_to_everyone_witness :
  exists d,
    documents Scenario.db_uploaded !! 30%nat = Some d
    /\ Document.rfp_id d = Some 10%nat
    /\ documentController.getDocumentById Scenario.carol 30 Scenario.db_uploaded
       = Err AccessDenied
    /\ exists page answer,
         Routes.get_documents (Some Scenario.carol) (rfp_documents_page 10 page)
           Scenario.db_uploaded = Ok answer
         /\ d ∈ documentController.data answer.
Proof.
  eexists. split; [vm_compute; reflexivity|]. split; [reflexivity|].
  split; [vm_compute; reflexivity|].
  apply (documents_of_rfp_listed_to_everyone Scenario.carol 30%nat Scenario.db_uploaded);
    [vm_compute; reflexivity|reflexivity].
Defined.

Lemma document_access_witness :
  exists d,
    documents Scenario.db_uploaded !! 30%nat = Some d
    /\ documentController.getDocumentById Scenario.alice 30 Scenario.db_uploaded = Ok d
    /\ documentController.getDocumentById Scenario.carol 30 Scenario.db_uploaded
       = Err AccessDenied.
Proof.
  eexists. split; [vm_compute; reflexivity|].
  edestruct (document_access (fun _ => true) Scenario.alice 30%nat Scenario.db_uploaded)
    as (Hiff & _ & _); [vm_compute; reflexivity|].
  edestruct (document_access (fun _ => true) Scenario.carol 30%nat Scenario.db_uploaded)
    as (_ & Hden & _); [vm_compute; reflexivity|].
  split; [apply Hiff; left; reflexivity|].
  apply Hden. vm_compute. discriminate.
Defined.

Lemma deleteRFP_orphans_responses_witness :
  exists db' r,
    rfpController.deleteRFP Scenario.alice 10 Scenario.db_withdrawn = Ok db'
    /\ responses db' !! 20%nat = Some r
    /\ Response.rfp_id r = 10%nat
    /\ rfps db' !! 10%nat = None
    /\ responseController.submitResponse 1005 Scenario.bob 20 db' = Err InternalError
    /\ responseController.getResponseById Scenario.bob 20 db' = Err InternalError.
Proof.
  eexists _, _. split; [vm_compute; reflexivity|].
  split; [vm_compute; reflexivity|]. split; [reflexivity|].
  edestruct (deleteRFP_orphans_responses Scenario.alice 10%nat Scenario.db_withdrawn)
    as (Hgone & _ & _ & _ & Hk); [vm_compute; reflexivity|].
  split; [exact Hgone|].
  edestruct (Hk 20%nat) as (_ & Hsub & _ & Hget);
    [vm_compute; reflexivity|reflexivity|].
  split; [rewrite Hsub; reflexivity|apply Hget].
Defined.

Lemma decided_response_is_final_witness :
  exists db' d,
    handle 1005 (Some Scenario.alice) (CloseRFP 10) Scenario.db_approved = Ok db'
    /\ responses Scenario.db_approved !! 20%nat = Some d
    /\ Response.status d = Response.approved
    /\ exists d', responses db' !! 20%nat = Some d'
         /\ d' = Response.set_document_ids (Response.document_ids d') d.
Proof.
  eexists _, _. split; [vm_compute; reflexivity|].
  split; [vm_compute; reflexivity|]. split; [reflexivity|].
  apply (decided_response_is_final 1005 (Some Scenario.alice) (CloseRFP 10)
           Scenario.db_approved);
    [vm_compute; reflexivity|vm_compute; reflexivity|reflexivity].
Defined.

Lemma response_dates_present_witness :
  exists r,
    reachable Scenario.db_submitted
    /\ responses Scenario.db_submitted !! 20%nat = Some r
    /\ Response.status r <> Response.draft
    /\ is_Some (Response.submitted_at r).
Proof.
  eexists. split; [exact reachable_db_submitted|].
  split; [vm_compute; reflexivity|]. split; [discriminate|].
  edestruct (response_dates_present Scenario.db_submitted reachable_db_submitted 20%nat)
    as [Hs _]; [vm_compute; reflexivity|].
  apply Hs. discriminate.
Defined.

Lemma closed_rfp_is_final_witness :
  exists db' d,
    handle 1004 (Some Scenario.bob) (SubmitResponse 20) Scenario.db_closed = Ok db'
    /\ rfps Scenario.db_closed !! 10%nat = Some d
    /\ RFP.status d = RFP.closed
    /\ exists d', rfps db' !! 10%nat = Some d'
         /\ RFP.status d' = RFP.status d
         /\ same_but_count_and_documents d d'
         /\ RFP.response_count d <= RFP.response_count d'.
Proof.
  eexists _, _. split; [vm_compute; reflexivity|].
  split; [vm_compute; reflexivity|]. split; [reflexivity|].
  apply (closed_rfp_is_final 1004 (Some Scenario.bob) (SubmitResponse 20)
           Scenario.db_closed);
    [vm_compute; reflexivity|vm_compute; reflexivity|left; reflexivity].
Defined.

Lemma stored_rfp_well_formed_witness :
  exists d,
    reachable Scenario.db_open
    /\ rfps Scenario.db_open !! 10%nat = Some d
    /\ well_formed d.
Proof.
  eexists. split; [exact reachable_db_open|]. split; [vm_compute; reflexivity|].
  apply (stored_rfp_well_formed Scenario.db_open reachable_db_open 10%nat).
  vm_compute. reflexivity.
Defined.

Lemma write_requires_role_witness :
  handle 1004 None (PublishRFP 10) Scenario.db_draft = Err AuthenticationRequired
  /\ (required_role (PublishRFP 10) = Some buyer
      /\ role Scenario.bob <> buyer
      /\ handle 1004 (Some Scenario.bob) (PublishRFP 10) Scenario.db_draft
         = Err RoleRestricted)
  /\ (required_role (SubmitResponse 20) = Some supplier
      /\ role Scenario.alice <> supplier
      /\ handle 1004 (Some Scenario.alice) (SubmitResponse 20) Scenario.db_open
         = Err RoleRestricted).
Proof.
  split; [exact (proj1 (write_requires_role 1004 (PublishRFP 10) Scenario.db_draft))|].
  split.
  - split; [reflexivity|]. split; [discriminate|].
    apply (proj1 (proj2 (write_requires_role 1004 (PublishRFP 10) Scenario.db_draft))
             Scenario.bob buyer); [reflexivity|discriminate].
  - split; [reflexivity|]. split; [discriminate|].
    apply (proj1 (proj2 (write_requires_role 1004 (SubmitResponse 20) Scenario.db_open))
             Scenario.alice supplier); [reflexivity|discriminate].
Defined.

Lemma resubmission_counts_again_witness :
  exists r0 rfp,
    responses Scenario.db_submitted !! 20%nat = Some r0
    /\ Response.status r0 = Response.submitted
    /\ rfps Scenario.db_submitted !! Response.rfp_id r0 = Some rfp
    /\ RFP.response_count rfp = 1
    /\ exists r1 db1 r2 db2,
         responseController.updateResponse 1004 Scenario.bob 20
           (Scenario.response_body (Some Response.draft)) Scenario.db_submitted
         = Ok (r1, db1)
         /\ Response.status r1 = Response.draft
         /\ rfps db1 = rfps Scenario.db_submitted
         /\ responseController.submitResponse 1005 Scenario.bob 20 db1 = Ok (r2, db2)
         /\ Response.status r2 = Response.submitted
         /\ counted_once (Response.rfp_id r0) Scenario.db_submitted db2.
Proof.
  eexists _, _. split; [vm_compute; reflexivity|]. split; [reflexivity|].
  split; [vm_compute; reflexivity|]. split; [reflexivity|].
  eapply (resubmission_counts_again 1004 1005 Scenario.bob 20%nat
            (Scenario.response_body (Some Response.draft)) Scenario.db_submitted).
  - vm_compute. reflexivity.
  - reflexivity.
  - left. reflexivity.
  - vm_compute. reflexivity.
  - simpl. lia.
  - simpl. lia.
  - reflexivity.
  - vm_compute. reflexivity.
  - apply unique_pairs_reachable, reachable_db_submitted.
Defined.

Lemma deadline_instant_witness :
  exists rfp,
    rfps Scenario.db_open !! 10%nat = Some rfp
    /\ RFP.status rfp = RFP.published
    /\ RFP.deadline rfp = 5000
    /\ RFP.is_expired 5000 rfp = false
    /\ RFP.findActive 5000 (rfps Scenario.db_open) !! 10%nat = None
    /\ (rfp ∉ rfpController.data
                (rfpController.getAllRFPs (fun _ _ => true) 5000 (Some Scenario.bob)
                   Scenario.no_query Scenario.db_open))
    /\ responseController.createResponse 5000 21 Scenario.carol (Some 10%nat)
         (Scenario.response_body None) Scenario.db_open <> Err RFPExpired.
Proof.
  eexists. split; [vm_compute; reflexivity|]. split; [reflexivity|].
  split; [reflexivity|].
  edestruct (deadline_instant (fun _ _ => true) 5000 Scenario.db_open 10%nat)
    as ((He & _ & _) & Ha & Hlist & Hc & _);
    [vm_compute; reflexivity|reflexivity|reflexivity|].
  split; [exact He|]. split; [exact Ha|].
  split; [exact (Hlist Scenario.bob Scenario.no_query eq_refl)|].
  apply Hc.
Defined.

Lemma upload_then_delete_witness :
  exists d' db',
    documentController.uploadDocument 1004 30 (Some Scenario.a_file) Scenario.alice
      (Scenario.upload_body Document.rfp_document (Some 10%nat) None) Scenario.db_open
    = Ok (d', db')
    /\ RFP.document_ids <$> rfps db' !! 10%nat = Some [30%nat]
    /\ documentController.deleteDocument Scenario.alice 30 db' = Ok Scenario.db_open.
Proof.
  eexists _, _. split; [vm_compute; reflexivity|].
  split; [vm_compute; reflexivity|].
  eapply (upload_then_delete 1004 30%nat (Some Scenario.a_file) Scenario.alice
            (Scenario.upload_body Document.rfp_document (Some 10%nat) None)
            Scenario.db_open).
  - vm_compute. reflexivity.
  - intros rid rfp Hb Hl. simpl in Hb. injection Hb as <-.
    vm_compute in Hl. injection Hl as <-. apply not_elem_of_nil.
  - intros rid r Hb. discriminate Hb.
Defined.

Lemma rfp_changed_by_owner_only_witness :
  exists db' d,
    handle 1003 (Some Scenario.alice) (CloseRFP 10) Scenario.db_open = Ok db'
    /\ rfps Scenario.db_open !! 10%nat = Some d
    /\ ((exists d', rfps db' !! 10%nat = Some d' /\ same_but_count_and_documents d d')
        \/ (exists u, Some Scenario.alice = Some u /\ role u = buyer
              /\ user_id u = RFP.created_by d)).
Proof.
  eexists _, _. split; [vm_compute; reflexivity|].
  split; [vm_compute; reflexivity|].
  apply (rfp_changed_by_owner_only 1003 (Some Scenario.alice) (CloseRFP 10)
           Scenario.db_open); vm_compute; reflexivity.
Defined.

Lemma stored_document_is_immutable_witness :
  exists db' d,
    handle 1005 (Some Scenario.alice) (DeleteDocument 30) Scenario.db_uploaded = Ok db'
    /\ documents Scenario.db_uploaded !! 30%nat = Some d
    /\ (documents db' !! 30%nat = Some d
        \/ (DeleteDocument 30 = DeleteDocument 30 /\ documents db' !! 30%nat = None
            /\ exists u, Some Scenario.alice = Some u
                 /\ user_id u = Document.uploaded_by d)).
Proof.
  eexists _, _. split; [vm_compute; reflexivity|].
  split; [vm_compute; reflexivity|].
  apply (stored_document_is_immutable 1005 (Some Scenario.alice) (DeleteDocument 30)
           Scenario.db_uploaded); vm_compute; reflexivity.
Defined.

Lemma response_changed_by_submitter_or_reviewer_witness :
  exists db' d,
    handle 1004 (Some Scenario.alice)
      (ReviewResponse 20 (Scenario.review_body Response.approved)) Scenario.db_submitted
    = Ok db'
    /\ responses Scenario.db_submitted !! 20%nat = Some d
    /\ ((exists d', responses db' !! 20%nat = Some d'
           /\ d' = Response.set_document_ids (Response.document_ids d') d)
        \/ (exists u, Some Scenario.alice = Some u /\ role u = supplier
              /\ user_id u = Response.submitted_by d)
        \/ (exists u rfp b d',
              Some Scenario.alice = Some u /\ role u = buyer
              /\ ReviewResponse 20 (Scenario.review_body Response.approved)
                 = ReviewResponse 20 b
              /\ rfps Scenario.db_submitted !! Response.rfp_id d = Some rfp
              /\ RFP.created_by rfp = user_id u
              /\ responses db' !! 20%nat = Some d'
              /\ same_proposal d d')).
Proof.
  eexists _, _. split; [vm_compute; reflexivity|].
  split; [vm_compute; reflexivity|].
  apply (response_changed_by_submitter_or_reviewer 1004 (Some Scenario.alice)
           (ReviewResponse 20 (Scenario.review_body Response.approved))
           Scenario.db_submitted); vm_compute; reflexivity.
Defined.

Lemma stored_response_well_formed_witness :
  exists r,
    reachable Scenario.db_open
    /\ responses Scenario.db_open !! 20%nat = Some r
    /\ well_formed_response r.
Proof.
  eexists. split; [exact reachable_db_open|]. split; [vm_compute; reflexivity|].
  apply (stored_response_well_formed Scenario.db_open reachable_db_open 20%nat).
  vm_compute. reflexivity.
Defined.

Lemma stored_document_type_allowed_witness :
  reachable Scenario.db_uploaded
  /\ Document.content_type <$> documents Scenario.db_uploaded !! 30%nat
     = Some "application/pdf"
  /\ (forall d, documents Scenario.db_uploaded !! 30%nat = Some d ->
        In (Document.content_type d) documentController.allowedTypes)
  /\ handle 1004 (Some Scenario.alice)
       (UploadDocument 30
          (Some {| Document.f_filename := "3f2a-1700000000000.exe";
                   Document.f_originalname := "setup.exe";
                   Document.f_size := 2048;
                   Document.f_mimetype := "application/x-msdownload";
                   Document.f_path := "uploads/3f2a-1700000000000.exe" |})
          (Scenario.upload_body Document.rfp_document (Some 10%nat) None))
       Scenario.db_open
     = Err InvalidFileType.
Proof.
  assert (Hr : reachable Scenario.db_uploaded) by (eexists; reflexivity).
  split; [exact Hr|]. split; [vm_compute; reflexivity|].
  split; [|vm_compute; reflexivity].
  intros d Hl. exact (stored_document_type_allowed Scenario.db_uploaded Hr 30%nat d Hl).
Defined.
